(** * osbs-client: build request rendering (osbs/build/build_requestv2.py)

    A shallow embedding of [BaseBuildRequest] and [BuildRequestV2]: the
    template document is a tree of Python values, the request builder is a
    record of its attributes, and every method is a computation in a state
    and exception monad over that record.  Python mutates the builder and
    the document in place and may then raise, so the state reached at a
    raise is kept. *)

From stdpp Require Import gmap strings list fin_maps pretty.
From Stdlib Require Import ZArith String Ascii Lia.

#[local] Set Warnings "-register-all".
#[local] Open Scope string_scope.

(** ** Python values

    What [json.load] produces and what keyword arguments carry: [None],
    booleans, integers, strings, lists and dicts with string keys.  Floats
    do not occur in the code modelled here.  A dict is a finite map: Python
    compares dicts without regard to insertion order. *)

Inductive pyval : Type :=
| PyNone
| PyBool (b : bool)
| PyInt (z : Z)
| PyStr (s : string)
| PyList (l : list pyval)
| PyDict (m : gmap string pyval).

Abbreviation dict := (gmap string pyval).

(** [bool(v)], as used by [if v:] and [not v]. *)
Definition truthy (v : pyval) : bool :=
  match v with
  | PyNone => false
  | PyBool b => b
  | PyInt z => negb (z =? 0)%Z
  | PyStr s => negb (s =? "")
  | PyList l => match l with [] => false | _ :: _ => true end
  | PyDict m => match map_to_list m with [] => false | _ :: _ => true end
  end.

(** [v == True]: what [tuple.count(True)] tests.  [1 == True] in Python. *)
Definition eq_True (v : pyval) : bool :=
  match v with
  | PyBool b => b
  | PyInt z => (z =? 1)%Z
  | _ => false
  end.

(** [v == s] for a string literal [s]. *)
Definition eq_str (v : pyval) (s : string) : bool :=
  match v with
  | PyStr s' => s' =? s
  | _ => false
  end.

(** A parameter value that is a string or [None]. *)
Definition of_opt_str (o : option string) : pyval :=
  match o with Some s => PyStr s | None => PyNone end.

Definition truthy_str (o : option string) : bool :=
  match o with Some s => negb (s =? "") | None => false end.

(** ** Exceptions and results *)

Inductive exn : Type :=
| OsbsValidationException (msg : string)
| OsbsException (msg : string)
| RuntimeError (msg : string)
| KeyError (key : string)
| ValueError (msg : string)
| TypeError
| AttributeError
| IndexError
| CollaboratorError (msg : string).

Inductive result (A : Type) : Type :=
| Ok (a : A)
| Raise (e : exn).
Arguments Ok {A} a.
Arguments Raise {A} e.

#[export] Instance result_ret : MRet result := fun _ a => Ok a.
#[export] Instance result_bind : MBind result := fun _ _ f r =>
  match r with Ok a => f a | Raise e => Raise e end.
#[export] Instance result_fmap : FMap result := fun _ _ f r =>
  match r with Ok a => Ok (f a) | Raise e => Raise e end.

Definition is_ok {A} (r : result A) : bool :=
  match r with Ok _ => true | Raise _ => false end.

(** ** Strings: the [str] methods the code calls *)

Definition endswith (s suffix : string) : bool :=
  let n := String.length s in
  let k := String.length suffix in
  (k <=? n)%nat && (String.substring (n - k) k s =? suffix).

Definition startswith (s pre : string) : bool := String.prefix pre s.

(** [s[:-k]] for [k > 0]. *)
Definition drop_last (k : nat) (s : string) : string :=
  String.substring 0 (String.length s - k) s.

(** Cut at the last occurrence of the separator character. *)
Fixpoint rsplit1 (c : ascii) (s : string) : option (string * string) :=
  match s with
  | EmptyString => None
  | String a s' =>
      match rsplit1 c s' with
      | Some (h, t) => Some (String a h, t)
      | None => if Ascii.eqb a c then Some (EmptyString, s') else None
      end
  end.

(** [s.rsplit(c, maxsplit)] for a one-character separator. *)
Fixpoint rsplit (c : ascii) (maxsplit : nat) (s : string) : list string :=
  match maxsplit with
  | O => [s]
  | S n =>
      match rsplit1 c s with
      | Some (h, t) => rsplit c n h ++ [t]
      | None => [s]
      end
  end.

Definition dash : ascii := "-"%char.
Definition dquote : string := String (Ascii.ascii_of_nat 34) EmptyString.
Definition newline : ascii := "010"%char.

(** No occurrence of the character in the string. *)
Fixpoint free_of (c : ascii) (s : string) : bool :=
  match s with
  | EmptyString => true
  | String a s' => negb (Ascii.eqb a c) && free_of c s'
  end.

(** [os.path.join(a, b)] on POSIX. *)
Definition os_path_join (a b : string) : string :=
  if startswith b "/" then b
  else if (a =? "") || endswith a "/" then a ++ b
  else a ++ "/" ++ b.

(** ** Documents: item access on Python values

    Each function is one Python expression or statement on an object and
    gives the object afterwards (for a statement) or the value read. *)

(** [v[k]] *)
Definition getitem (k : string) (v : pyval) : result pyval :=
  match v with
  | PyDict m => match m !! k with Some x => Ok x | None => Raise (KeyError k) end
  | _ => Raise TypeError
  end.

(** [v.get(k, dflt)] *)
Definition dict_get (k : string) (dflt : pyval) (v : pyval) : result pyval :=
  match v with
  | PyDict m => Ok (default dflt (m !! k))
  | _ => Raise AttributeError
  end.

(** [v[k] = x] *)
Definition setitem (k : string) (x : pyval) (v : pyval) : result pyval :=
  match v with
  | PyDict m => Ok (PyDict (<[k := x]> m))
  | _ => Raise TypeError
  end.

(** [v.pop(k, None)] *)
Definition dict_pop (k : string) (v : pyval) : result pyval :=
  match v with
  | PyDict m => Ok (PyDict (delete k m))
  | PyList _ => Raise TypeError
  | _ => Raise AttributeError
  end.

(** [del v[k]] *)
Definition delitem (k : string) (v : pyval) : result pyval :=
  match v with
  | PyDict m =>
      match m !! k with
      | Some _ => Ok (PyDict (delete k m))
      | None => Raise (KeyError k)
      end
  | _ => Raise TypeError
  end.

(** [v.setdefault(k, dflt)] *)
Definition setdefault (k : string) (dflt : pyval) (v : pyval) : result pyval :=
  match v with
  | PyDict m =>
      match m !! k with
      | Some _ => Ok v
      | None => Ok (PyDict (<[k := dflt]> m))
      end
  | _ => Raise AttributeError
  end.

(** [v.update(d)] for a dict [d]: the keys of [d] win. *)
Definition dict_update (d : dict) (v : pyval) : result pyval :=
  match v with
  | PyDict m => Ok (PyDict (d ∪ m))
  | _ => Raise AttributeError
  end.

(** [v.append(x)] *)
Definition list_append (x : pyval) (v : pyval) : result pyval :=
  match v with
  | PyList l => Ok (PyList (l ++ [x]))
  | _ => Raise AttributeError
  end.

(** A statement [f] run on the object [v[k]]: the object is mutated in
    place, so [v] holds the mutated object afterwards. *)
Definition at_key (k : string) (f : pyval → result pyval) (v : pyval)
  : result pyval :=
  x ← getitem k v; x' ← f x; setitem k x' v.

(** The same on [v[k1][k2]...]. *)
Fixpoint at_path (p : list string) (f : pyval → result pyval) (v : pyval)
  : result pyval :=
  match p with
  | [] => f v
  | k :: p' => at_key k (at_path p' f) v
  end.

(** [v[k1][k2]...] *)
Fixpoint get_path (p : list string) (v : pyval) : result pyval :=
  match p with
  | [] => Ok v
  | k :: p' => x ← getitem k v; get_path p' x
  end.

(** ** Collaborators

    [osbs.build.user_params], [osbs.constants], [osbs.utils], the OpenShift
    API client, the repository information, YAML and JSON parsing and the
    file system are not part of the modelled file; they enter as values and
    functions. *)

(** The [.value] of each user parameter the request builder reads. *)
Module BuildUserParams.
Record t : Type := {
  name : pyval;
  platform : option string;
  image_tag : string;
  build_imagestream : option string;
  build_image : pyval;
  reactor_config_override : option dict;
  reactor_config_map : option string;
  git_uri : option string;
  git_ref : pyval;
  git_branch : option string;
  koji_task_id : option Z;
  trigger_imagestreamtag : pyval;
  release : option string;
  build_type : option string;
  worker_deadline : Z;
  orchestrator_deadline : Z;
  flatpak : bool;
  base_image : pyval;
}.

Definition set_base_image (v : pyval) (u : t) : t :=
  {| name := name u; platform := platform u; image_tag := image_tag u;
     build_imagestream := build_imagestream u; build_image := build_image u;
     reactor_config_override := reactor_config_override u;
     reactor_config_map := reactor_config_map u; git_uri := git_uri u;
     git_ref := git_ref u; git_branch := git_branch u;
     koji_task_id := koji_task_id u;
     trigger_imagestreamtag := trigger_imagestreamtag u;
     release := release u; build_type := build_type u;
     worker_deadline := worker_deadline u;
     orchestrator_deadline := orchestrator_deadline u;
     flatpak := flatpak u; base_image := v |}.

(** The parameters with another reactor configuration. *)
Definition with_reactor_config (o : option dict) (cm : option string) (u : t) : t :=
  {| name := name u; platform := platform u; image_tag := image_tag u;
     build_imagestream := build_imagestream u; build_image := build_image u;
     reactor_config_override := o;
     reactor_config_map := cm; git_uri := git_uri u;
     git_ref := git_ref u; git_branch := git_branch u;
     koji_task_id := koji_task_id u;
     trigger_imagestreamtag := trigger_imagestreamtag u;
     release := release u; build_type := build_type u;
     worker_deadline := worker_deadline u;
     orchestrator_deadline := orchestrator_deadline u;
     flatpak := flatpak u; base_image := base_image u |}.

(** The parameters with another release. *)
Definition with_release (r : option string) (u : t) : t :=
  {| name := name u; platform := platform u; image_tag := image_tag u;
     build_imagestream := build_imagestream u; build_image := build_image u;
     reactor_config_override := reactor_config_override u;
     reactor_config_map := reactor_config_map u; git_uri := git_uri u;
     git_ref := git_ref u; git_branch := git_branch u;
     koji_task_id := koji_task_id u;
     trigger_imagestreamtag := trigger_imagestreamtag u;
     release := r; build_type := build_type u;
     worker_deadline := worker_deadline u;
     orchestrator_deadline := orchestrator_deadline u;
     flatpak := flatpak u; base_image := base_image u |}.
End BuildUserParams.

(** [osbs_api.get_config_map(name).get_data_by_key(key)] *)
Record ConfigMap : Type := {
  get_data_by_key : string → result dict;
}.

Record OsbsApi : Type := {
  get_config_map : string → result ConfigMap;
}.

(** What [adjust_for_repo_info] asks of [repo_info]:
    [configuration.is_autorebuild_enabled()],
    [configuration.autorebuild.get('add_timestamp_to_release', False)] and
    whether [Labels(dockerfile_parser.labels)] has a release label (then
    [get_name_and_value] returns, else it raises [KeyError]). *)
Record RepoInfo : Type := {
  is_autorebuild_enabled : bool;
  add_timestamp_to_release : pyval;
  has_release_label : bool;
}.

Record Collaborators : Type := {
  (* osbs.constants *)
  SECRETS_PATH : string;
  BUILD_TYPE_ORCHESTRATOR : string;
  BUILD_TYPE_WORKER : string;
  (* ISOLATED_RELEASE_FORMAT.match(s) is not None, and .pattern *)
  ISOLATED_RELEASE_FORMAT_match : string → bool;
  ISOLATED_RELEASE_FORMAT_pattern : string;
  (* osbs.utils *)
  sanitize_strings_for_openshift : string → string;
  git_repo_humanish_part_from_uri : option string → string;
  (* yaml.safe_dump *)
  yaml_safe_dump : dict → string;
  (* BuildUserParams methods *)
  to_json : BuildUserParams.t → string;
  user_params_validate : BuildUserParams.t → result unit;
  (* user_params.set_params, where the API is passed next to the others *)
  user_params_set_params :
    option OsbsApi → dict → BuildUserParams.t → result BuildUserParams.t;
  (* open(path, "r"): the content, or the repr of the IOError/OSError *)
  open_read : string → string + string;
  (* json.load on the content: it raises ValueError on malformed input *)
  json_load : string → result pyval;
  (* the order in which a set of strings is iterated *)
  set_iter : gset string → list string;
  set_iter_perm : ∀ X, set_iter X ≡ₚ elements X;
  (* the order in which the keys of a dict are iterated *)
  dict_iter : dict → list string;
  dict_iter_perm : ∀ m, dict_iter m ≡ₚ (map_to_list m).*1;
}.

(** ** The request builder

    The attributes of a [BuildRequestV2] instance that the methods below
    read or assign ([_openshift_required_version] and
    [_customize_conf_path] are used by none of them).  [opened] is not an
    attribute: it records, latest first, the paths given to [open]. *)

Record BuildRequestV2 : Type := {
  build_json_store : string;
  _outer_template_path : string;
  _resource_limits : option dict;
  _template : pyval;
  isolated : pyval;
  organization : pyval;
  osbs_api : option OsbsApi;
  scratch : pyval;
  source_registry : pyval;
  user_params : BuildUserParams.t;
  build_json : pyval;
  _repo_info : option RepoInfo;
  is_auto : pyval;
  skip_build : pyval;
  base_image : pyval;
  scratch_build_node_selector : pyval;
  explicit_build_node_selector : pyval;
  auto_build_node_selector : pyval;
  isolated_build_node_selector : pyval;
  platform_node_selector : pyval;
  triggered_after_koji_task : pyval;
  opened : list string;
}.

(** Attribute assignment, [self.<attribute> = x]. *)
Definition assign__template (x : pyval) (st : BuildRequestV2) : BuildRequestV2 :=
  {| build_json_store := build_json_store st; _outer_template_path :=
     _outer_template_path st; _resource_limits := _resource_limits st;
     _template := x; isolated := isolated st; organization := organization
     st; osbs_api := osbs_api st; scratch := scratch st; source_registry
     := source_registry st; user_params := user_params st; build_json :=
     build_json st; _repo_info := _repo_info st; is_auto := is_auto st;
     skip_build := skip_build st; base_image := base_image st;
     scratch_build_node_selector := scratch_build_node_selector st;
     explicit_build_node_selector := explicit_build_node_selector st;
     auto_build_node_selector := auto_build_node_selector st;
     isolated_build_node_selector := isolated_build_node_selector st;
     platform_node_selector := platform_node_selector st;
     triggered_after_koji_task := triggered_after_koji_task st; opened :=
     opened st |}.

Definition assign_organization (x : pyval) (st : BuildRequestV2) : BuildRequestV2 :=
  {| build_json_store := build_json_store st; _outer_template_path :=
     _outer_template_path st; _resource_limits := _resource_limits st;
     _template := _template st; isolated := isolated st; organization :=
     x; osbs_api := osbs_api st; scratch := scratch st; source_registry :=
     source_registry st; user_params := user_params st; build_json :=
     build_json st; _repo_info := _repo_info st; is_auto := is_auto st;
     skip_build := skip_build st; base_image := base_image st;
     scratch_build_node_selector := scratch_build_node_selector st;
     explicit_build_node_selector := explicit_build_node_selector st;
     auto_build_node_selector := auto_build_node_selector st;
     isolated_build_node_selector := isolated_build_node_selector st;
     platform_node_selector := platform_node_selector st;
     triggered_after_koji_task := triggered_after_koji_task st; opened :=
     opened st |}.

Definition assign_source_registry (x : pyval) (st : BuildRequestV2) : BuildRequestV2 :=
  {| build_json_store := build_json_store st; _outer_template_path :=
     _outer_template_path st; _resource_limits := _resource_limits st;
     _template := _template st; isolated := isolated st; organization :=
     organization st; osbs_api := osbs_api st; scratch := scratch st;
     source_registry := x; user_params := user_params st; build_json :=
     build_json st; _repo_info := _repo_info st; is_auto := is_auto st;
     skip_build := skip_build st; base_image := base_image st;
     scratch_build_node_selector := scratch_build_node_selector st;
     explicit_build_node_selector := explicit_build_node_selector st;
     auto_build_node_selector := auto_build_node_selector st;
     isolated_build_node_selector := isolated_build_node_selector st;
     platform_node_selector := platform_node_selector st;
     triggered_after_koji_task := triggered_after_koji_task st; opened :=
     opened st |}.

Definition assign_user_params (x : BuildUserParams.t) (st : BuildRequestV2) : BuildRequestV2 :=
  {| build_json_store := build_json_store st; _outer_template_path :=
     _outer_template_path st; _resource_limits := _resource_limits st;
     _template := _template st; isolated := isolated st; organization :=
     organization st; osbs_api := osbs_api st; scratch := scratch st;
     source_registry := source_registry st; user_params := x; build_json
     := build_json st; _repo_info := _repo_info st; is_auto := is_auto st;
     skip_build := skip_build st; base_image := base_image st;
     scratch_build_node_selector := scratch_build_node_selector st;
     explicit_build_node_selector := explicit_build_node_selector st;
     auto_build_node_selector := auto_build_node_selector st;
     isolated_build_node_selector := isolated_build_node_selector st;
     platform_node_selector := platform_node_selector st;
     triggered_after_koji_task := triggered_after_koji_task st; opened :=
     opened st |}.

Definition assign_build_json (x : pyval) (st : BuildRequestV2) : BuildRequestV2 :=
  {| build_json_store := build_json_store st; _outer_template_path :=
     _outer_template_path st; _resource_limits := _resource_limits st;
     _template := _template st; isolated := isolated st; organization :=
     organization st; osbs_api := osbs_api st; scratch := scratch st;
     source_registry := source_registry st; user_params := user_params st;
     build_json := x; _repo_info := _repo_info st; is_auto := is_auto st;
     skip_build := skip_build st; base_image := base_image st;
     scratch_build_node_selector := scratch_build_node_selector st;
     explicit_build_node_selector := explicit_build_node_selector st;
     auto_build_node_selector := auto_build_node_selector st;
     isolated_build_node_selector := isolated_build_node_selector st;
     platform_node_selector := platform_node_selector st;
     triggered_after_koji_task := triggered_after_koji_task st; opened :=
     opened st |}.

Definition assign_base_image (x : pyval) (st : BuildRequestV2) : BuildRequestV2 :=
  {| build_json_store := build_json_store st; _outer_template_path :=
     _outer_template_path st; _resource_limits := _resource_limits st;
     _template := _template st; isolated := isolated st; organization :=
     organization st; osbs_api := osbs_api st; scratch := scratch st;
     source_registry := source_registry st; user_params := user_params st;
     build_json := build_json st; _repo_info := _repo_info st; is_auto :=
     is_auto st; skip_build := skip_build st; base_image := x;
     scratch_build_node_selector := scratch_build_node_selector st;
     explicit_build_node_selector := explicit_build_node_selector st;
     auto_build_node_selector := auto_build_node_selector st;
     isolated_build_node_selector := isolated_build_node_selector st;
     platform_node_selector := platform_node_selector st;
     triggered_after_koji_task := triggered_after_koji_task st; opened :=
     opened st |}.

Definition assign_scratch_build_node_selector (x : pyval) (st : BuildRequestV2) : BuildRequestV2 :=
  {| build_json_store := build_json_store st; _outer_template_path :=
     _outer_template_path st; _resource_limits := _resource_limits st;
     _template := _template st; isolated := isolated st; organization :=
     organization st; osbs_api := osbs_api st; scratch := scratch st;
     source_registry := source_registry st; user_params := user_params st;
     build_json := build_json st; _repo_info := _repo_info st; is_auto :=
     is_auto st; skip_build := skip_build st; base_image := base_image st;
     scratch_build_node_selector := x; explicit_build_node_selector :=
     explicit_build_node_selector st; auto_build_node_selector :=
     auto_build_node_selector st; isolated_build_node_selector :=
     isolated_build_node_selector st; platform_node_selector :=
     platform_node_selector st; triggered_after_koji_task :=
     triggered_after_koji_task st; opened := opened st |}.

Definition assign_explicit_build_node_selector (x : pyval) (st : BuildRequestV2) : BuildRequestV2 :=
  {| build_json_store := build_json_store st; _outer_template_path :=
     _outer_template_path st; _resource_limits := _resource_limits st;
     _template := _template st; isolated := isolated st; organization :=
     organization st; osbs_api := osbs_api st; scratch := scratch st;
     source_registry := source_registry st; user_params := user_params st;
     build_json := build_json st; _repo_info := _repo_info st; is_auto :=
     is_auto st; skip_build := skip_build st; base_image := base_image st;
     scratch_build_node_selector := scratch_build_node_selector st;
     explicit_build_node_selector := x; auto_build_node_selector :=
     auto_build_node_selector st; isolated_build_node_selector :=
     isolated_build_node_selector st; platform_node_selector :=
     platform_node_selector st; triggered_after_koji_task :=
     triggered_after_koji_task st; opened := opened st |}.

Definition assign_auto_build_node_selector (x : pyval) (st : BuildRequestV2) : BuildRequestV2 :=
  {| build_json_store := build_json_store st; _outer_template_path :=
     _outer_template_path st; _resource_limits := _resource_limits st;
     _template := _template st; isolated := isolated st; organization :=
     organization st; osbs_api := osbs_api st; scratch := scratch st;
     source_registry := source_registry st; user_params := user_params st;
     build_json := build_json st; _repo_info := _repo_info st; is_auto :=
     is_auto st; skip_build := skip_build st; base_image := base_image st;
     scratch_build_node_selector := scratch_build_node_selector st;
     explicit_build_node_selector := explicit_build_node_selector st;
     auto_build_node_selector := x; isolated_build_node_selector :=
     isolated_build_node_selector st; platform_node_selector :=
     platform_node_selector st; triggered_after_koji_task :=
     triggered_after_koji_task st; opened := opened st |}.

Definition assign_isolated_build_node_selector (x : pyval) (st : BuildRequestV2) : BuildRequestV2 :=
  {| build_json_store := build_json_store st; _outer_template_path :=
     _outer_template_path st; _resource_limits := _resource_limits st;
     _template := _template st; isolated := isolated st; organization :=
     organization st; osbs_api := osbs_api st; scratch := scratch st;
     source_registry := source_registry st; user_params := user_params st;
     build_json := build_json st; _repo_info := _repo_info st; is_auto :=
     is_auto st; skip_build := skip_build st; base_image := base_image st;
     scratch_build_node_selector := scratch_build_node_selector st;
     explicit_build_node_selector := explicit_build_node_selector st;
     auto_build_node_selector := auto_build_node_selector st;
     isolated_build_node_selector := x; platform_node_selector :=
     platform_node_selector st; triggered_after_koji_task :=
     triggered_after_koji_task st; opened := opened st |}.

Definition assign_opened (x : list string) (st : BuildRequestV2) : BuildRequestV2 :=
  {| build_json_store := build_json_store st; _outer_template_path :=
     _outer_template_path st; _resource_limits := _resource_limits st;
     _template := _template st; isolated := isolated st; organization :=
     organization st; osbs_api := osbs_api st; scratch := scratch st;
     source_registry := source_registry st; user_params := user_params st;
     build_json := build_json st; _repo_info := _repo_info st; is_auto :=
     is_auto st; skip_build := skip_build st; base_image := base_image st;
     scratch_build_node_selector := scratch_build_node_selector st;
     explicit_build_node_selector := explicit_build_node_selector st;
     auto_build_node_selector := auto_build_node_selector st;
     isolated_build_node_selector := isolated_build_node_selector st;
     platform_node_selector := platform_node_selector st;
     triggered_after_koji_task := triggered_after_koji_task st; opened :=
     x |}.

(** ** The monad of methods

    A method takes the builder to a result, a value or a raised exception,
    and the builder as the method left it. *)

Definition M (A : Type) : Type := BuildRequestV2 → result A * BuildRequestV2.

#[export] Instance M_ret : MRet M := fun _ a st => (Ok a, st).
#[export] Instance M_bind : MBind M := fun _ _ f m st =>
  match m st with
  | (Ok a, st') => f a st'
  | (Raise e, st') => (Raise e, st')
  end.

Definition raise {A} (e : exn) : M A := fun st => (Raise e, st).
Definition get {A} (f : BuildRequestV2 → A) : M A := fun st => (Ok (f st), st).
Definition modify (f : BuildRequestV2 → BuildRequestV2) : M unit :=
  fun st => (Ok tt, f st).
Definition lift {A} (r : result A) : M A := fun st => (r, st).
Definition when (b : bool) (m : M unit) : M unit := if b then m else mret tt.

(** [bool(d)] and the value of a parameter that is a dict or [None]. *)
Definition of_opt_dict (o : option dict) : pyval :=
  match o with Some d => PyDict d | None => PyNone end.

(** [re.match] with the pattern of [is_custom_base_image]: the literal
    koji/image-build anchored at the start, then an optional group of a
    colon and any characters other than a newline, then [$], which accepts
    the end of the string or one last newline. *)
Fixpoint dot_star_end (r : string) : bool :=
  match r with
  | EmptyString => true
  | String c r' =>
      if Ascii.eqb c newline then (r' =? "") else dot_star_end r'
  end.

Definition custom_base_image_match (s : string) : bool :=
  let lit := "koji/image-build" in
  startswith s lit &&
  match String.substring (String.length lit) (String.length s - String.length lit) s with
  | EmptyString => true
  | String c r =>
      (Ascii.eqb c newline && (r =? "")) ||
      (Ascii.eqb c ":"%char && dot_star_end r)
  end.

(** ** BaseBuildRequest and BuildRequestV2 *)

Section Methods.
Variable E : Collaborators.

(** The [template] property: the document is loaded at the first access
    and kept in [_template]. *)
Definition template : M pyval := fun st =>
  match _template st with
  | PyNone =>
      let path := os_path_join (build_json_store st) (_outer_template_path st) in
      let st1 := assign_opened (path :: opened st) st in
      match open_read E path with
      | inl ex =>
          (Raise (OsbsException
                    ("Can't open template '" ++ path ++ "': " ++ ex)), st1)
      | inr content =>
          match json_load E content with
          | Ok doc => (Ok doc, assign__template doc st1)
          | Raise e => (Raise e, st1)
          end
      end
  | t => (Ok t, st)
  end.

(** A statement [self.template[...]... = ...] or a method call that
    mutates the document in place. *)
Definition on_template (f : pyval → result pyval) : M unit :=
  t ← template; t' ← lift (f t); modify (assign__template t').

(** An expression that reads the document. *)
Definition read_template {A} (f : pyval → result A) : M A :=
  t ← template; lift (f t).

Definition custom_strategy_path : list string :=
  ["spec"; "strategy"; "customStrategy"].

(** The loop of [delete_atomic_reactor_placeholder] over the entries. *)
Fixpoint delete_first_placeholder (l : list pyval) : result (list pyval) :=
  match l with
  | [] => Ok []
  | env :: l' =>
      n ← getitem "name" env;
      if eq_str n "ATOMIC_REACTOR_PLUGINS" then Ok l'
      else r ← delete_first_placeholder l'; Ok (env :: r)
  end.

Definition delete_atomic_reactor_placeholder : M unit :=
  on_template (at_path custom_strategy_path (at_key "env" (fun env =>
    match env with
    | PyList l => PyList <$> delete_first_placeholder l
    | PyStr s => if s =? "" then Ok env else Raise TypeError
    | PyDict m => if truthy env then Raise TypeError else Ok env
    | _ => Raise TypeError
    end))).

Definition render_custom_strategy : M unit :=
  up ← get user_params;
  if truthy_str (BuildUserParams.build_imagestream up) then
    on_template (at_path (custom_strategy_path ++ ["from"])
                   (setitem "kind" (PyStr "ImageStreamTag")));;
    on_template (at_path (custom_strategy_path ++ ["from"])
                   (setitem "name" (of_opt_str (BuildUserParams.build_imagestream up))))
  else
    on_template (at_path (custom_strategy_path ++ ["from"])
                   (setitem "name" (BuildUserParams.build_image up))).

(** The tag without its [-<platform>] suffix, when there is a platform. *)
Definition strip_platform (platform : option string) (name : string) : string :=
  if truthy_str platform then
    let platform_suffix := "-" ++ default "" platform in
    if endswith name platform_suffix
    then drop_last (String.length platform_suffix) name
    else name
  else name.

(** [BaseBuildRequest.render_name].  The unpacking of [rsplit] raises
    ValueError for fewer than three parts; Python's message goes on with
    the numbers of values expected and got. *)
Definition render_name : M unit :=
  up ← get user_params;
  scr ← get scratch;
  iso ← get isolated;
  name ←
    (if truthy scr || truthy iso then
       let name := strip_platform (BuildUserParams.platform up)
                                  (BuildUserParams.image_tag up) in
       match rsplit dash 2 name with
       | [_; salt; timestamp] =>
           if truthy scr then
             mret (PyStr ("scratch-" ++ salt ++ "-" ++ timestamp))
           else if truthy iso then
             mret (PyStr ("isolated-" ++ salt ++ "-" ++ timestamp))
           else mret (PyStr name)
       | _ => raise (ValueError "not enough values to unpack")
       end
     else mret (BuildUserParams.name up));
  on_template (at_key "metadata" (setitem "name" name)).

Definition render_output_name : M unit :=
  up ← get user_params;
  on_template (at_path ["spec"; "output"; "to"]
                 (setitem "name" (PyStr (BuildUserParams.image_tag up)))).

Definition render_resource_limits : M unit :=
  rl ← get _resource_limits;
  match rl with
  | None => mret tt
  | Some rl =>
      on_template (fun t =>
        spec ← getitem "spec" t;
        resources ← dict_get "resources" (PyDict ∅) spec;
        limits ← dict_get "limits" (PyDict ∅) resources;
        limits ← dict_update rl limits;
        resources ← setitem "limits" limits resources;
        at_key "spec" (setitem "resources" resources) t)
  end.

Definition render_user_params : M unit :=
  up ← get user_params;
  on_template (at_path (custom_strategy_path ++ ["env"])
    (list_append (PyDict {[ "name" := PyStr "USER_PARAMS";
                            "value" := PyStr (to_json E up) ]}))).

Definition set_label (name : string) (value : option string) : M unit :=
  let value := if truthy_str value then default "" value else "" in
  on_template (at_key "metadata" (setdefault "labels" (PyDict ∅)));;
  let value := sanitize_strings_for_openshift E value in
  on_template (at_path ["metadata"; "labels"] (setitem name (PyStr value))).

Definition adjust_for_scratch : M unit :=
  scr ← get scratch;
  if truthy scr then
    on_template (at_key "spec" (dict_pop "triggers"));;
    set_label "scratch" (Some "true")
  else mret tt.

Definition set_deadline (deadline_hours : Z) : M unit :=
  if (0 <? deadline_hours)%Z then
    let deadline_seconds := (deadline_hours * 3600)%Z in
    on_template (at_key "spec"
      (setitem "completionDeadlineSeconds" (PyInt deadline_seconds)))
  else mret tt.

(** [BaseBuildRequest.set_params]: the keyword [osbs_api] is an object
    and is passed next to the other keyword arguments. *)
Definition Base_set_params (api : option OsbsApi) (kwargs : dict) : M unit :=
  modify (fun st =>
    {| build_json_store := build_json_store st;
       _outer_template_path := _outer_template_path st;
       _resource_limits := _resource_limits st;
       _template := _template st;
       isolated := isolated st;
       organization := organization st;
       osbs_api := api;
       scratch := default PyNone (kwargs !! "scratch");
       source_registry := source_registry st;
       user_params := user_params st;
       build_json := build_json st;
       _repo_info := _repo_info st;
       is_auto := is_auto st;
       skip_build := skip_build st;
       base_image := base_image st;
       scratch_build_node_selector := scratch_build_node_selector st;
       explicit_build_node_selector := explicit_build_node_selector st;
       auto_build_node_selector := auto_build_node_selector st;
       isolated_build_node_selector := isolated_build_node_selector st;
       platform_node_selector := platform_node_selector st;
       triggered_after_koji_task := triggered_after_koji_task st;
       opened := opened st |}).

Definition reactor_config_entry (up : BuildUserParams.t) : option pyval :=
  let reactor_config_override := BuildUserParams.reactor_config_override up in
  let reactor_config_map := BuildUserParams.reactor_config_map up in
  if truthy (of_opt_dict reactor_config_override) then
    Some (PyDict {[ "name" := PyStr "REACTOR_CONFIG";
                    "value" := PyStr (yaml_safe_dump E (default ∅ reactor_config_override)) ]})
  else if truthy_str reactor_config_map then
    Some (PyDict {[ "name" := PyStr "REACTOR_CONFIG";
                    "valueFrom" := PyDict {[ "configMapKeyRef" :=
                       PyDict {[ "name" := of_opt_str reactor_config_map;
                                 "key" := PyStr "config.yaml" ]} ]} ]})
  else None.

Definition set_reactor_config : M unit :=
  up ← get user_params;
  let reactor_config_override := BuildUserParams.reactor_config_override up in
  let reactor_config_map := BuildUserParams.reactor_config_map up in
  if negb (truthy_str reactor_config_map)
     && negb (truthy (of_opt_dict reactor_config_override))
  then mret tt
  else
    _ ← read_template (get_path custom_strategy_path);
    match reactor_config_entry up with
    | Some reactor_config =>
        on_template (at_path (custom_strategy_path ++ ["env"])
                       (list_append reactor_config))
    | None => mret tt
    end.

Definition get_reactor_config_data : M dict :=
  up ← get user_params;
  let reactor_config_override := BuildUserParams.reactor_config_override up in
  let reactor_config_map := BuildUserParams.reactor_config_map up in
  if truthy (of_opt_dict reactor_config_override) then
    mret (default ∅ reactor_config_override)
  else if truthy_str reactor_config_map then
    api ← get osbs_api;
    match api with
    | None => raise AttributeError
    | Some api =>
        config_map ← lift (get_config_map api (default "" reactor_config_map));
        lift (get_data_by_key config_map "config.yaml")
    end
  else mret ∅.

(** The mount entry [_set_required_secrets] appends for a secret. *)
Definition secret_mount (secret : string) : pyval :=
  let secret_path := os_path_join (SECRETS_PATH E) secret in
  PyDict {[ "secretSource" := PyDict {[ "name" := PyStr secret ]};
            "mountPath" := PyStr secret_path ]}.

(** [set(secret_mount['secretSource']['name'] for secret_mount in secrets)],
    as far as it matters for the difference with a set of strings: the
    names that are strings.  The set takes the names one mount after the
    other; a name that is a list or a dict cannot be put in it. *)
Fixpoint existing_names (secrets : list pyval) : result (gset string) :=
  match secrets with
  | [] => Ok ∅
  | secret_mount :: rest =>
      n ← get_path ["secretSource"; "name"] secret_mount;
      match n with
      | PyStr s => names ← existing_names rest; Ok ({[ s ]} ∪ names)
      | PyList _ | PyDict _ => Raise TypeError
      | _ => existing_names rest
      end
  end.

(** The items of a list of strings; an item of another type is taken to
    raise [TypeError] (a list or dict cannot be put in a set, and
    [os.path.join] refuses the others). *)
Fixpoint str_items (l : list pyval) : result (list string) :=
  match l with
  | [] => Ok []
  | PyStr s :: rest => r ← str_items rest; Ok (s :: r)
  | _ :: _ => Raise TypeError
  end.

(** The characters of a string, each as a string. *)
Fixpoint chars (s : string) : list string :=
  match s with
  | EmptyString => []
  | String c s' => String c EmptyString :: chars s'
  end.

(** [set(required_secrets)]: the items of a list, the characters of a
    string, the keys of a dict; anything else cannot be iterated. *)
Definition required_set (required_secrets : pyval) : result (gset string) :=
  match required_secrets with
  | PyList l => r ← str_items l; Ok (list_to_set r)
  | PyStr s => Ok (list_to_set (chars s))
  | PyDict m => Ok (dom m)
  | _ => Raise TypeError
  end.

Definition secrets_path : list string := custom_strategy_path ++ ["secrets"].

Definition _set_required_secrets (required_secrets : pyval) : M unit :=
  if negb (truthy required_secrets) then mret tt
  else
    on_template (at_path custom_strategy_path (setdefault "secrets" (PyList [])));;
    secrets ← read_template (get_path secrets_path);
    existing ← lift (match secrets with
                     | PyList l => existing_names l
                     | _ => Raise TypeError
                     end);
    required ← lift (required_set required_secrets);
    on_template (at_path secrets_path (fun secrets =>
      foldl (fun acc secret => acc ≫= list_append (secret_mount secret))
            (Ok secrets) (set_iter E (required ∖ existing)))).

(** A number as [+] takes it: [True] is 1 and [False] is 0. *)
Definition as_int (v : pyval) : option Z :=
  match v with
  | PyInt z => Some z
  | PyBool b => Some (Z.b2z b)
  | _ => None
  end.

(** The value of [required_secrets] after [required_secrets +=
    token_secrets]: a list is extended by the items of a list, the
    characters of a string or the keys of a dict, two strings are joined
    and two numbers are added; the other operands raise [TypeError]. *)
Definition list_iadd (a b : pyval) : result pyval :=
  match a, b with
  | PyList la, PyList lb => Ok (PyList (la ++ lb))
  | PyList la, PyStr sb => Ok (PyList (la ++ (PyStr <$> chars sb)))
  | PyList la, PyDict mb => Ok (PyList (la ++ (PyStr <$> dict_iter E mb)))
  | PyStr sa, PyStr sb => Ok (PyStr (sa ++ sb))
  | _, _ =>
      match as_int a, as_int b with
      | Some x, Some y => Ok (PyInt (x + y))
      | _, _ => Raise TypeError
      end
  end.

(** The dict that a method is given as reactor configuration.  Python
    passes the object, and [set_required_secrets] extends a list of it in
    place, which whoever holds the object sees.  In [render] the object is
    the one [get_reactor_config_data] returned: the very dict that the
    user parameters hold as reactor_config_override when that is a true
    value, and else a dict that the builder holds nowhere, the data of the
    config map or a new [{}]. *)
Inductive config_object : Type :=
| the_override
| own_dict (d : dict).

(** The dict as it is in a state of the builder. *)
Definition config_value (o : config_object) (st : BuildRequestV2) : dict :=
  match o with
  | the_override =>
      default ∅ (BuildUserParams.reactor_config_override (user_params st))
  | own_dict d => d
  end.

(** The object after a change in place that makes it [d]. *)
Definition config_changed (o : config_object) (d : dict) : M config_object :=
  match o with
  | the_override =>
      up ← get user_params;
      modify (assign_user_params
                (BuildUserParams.with_reactor_config
                   (Some d) (BuildUserParams.reactor_config_map up) up));;
      mret the_override
  | own_dict _ => mret (own_dict d)
  end.

(** The object that [get_reactor_config_data] returned, given its value. *)
Definition returned_config (up : BuildUserParams.t) (data : dict) : config_object :=
  if truthy (of_opt_dict (BuildUserParams.reactor_config_override up))
  then the_override
  else own_dict data.

(** [BuildRequestV2.set_required_secrets], with the reactor configuration
    as the method leaves it for its result.  [reactor_config_data.get]
    gives the list that the dict holds under required_secrets, when it
    holds one, and [+=] extends that list in place: the dict has the
    extended list afterwards.  A value that is no list is not changed
    in place, and without the key the list is the new [[]] of the call. *)
Definition set_required_secrets (o : config_object) : M config_object :=
  reactor_config_data ← get (config_value o);
  let required_secrets :=
    default (PyList []) (reactor_config_data !! "required_secrets") in
  let token_secrets :=
    default (PyList []) (reactor_config_data !! "worker_token_secrets") in
  up ← get user_params;
  if bool_decide (BuildUserParams.build_type up = Some (BUILD_TYPE_ORCHESTRATOR E))
  then
    extended ← lift (list_iadd required_secrets token_secrets);
    o ← match reactor_config_data !! "required_secrets" with
        | Some (PyList _) =>
            config_changed o (<["required_secrets" := extended]> reactor_config_data)
        | _ => mret o
        end;
    _set_required_secrets extended;;
    mret o
  else
    _set_required_secrets required_secrets;;
    mret o.

Definition set_source_registry (reactor_config_data : dict) : M unit :=
  match reactor_config_data !! "source_registry" with
  | Some v => modify (assign_source_registry v)
  | None => mret tt
  end.

Definition set_registry_organization (reactor_config_data : dict) : M unit :=
  match reactor_config_data !! "registries_organization" with
  | Some v => modify (assign_organization v)
  | None => mret tt
  end.

Definition _set_flatpak (reactor_config_data : dict) : M unit :=
  up ← get user_params;
  if BuildUserParams.flatpak up then
    flatpack_base_image ←
      lift (dict_get "base_image" PyNone
              (default (PyDict ∅) (reactor_config_data !! "flatpak")));
    if truthy flatpack_base_image then
      modify (assign_base_image flatpack_base_image);;
      modify (assign_user_params
                (BuildUserParams.set_base_image flatpack_base_image up))
    else raise (OsbsValidationException "flatpak_base_image must be provided")
  else mret tt.

(** [BuildRequestV2.set_data_from_reactor_config], with the reactor
    configuration as the method leaves it for its result; the inherited
    part calls the methods of the instance. *)
Definition set_data_from_reactor_config (o : config_object) : M config_object :=
  reactor_config_data ← get (config_value o);
  set_source_registry reactor_config_data;;
  set_registry_organization reactor_config_data;;
  o ← set_required_secrets o;
  reactor_config_data ← get (config_value o);
  (if negb (truthy (PyDict reactor_config_data)) then
     up ← get user_params;
     if BuildUserParams.flatpak up
     then raise (OsbsValidationException "flatpak_base_image must be provided")
     else mret tt
   else _set_flatpak reactor_config_data);;
  mret o.

(** [BaseBuildRequest.render], as inherited by [BuildRequestV2]. *)
Definition BaseBuildRequest_render (validate : bool) : M pyval :=
  api ← get osbs_api;
  match api with
  | None => raise (OsbsValidationException "OSBS API is not specified")
  | Some _ =>
      (if validate
       then up ← get user_params; lift (user_params_validate E up)
       else mret tt);;
      render_name;;
      render_output_name;;
      render_custom_strategy;;
      render_resource_limits;;
      adjust_for_scratch;;
      set_reactor_config;;
      render_user_params;;
      delete_atomic_reactor_placeholder;;
      data ← get_reactor_config_data;
      up ← get user_params;
      set_data_from_reactor_config (returned_config up data);;
      template
  end.

(** [(...).count(True)] *)
Definition count_True (variations : list pyval) : nat :=
  List.length (List.filter eq_True variations).

Definition validate_build_variation : M unit :=
  scr ← get scratch;
  auto ← get is_auto;
  iso ← get isolated;
  let variations := [scr; auto; iso] in
  if (1 <? count_True variations)%nat then
    raise (OsbsValidationException
             ("Build variations are mutually exclusive. " ++
              "Must set either scratch, is_auto, isolated, or none. "))
  else mret tt.

(** The attributes [BuildRequestV2.set_params] assigns before it
    validates the variation. *)
Definition assign_variation (kwargs : dict) (st : BuildRequestV2) : BuildRequestV2 :=
  {| build_json_store := build_json_store st;
     _outer_template_path := _outer_template_path st;
     _resource_limits := _resource_limits st;
     _template := _template st;
     isolated := default PyNone (kwargs !! "isolated");
     organization := organization st;
     osbs_api := osbs_api st;
     scratch := scratch st;
     source_registry := source_registry st;
     user_params := user_params st;
     build_json := build_json st;
     _repo_info := _repo_info st;
     is_auto := default (PyBool false) (kwargs !! "is_auto");
     skip_build := default (PyBool false) (kwargs !! "skip_build");
     base_image := base_image st;
     scratch_build_node_selector := scratch_build_node_selector st;
     explicit_build_node_selector := explicit_build_node_selector st;
     auto_build_node_selector := auto_build_node_selector st;
     isolated_build_node_selector := isolated_build_node_selector st;
     platform_node_selector := platform_node_selector st;
     triggered_after_koji_task :=
       default PyNone (kwargs !! "triggered_after_koji_task");
     opened := opened st |}.

(** The attributes it assigns after the validation. *)
Definition assign_selectors (kwargs : dict) (st : BuildRequestV2) : BuildRequestV2 :=
  {| build_json_store := build_json_store st;
     _outer_template_path := _outer_template_path st;
     _resource_limits := _resource_limits st;
     _template := _template st;
     isolated := isolated st;
     organization := organization st;
     osbs_api := osbs_api st;
     scratch := scratch st;
     source_registry := source_registry st;
     user_params := user_params st;
     build_json := build_json st;
     _repo_info := _repo_info st;
     is_auto := is_auto st;
     skip_build := skip_build st;
     base_image := default PyNone (kwargs !! "base_image");
     scratch_build_node_selector :=
       default (PyDict ∅) (kwargs !! "scratch_build_node_selector");
     explicit_build_node_selector :=
       default (PyDict ∅) (kwargs !! "explicit_build_node_selector");
     auto_build_node_selector :=
       default (PyDict ∅) (kwargs !! "auto_build_node_selector");
     isolated_build_node_selector :=
       default (PyDict ∅) (kwargs !! "isolated_build_node_selector");
     platform_node_selector :=
       default (PyDict ∅) (kwargs !! "platform_node_selector");
     triggered_after_koji_task := triggered_after_koji_task st;
     opened := opened st |}.

(** [BuildRequestV2.set_params].  [is_auto] and [skip_build] are popped
    from the keyword arguments before the user parameters get them;
    [osbs_api] is popped by [BaseBuildRequest.set_params] from its own
    keyword arguments only, so the user parameters get it as well. *)
Definition set_params (api : option OsbsApi) (kwargs : dict) : M unit :=
  Base_set_params api kwargs;;
  modify (assign_variation kwargs);;
  validate_build_variation;;
  modify (assign_selectors kwargs);;
  up ← get user_params;
  up' ← lift (user_params_set_params E api
                (delete "skip_build" (delete "is_auto" kwargs)) up);
  modify (assign_user_params up').

(** The loop of [has_ist_trigger]. *)
Fixpoint any_ist_trigger (triggers : list pyval) : result bool :=
  match triggers with
  | [] => Ok false
  | trigger :: rest =>
      ty ← getitem "type" trigger;
      if eq_str ty "ImageChange" then
        kind ← get_path ["imageChange"; "from"; "kind"] trigger;
        if eq_str kind "ImageStreamTag" then Ok true
        else any_ist_trigger rest
      else any_ist_trigger rest
  end.

Definition has_ist_trigger : M bool :=
  triggers ← read_template (fun t =>
    spec ← getitem "spec" t; dict_get "triggers" (PyList []) spec);
  if negb (truthy triggers) then mret false
  else match triggers with
       | PyList l => lift (any_ist_trigger l)
       | _ => raise TypeError
       end.

(** A statement on [v[0]]. *)
Definition at_first (f : pyval → result pyval) (v : pyval) : result pyval :=
  match v with
  | PyList (x :: l) => x' ← f x; Ok (PyList (x' :: l))
  | PyList [] => Raise IndexError
  | PyDict _ => Raise (KeyError "0")
  | _ => Raise TypeError
  end.

Definition is_custom_base_image : M bool :=
  b ← get base_image;
  match (if truthy b then b else PyStr "") with
  | PyStr s => mret (custom_base_image_match s)
  | _ => raise TypeError
  end.

Definition is_from_scratch_image : M bool :=
  b ← get base_image;
  mret (eq_str b "scratch").

Definition adjust_for_repo_info : M unit :=
  ri ← get _repo_info;
  match ri with
  | None => mret tt
  | Some repo_info =>
      if negb (is_autorebuild_enabled repo_info) then
        on_template (at_key "spec" (dict_pop "triggers"))
      else if truthy (add_timestamp_to_release repo_info) then mret tt
      else if has_release_label repo_info then
        raise (RuntimeError
                 ("when autorebuild is enabled in repo configuration, " ++
                  dquote ++ "release" ++ dquote ++
                  " label must not be set in Dockerfile"))
      else mret tt
  end.

Definition adjust_for_isolated (release : option string) : M unit :=
  iso ← get isolated;
  if negb (truthy iso) then mret tt
  else
    on_template (at_key "spec" (dict_pop "triggers"));;
    if negb (truthy_str release) then
      raise (OsbsValidationException
               "The release parameter is required for isolated builds.")
    else if negb (ISOLATED_RELEASE_FORMAT_match E (default "" release)) then
      raise (OsbsValidationException
               ("For isolated builds, the release value must be in the format: "
                ++ ISOLATED_RELEASE_FORMAT_pattern E))
    else
      set_label "isolated" (Some "true");;
      set_label "isolated-release" release.

(** The selector attribute [render_node_selectors] puts in the document:
    its value, and the assignment to that same attribute. *)
Definition chosen_selector (st : BuildRequestV2)
  : pyval * (pyval → BuildRequestV2 → BuildRequestV2) :=
  if truthy (is_auto st) then
    (auto_build_node_selector st, assign_auto_build_node_selector)
  else if truthy (scratch st) then
    (scratch_build_node_selector st, assign_scratch_build_node_selector)
  else if truthy (isolated st) then
    (isolated_build_node_selector st, assign_isolated_build_node_selector)
  else
    (explicit_build_node_selector st, assign_explicit_build_node_selector).

(** [render_node_selectors].  The document holds the selector object
    itself, so [update] changes the builder's attribute with it. *)
Definition render_node_selectors (build_type : option string) : M unit :=
  if bool_decide (build_type = Some (BUILD_TYPE_WORKER E)) then
    '(selector, assign_selector) ← get chosen_selector;
    on_template (at_key "spec" (setitem "nodeSelector" selector));;
    platform ← get platform_node_selector;
    if truthy platform then
      match platform with
      | PyDict p =>
          on_template (at_path ["spec"; "nodeSelector"] (dict_update p));;
          updated ← read_template (get_path ["spec"; "nodeSelector"]);
          modify (assign_selector updated)
      | _ => raise TypeError
      end
    else mret tt
  else mret tt.

Definition _set_deadline : M unit :=
  up ← get user_params;
  let deadline_hours :=
    if bool_decide (BuildUserParams.build_type up = Some (BUILD_TYPE_WORKER E))
    then BuildUserParams.worker_deadline up
    else BuildUserParams.orchestrator_deadline up in
  set_deadline deadline_hours.

(** [str(koji_task_id)] *)
Definition str_of_int (z : Z) : string := pretty z.

(** The test of [render] that guards the removal of the triggers. *)
Definition triggers_to_remove : M bool :=
  triggers ← read_template (fun t =>
    spec ← getitem "spec" t; dict_get "triggers" (PyList []) spec);
  if truthy triggers then
    custom ← is_custom_base_image;
    if (custom : bool) then mret true else is_from_scratch_image
  else mret false.

(** [BuildRequestV2.render] *)
Definition render (validate : bool) : M pyval :=
  BaseBuildRequest_render validate;;
  up ← get user_params;
  on_template (at_path ["spec"; "source"; "git"]
                 (setitem "uri" (of_opt_str (BuildUserParams.git_uri up))));;
  on_template (at_path ["spec"; "source"; "git"]
                 (setitem "ref" (BuildUserParams.git_ref up)));;
  ist ← has_ist_trigger;
  when ist
    (on_template (at_path ["spec"; "triggers"]
       (at_first (at_path ["imageChange"; "from"]
          (setitem "name" (BuildUserParams.trigger_imagestreamtag up))))));;
  let repo_name := git_repo_humanish_part_from_uri E (BuildUserParams.git_uri up) in
  set_label "git-repo-name" (Some repo_name);;
  set_label "git-branch" (BuildUserParams.git_branch up);;
  set_label "git-full-repo" (BuildUserParams.git_uri up);;
  match BuildUserParams.koji_task_id up with
  | Some koji_task_id =>
      set_label "koji-task-id" (Some (str_of_int koji_task_id));;
      after ← get triggered_after_koji_task;
      match after with
      | PyNone => set_label "original-koji-task-id" (Some (str_of_int koji_task_id))
      | _ => mret tt
      end
  | None => mret tt
  end;;
  remove ← triggers_to_remove;
  when remove
    (_ ← is_custom_base_image;
     on_template (at_key "spec" (delitem "triggers")));;
  adjust_for_repo_info;;
  up ← get user_params;
  adjust_for_isolated (BuildUserParams.release up);;
  render_node_selectors (BuildUserParams.build_type up);;
  _set_deadline;;
  t ← template;
  modify (assign_build_json t);;
  get build_json.
End Methods.

(** ** Reading a document *)

(** The entry [k] of a value, when the value is a dict that has one. *)
Definition lookup_in (k : string) (v : pyval) : option pyval :=
  match v with PyDict m => m !! k | _ => None end.

(** The value of [spec.<k>]. *)
Definition spec_of (k : string) (T : pyval) : option pyval :=
  lookup_in "spec" T ≫= lookup_in k.

(** The value of [spec.triggers], when the document has one. *)
Definition triggers_of (T : pyval) : option pyval := spec_of "triggers" T.

(** The value of the label [k] in [metadata.labels]. *)
Definition label_of (k : string) (T : pyval) : option pyval :=
  (lookup_in "metadata" T ≫= lookup_in "labels") ≫= lookup_in k.

(** How the triggers of a document may differ after a statement: removed,
    untouched, or a non-empty list whose first entry was edited. *)
Definition trig_rel (o o' : option pyval) : Prop :=
  o' = None ∨ o' = o ∨
  ∃ x x' l, o = Some (PyList (x :: l)) ∧ o' = Some (PyList (x' :: l)).

(** Triggers that are absent or a true value stay so. *)
Definition absent_or_truthy (o : option pyval) : bool :=
  match o with None => true | Some x => truthy x end.

Section Invariants.
Variable E : Collaborators.

(** A label value that [set_label] stored. *)
Definition sanitized (x : pyval) : Prop :=
  ∃ s, x = PyStr (sanitize_strings_for_openshift E s).

(** What a statement of [render] may change in the document, as far as
    triggers and labels go: triggers as [trig_rel] says, and every label
    afterwards is a sanitized string or was there before. *)
Definition doc_step (T T' : pyval) : Prop :=
  trig_rel (triggers_of T) (triggers_of T') ∧
  ∀ k x, label_of k T' = Some x → sanitized x ∨ label_of k T = Some x.

(** A statement on the document that yields a document again and
    respects [doc_step]. *)
Definition good (f : pyval → result pyval) : Prop :=
  ∀ T T', f T = Ok T' → T' ≠ PyNone ∧ doc_step T T'.

(** The document an access to [self.template] gives in a state: the one
    already loaded, or the one the file holds. *)
Definition doc_of (st : BuildRequestV2) : option pyval :=
  match (template E st).1 with Ok T => Some T | Raise _ => None end.

(** The state after an access to [self.template]. *)
Definition loaded (st : BuildRequestV2) : BuildRequestV2 := (template E st).2.

(** What every method called by [render] respects: the variation flags
    stay, and the document moves by [doc_step]. *)
Record st_step (st st' : BuildRequestV2) : Prop := {
  step_scratch : scratch st' = scratch st;
  step_isolated : isolated st' = isolated st;
  step_is_auto : is_auto st' = is_auto st;
  step_doc : ∀ T, doc_of st = Some T → ∃ T', doc_of st' = Some T' ∧ doc_step T T';
}.

Definition steps {A} (m : M A) : Prop :=
  ∀ st r st', m st = (r, st') → st_step st st'.

(** A method keeps an attribute of the builder. *)
Definition keeps {A B} (attr : BuildRequestV2 → B) (m : M A) : Prop :=
  ∀ st r st', m st = (r, st') → attr st' = attr st.

(** A method keeps a property of the builder. *)
Definition inv {A} (P : BuildRequestV2 → Prop) (m : M A) : Prop :=
  ∀ st r st', P st → m st = (r, st') → P st'.

(** A method that returns the document of the state it ends in. *)
Definition returns_doc (m : M pyval) : Prop :=
  ∀ st doc st', m st = (Ok doc, st') → doc_of st' = Some doc.
End Invariants.

(** ** A sample build

    Collaborators, a template and a builder to run the methods on.  The
    constants and helpers are stand-ins of the right shape for the ones in
    [osbs.constants] and [osbs.utils]: the theorems below hold for any
    collaborators, and the examples only need some. *)

Definition is_digit (c : ascii) : bool :=
  let n := nat_of_ascii c in (48 <=? n)%nat && (n <=? 57)%nat.

Definition is_label_char (c : ascii) : bool :=
  let n := nat_of_ascii c in
  is_digit c || ((65 <=? n)%nat && (n <=? 90)%nat)
  || ((97 <=? n)%nat && (n <=? 122)%nat)
  || Ascii.eqb c "."%char || Ascii.eqb c "-"%char || Ascii.eqb c "_"%char.

Fixpoint keep_chars (p : ascii → bool) (s : string) : string :=
  match s with
  | EmptyString => EmptyString
  | String c s' => if p c then String c (keep_chars p s') else keep_chars p s'
  end.

Fixpoint skip_digits (s : string) : string :=
  match s with
  | String c s' => if is_digit c then skip_digits s' else s
  | EmptyString => EmptyString
  end.

(** Digits, a dot, digits, and then nothing or a dot and more. *)
Definition sample_release_match (s : string) : bool :=
  match s with
  | String c _ =>
      is_digit c &&
      match skip_digits s with
      | String "." (String d r) =>
          is_digit d &&
          match skip_digits r with
          | EmptyString => true
          | String "." (String _ _) => true
          | _ => false
          end
      | _ => false
      end
  | EmptyString => false
  end.

Definition sample_metadata : dict := {[ "name" := PyStr "{{NAME}}" ]}.

Definition sample_env : list pyval :=
  [ PyDict {[ "name" := PyStr "ATOMIC_REACTOR_PLUGINS"; "value" := PyStr "TBD" ]} ].

Definition sample_custom_strategy : dict :=
  {[ "from" := PyDict {[ "kind" := PyStr "DockerImage";
                         "name" := PyStr "buildroot:latest" ]};
     "env" := PyList sample_env ]}.

Definition sample_triggers : pyval :=
  PyList [
    PyDict {[ "type" := PyStr "ImageChange";
              "imageChange" := PyDict {[ "from" :=
                 PyDict {[ "kind" := PyStr "ImageStreamTag";
                           "name" := PyStr "{{STREAM}}" ]} ]} ]} ].

Definition sample_spec : dict :=
  {[ "source" := PyDict {[ "git" := PyDict {[ "uri" := PyStr "{{GIT_URI}}" ]} ]};
     "strategy" := PyDict {[ "customStrategy" := PyDict sample_custom_strategy ]};
     "output" := PyDict {[ "to" := PyDict {[ "kind" := PyStr "DockerImage";
                                             "name" := PyStr "{{TAG}}" ]} ]};
     "triggers" := sample_triggers ]}.

Definition sample_template : pyval :=
  PyDict {[ "kind" := PyStr "BuildConfig";
            "metadata" := PyDict sample_metadata;
            "spec" := PyDict sample_spec ]}.

Definition sample_collaborators : Collaborators :=
  {| SECRETS_PATH := "/var/run/secrets/atomic-reactor";
     BUILD_TYPE_ORCHESTRATOR := "orchestrator";
     BUILD_TYPE_WORKER := "worker";
     ISOLATED_RELEASE_FORMAT_match := sample_release_match;
     ISOLATED_RELEASE_FORMAT_pattern := "^\d+\.\d+(\..+)?$";
     sanitize_strings_for_openshift := keep_chars is_label_char;
     git_repo_humanish_part_from_uri := λ uri, "reponame";
     yaml_safe_dump := λ d, "<yaml>";
     to_json := λ up, "<json>";
     user_params_validate := λ up, Ok tt;
     user_params_set_params := λ api kwargs up, Ok up;
     open_read := λ path,
       if path =? "/store/prod.json" then inr "<template>"
       else if path =? "/store/broken.json" then inr "{"
       else inl "FileNotFoundError()";
     json_load := λ content,
       if content =? "<template>" then Ok sample_template
       else Raise (ValueError "No JSON object could be decoded");
     set_iter := elements;
     set_iter_perm := λ X, reflexivity (elements X);
     dict_iter := λ m, (map_to_list m).*1;
     dict_iter_perm := λ m, reflexivity ((map_to_list m).*1) |}.

Definition sample_user_params : BuildUserParams.t :=
  {| BuildUserParams.name := PyStr "reponame-master";
     BuildUserParams.platform := None;
     BuildUserParams.image_tag := "myimage-abc123-20200101000000";
     BuildUserParams.build_imagestream := None;
     BuildUserParams.build_image := PyStr "buildroot:latest";
     BuildUserParams.reactor_config_override := None;
     BuildUserParams.reactor_config_map := None;
     BuildUserParams.git_uri := Some "https://github.com/user/reponame.git";
     BuildUserParams.git_ref := PyStr "master";
     BuildUserParams.git_branch := Some "master";
     BuildUserParams.koji_task_id := None;
     BuildUserParams.trigger_imagestreamtag := PyStr "base:latest";
     BuildUserParams.release := None;
     BuildUserParams.build_type := Some "worker";
     BuildUserParams.worker_deadline := 0;
     BuildUserParams.orchestrator_deadline := 0;
     BuildUserParams.flatpak := false;
     BuildUserParams.base_image := PyStr "fedora:latest" |}.

Definition sample_api : OsbsApi :=
  {| get_config_map := λ name,
       Ok {| get_data_by_key := λ key, Ok ∅ |} |}.

(** A builder as [__init__] leaves it. *)
Definition new_request_at (outer_template : string) : BuildRequestV2 :=
  {| build_json_store := "/store";
     _outer_template_path := outer_template;
     _resource_limits := None;
     _template := PyNone;
     isolated := PyNone;
     organization := PyNone;
     osbs_api := None;
     scratch := PyNone;
     source_registry := PyNone;
     user_params := sample_user_params;
     build_json := PyNone;
     _repo_info := None;
     is_auto := PyNone;
     skip_build := PyNone;
     base_image := PyNone;
     scratch_build_node_selector := PyNone;
     explicit_build_node_selector := PyNone;
     auto_build_node_selector := PyNone;
     isolated_build_node_selector := PyNone;
     platform_node_selector := PyNone;
     triggered_after_koji_task := PyNone;
     opened := [] |}.

Definition new_request : BuildRequestV2 := new_request_at "prod.json".

(** The builder after [set_params] with the given keyword arguments. *)
Definition request_with (kwargs : dict) : BuildRequestV2 :=
  (set_params sample_collaborators (Some sample_api) kwargs new_request).2.

(** ** Statements of the claims *)

(** The three flags as [set_params] reads them from its keyword arguments. *)
Definition variation_flags (kwargs : dict) : list pyval :=
  [ default PyNone (kwargs !! "scratch");
    default (PyBool false) (kwargs !! "is_auto");
    default PyNone (kwargs !! "isolated") ].

Definition variation_message : string :=
  "Build variations are mutually exclusive. " ++
  "Must set either scratch, is_auto, isolated, or none. ".

(** The sample builder with the document already loaded. *)
Definition request_on (T : pyval) (kwargs : dict) : BuildRequestV2 :=
  assign__template T (request_with kwargs).

(** [tag] is the image tag once a trailing [-<platform>] is stripped:
    there is a platform and the image tag is [tag-<platform>]; or the
    image tag is [tag] itself, and there is no platform or the image tag
    does not end in [-<platform>]. *)
Definition without_platform_suffix
  (platform : option string) (image_tag tag : string) : Prop :=
  (∃ p, platform = Some p ∧ p ≠ "" ∧ image_tag = tag ++ "-" ++ p) ∨
  (image_tag = tag ∧
   (platform = None ∨ platform = Some "" ∨
    ∃ p, platform = Some p ∧ ∀ s, image_tag ≠ s ++ "-" ++ p)).

(** The user parameters with another platform and image tag. *)
Definition with_platform (p : option string) (tag : string) (u : BuildUserParams.t)
  : BuildUserParams.t :=
  {| BuildUserParams.name := BuildUserParams.name u;
     BuildUserParams.platform := p;
     BuildUserParams.image_tag := tag;
     BuildUserParams.build_imagestream := BuildUserParams.build_imagestream u;
     BuildUserParams.build_image := BuildUserParams.build_image u;
     BuildUserParams.reactor_config_override := BuildUserParams.reactor_config_override u;
     BuildUserParams.reactor_config_map := BuildUserParams.reactor_config_map u;
     BuildUserParams.git_uri := BuildUserParams.git_uri u;
     BuildUserParams.git_ref := BuildUserParams.git_ref u;
     BuildUserParams.git_branch := BuildUserParams.git_branch u;
     BuildUserParams.koji_task_id := BuildUserParams.koji_task_id u;
     BuildUserParams.trigger_imagestreamtag := BuildUserParams.trigger_imagestreamtag u;
     BuildUserParams.release := BuildUserParams.release u;
     BuildUserParams.build_type := BuildUserParams.build_type u;
     BuildUserParams.worker_deadline := BuildUserParams.worker_deadline u;
     BuildUserParams.orchestrator_deadline := BuildUserParams.orchestrator_deadline u;
     BuildUserParams.flatpak := BuildUserParams.flatpak u;
     BuildUserParams.base_image := BuildUserParams.base_image u |}.

(** The sample builder for a build on a platform, with the image tag the
    platform gives it. *)
Definition request_on_platform (kwargs : dict) (p : string) (tag : string)
  : BuildRequestV2 :=
  assign_user_params (with_platform (Some p) tag sample_user_params)
    (request_with kwargs).

(** The triggers of the sample template once [render] has put the name
    of the image stream tag in. *)
Definition sample_triggers_rendered : pyval :=
  PyList [
    PyDict {[ "type" := PyStr "ImageChange";
              "imageChange" := PyDict {[ "from" :=
                 PyDict {[ "kind" := PyStr "ImageStreamTag";
                           "name" := PyStr "base:latest" ]} ]} ]} ].

(** An auto build with an auto-build selector and a platform selector. *)
Definition auto_kwargs : dict :=
  {[ "is_auto" := PyBool true;
     "auto_build_node_selector" := PyDict {[ "pool" := PyStr "auto" ]};
     "platform_node_selector" := PyDict {[ "zone" := PyStr "a" ]} ]}.

(** The [REACTOR_CONFIG] entry for an override, and for a config map. *)
Definition inline_reactor_config (E : Collaborators) (override : dict) : pyval :=
  PyDict {[ "name" := PyStr "REACTOR_CONFIG";
            "value" := PyStr (yaml_safe_dump E override) ]}.

Definition config_map_reactor_config (config_map : string) : pyval :=
  PyDict {[ "name" := PyStr "REACTOR_CONFIG";
            "valueFrom" := PyDict {[ "configMapKeyRef" :=
               PyDict {[ "name" := PyStr config_map;
                         "key" := PyStr "config.yaml" ]} ]} ]}.

Definition env_path : list string := custom_strategy_path ++ ["env"].

(** A builder whose parameters give both an override and a config map. *)
Definition sample_override : dict := {[ "source_registry" := PyStr "registry.example.com" ]}.

Definition request_with_reactor_config
  (o : option dict) (cm : option string) : BuildRequestV2 :=
  assign_user_params
    (BuildUserParams.with_reactor_config o cm sample_user_params)
    (request_with ∅).

(** The mounts of a secrets list whose secret is named [n]. *)
Definition names_secret (n : string) (secret_mount : pyval) : bool :=
  match get_path ["secretSource"; "name"] secret_mount with
  | Ok v => eq_str v n
  | Raise _ => false
  end.

Definition mounts_named (n : string) (secrets : list pyval) : list pyval :=
  List.filter (names_secret n) secrets.

(** A mount of the secret [n] at [path]. *)
Definition mount_at (n path : string) : pyval :=
  PyDict {[ "secretSource" := PyDict {[ "name" := PyStr n ]};
            "mountPath" := PyStr path ]}.

(** The sample template with secrets already mounted by the template. *)
Definition with_secrets (secrets : list pyval) (T : pyval) : pyval :=
  match at_path custom_strategy_path (setitem "secrets" (PyList secrets)) T with
  | Ok T' => T'
  | Raise _ => T
  end.

(** Required-secrets injection, twice: the secrets list in the end. *)
Definition inject_twice (E : Collaborators) (required_secrets : pyval)
  (st : BuildRequestV2) : result pyval :=
  ((_set_required_secrets E required_secrets;;
    _set_required_secrets E required_secrets;;
    read_template E (get_path secrets_path)) st).1.

(** The statement of the loop of [_set_required_secrets] on the list. *)
Definition append_mounts (E : Collaborators) (new : list string) (secrets : pyval)
  : result pyval :=
  foldl (λ acc secret, acc ≫= list_append (secret_mount E secret)) (Ok secrets) new.

(** The value [set_label] stores for a given value. *)
Definition label_value (E : Collaborators) (value : option string) : pyval :=
  PyStr (sanitize_strings_for_openshift E
           (if truthy_str value then default "" value else "")).

(** [metadata.labels] is absent or a dict. *)
Definition labels_absent_or_dict (md : dict) : Prop :=
  md !! "labels" = None ∨ ∃ labels : dict, md !! "labels" = Some (PyDict labels).

Definition release_required_message : string :=
  "The release parameter is required for isolated builds.".

Definition release_format_message (E : Collaborators) : string :=
  "For isolated builds, the release value must be in the format: "
  ++ ISOLATED_RELEASE_FORMAT_pattern E.

(** The sample builder for an isolated build of the given release. *)
Definition isolated_request (release : option string) : BuildRequestV2 :=
  assign_user_params
    (BuildUserParams.with_release release sample_user_params)
    (request_with {[ "isolated" := PyBool true ]}).

(** The sample template with labels of its own. *)
Definition labelled_template : pyval :=
  PyDict {[ "kind" := PyStr "BuildConfig";
            "metadata" := PyDict {[ "name" := PyStr "{{NAME}}";
                                    "labels" := PyDict {[ "keep" := PyNone;
                                                          "team" := PyStr "a b" ]} ]};
            "spec" := PyDict sample_spec ]}.

(** The path of the template file of a builder. *)
Definition template_path (st : BuildRequestV2) : string :=
  os_path_join (build_json_store st) (_outer_template_path st).

Definition cannot_open_message (path ex : string) : string :=
  "Can't open template '" ++ path ++ "': " ++ ex.

(** The builder after [n] accesses to [self.template]. *)
Definition accesses (E : Collaborators) (n : nat) (st : BuildRequestV2)
  : BuildRequestV2 :=
  Nat.iter n (λ s, (template E s).2) st.

(** A build that is no flatpak build, on the base image [b]. *)
Definition plain_build_from (b : pyval) (st : BuildRequestV2) : Prop :=
  BuildUserParams.flatpak (user_params st) = false ∧ base_image st = b.

(** The base image is the custom-base-image marker or [scratch]. *)
Definition custom_or_scratch (b : pyval) : Prop :=
  ∃ s, b = PyStr s ∧ (custom_base_image_match s = true ∨ s = "scratch").

(** The sample builder for a build on the given base image. *)
Definition request_from (image : string) : BuildRequestV2 :=
  request_with {[ "base_image" := PyStr image ]}.

(** ** The rest of the module

    The methods of [BaseBuildRequest] and [BuildRequestV2] that the
    sections above do not need, the constructor, and
    [SourceBuildRequest]. *)

Definition assign__resource_limits (x : option dict) (st : BuildRequestV2) : BuildRequestV2 :=
  {| build_json_store := build_json_store st; _outer_template_path :=
     _outer_template_path st; _resource_limits := x; _template := _template
     st; isolated := isolated st; organization := organization st; osbs_api
     := osbs_api st; scratch := scratch st; source_registry :=
     source_registry st; user_params := user_params st; build_json :=
     build_json st; _repo_info := _repo_info st; is_auto := is_auto st;
     skip_build := skip_build st; base_image := base_image st;
     scratch_build_node_selector := scratch_build_node_selector st;
     explicit_build_node_selector := explicit_build_node_selector st;
     auto_build_node_selector := auto_build_node_selector st;
     isolated_build_node_selector := isolated_build_node_selector st;
     platform_node_selector := platform_node_selector st;
     triggered_after_koji_task := triggered_after_koji_task st; opened :=
     opened st |}.

Definition assign__repo_info (x : option RepoInfo) (st : BuildRequestV2) : BuildRequestV2 :=
  {| build_json_store := build_json_store st; _outer_template_path :=
     _outer_template_path st; _resource_limits := _resource_limits st;
     _template := _template st; isolated := isolated st; organization :=
     organization st; osbs_api := osbs_api st; scratch := scratch st;
     source_registry := source_registry st; user_params := user_params st;
     build_json := build_json st; _repo_info := x; is_auto := is_auto st;
     skip_build := skip_build st; base_image := base_image st;
     scratch_build_node_selector := scratch_build_node_selector st;
     explicit_build_node_selector := explicit_build_node_selector st;
     auto_build_node_selector := auto_build_node_selector st;
     isolated_build_node_selector := isolated_build_node_selector st;
     platform_node_selector := platform_node_selector st;
     triggered_after_koji_task := triggered_after_koji_task st; opened :=
     opened st |}.

(** What the constructor takes from [osbs.constants] and
    [osbs.build.user_params]: the default template name and the class of
    the user parameters, [BuildUserParams(build_json_store,
    customize_conf)]. *)
Record Defaults : Type := {
  DEFAULT_OUTER_TEMPLATE : string;
  new_BuildUserParams : string → option string → BuildUserParams.t;
}.

(** [x or dflt] for a string or [None]. *)
Definition str_or (x : option string) (dflt : string) : string :=
  if truthy_str x then default "" x else dflt.

(** [BuildRequestV2.__init__]: [BaseBuildRequest.__init__] with the outer
    template, then the attributes of its own, all [None], and the user
    parameters. *)
Definition BuildRequestV2_init (D : Defaults) (build_json_store : string)
  (outer_template customize_conf : option string) : BuildRequestV2 :=
  {| build_json_store := build_json_store;
     _outer_template_path := str_or outer_template (DEFAULT_OUTER_TEMPLATE D);
     _resource_limits := None;
     _template := PyNone;
     isolated := PyNone;
     organization := PyNone;
     osbs_api := None;
     scratch := PyNone;
     source_registry := PyNone;
     user_params := new_BuildUserParams D build_json_store customize_conf;
     build_json := PyNone;
     _repo_info := None;
     is_auto := PyNone;
     skip_build := PyNone;
     base_image := PyNone;
     scratch_build_node_selector := PyNone;
     explicit_build_node_selector := PyNone;
     auto_build_node_selector := PyNone;
     isolated_build_node_selector := PyNone;
     platform_node_selector := PyNone;
     triggered_after_koji_task := PyNone;
     opened := [] |}.

(** [self._resource_limits[k] = x], when [x is not None]. *)
Definition set_limit (k : string) (x : pyval) : M unit :=
  match x with
  | PyNone => mret tt
  | _ =>
      rl ← get _resource_limits;
      match rl with
      | Some d => modify (assign__resource_limits (Some (<[k := x]> d)))
      | None => raise TypeError
      end
  end.

(** [BaseBuildRequest.set_resource_limits] *)
Definition set_resource_limits (cpu memory storage : pyval) : M unit :=
  rl ← get _resource_limits;
  match rl with
  | None => modify (assign__resource_limits (Some ∅))
  | Some _ => mret tt
  end;;
  set_limit "cpu" cpu;;
  set_limit "memory" memory;;
  set_limit "storage" storage.

(** [BuildRequestV2.set_repo_info] *)
Definition set_repo_info (repo_info : option RepoInfo) : M unit :=
  modify (assign__repo_info repo_info).

(** The [build_id] property of [BuildRequestV2]. *)
Definition build_id : M pyval :=
  bj ← get build_json;
  lift (get_path ["metadata"; "name"] bj).

Section SourceBuildRequest.
Variable E : Collaborators.

(** [BaseBuildRequest.set_required_secrets], which [BuildRequestV2]
    overrides and [SourceBuildRequest] inherits. *)
Definition BaseBuildRequest_set_required_secrets (reactor_config_data : dict)
  : M unit :=
  let required_secrets :=
    default (PyList []) (reactor_config_data !! "required_secrets") in
  _set_required_secrets E required_secrets.

(** [BaseBuildRequest.set_data_from_reactor_config], as
    [SourceBuildRequest] inherits it. *)
Definition BaseBuildRequest_set_data_from_reactor_config
  (reactor_config_data : dict) : M unit :=
  set_source_registry reactor_config_data;;
  set_registry_organization reactor_config_data;;
  BaseBuildRequest_set_required_secrets reactor_config_data.

(** [SourceBuildRequest.render_name] *)
Definition SourceBuildRequest_render_name : M unit :=
  up ← get user_params;
  let name := BuildUserParams.image_tag up in
  match rsplit dash 2 name with
  | [_; salt; timestamp] =>
      let name := "sources-" ++ salt ++ "-" ++ timestamp in
      scr ← get scratch;
      let name := if truthy scr then "scratch-" ++ name else name in
      on_template E (at_key "metadata" (setitem "name" (PyStr name)))
  | _ => raise (ValueError "not enough values to unpack")
  end.

(** [SourceBuildRequest.render]: [BaseBuildRequest.render] with the
    methods of a source build request.  The user parameters of a source
    build are a [SourceContainerUserParams]; its [validate] and [to_json]
    are then the ones in [E]. *)
Definition SourceBuildRequest_render (validate : bool) : M pyval :=
  api ← get osbs_api;
  match api with
  | None => raise (OsbsValidationException "OSBS API is not specified")
  | Some _ =>
      (if validate
       then up ← get user_params; lift (user_params_validate E up)
       else mret tt);;
      SourceBuildRequest_render_name;;
      render_output_name E;;
      render_custom_strategy E;;
      render_resource_limits E;;
      adjust_for_scratch E;;
      set_reactor_config E;;
      render_user_params E;;
      delete_atomic_reactor_placeholder E;;
      data ← get_reactor_config_data;
      BaseBuildRequest_set_data_from_reactor_config data;;
      template E
  end.
End SourceBuildRequest.

(** ** What a method leaves alone

    A value that can be read at a path of keys in the document, and the
    places of the document a method writes to. *)

(** [T[k1][k2]...] is there and is [v]. *)
Definition reads_at (q : list string) (v : pyval) (T : pyval) : Prop :=
  get_path q T = Ok v.

(** A statement that keeps a property of the document. *)
Definition frames (Q : pyval → Prop) (f : pyval → result pyval) : Prop :=
  ∀ T T', f T = Ok T' → Q T → Q T'.

(** A statement that leaves a document, not [None]. *)
Definition nonnull (f : pyval → result pyval) : Prop :=
  ∀ T T', f T = Ok T' → T' ≠ PyNone.

(** The document of the builder has the property. *)
Definition doc_holds (E : Collaborators) (Q : pyval → Prop) (st : BuildRequestV2)
  : Prop :=
  ∃ T, doc_of E st = Some T ∧ Q T.

(** A property of the builder that loading the template keeps. *)
Definition stable (E : Collaborators) (P : BuildRequestV2 → Prop) : Prop :=
  ∀ st, P st → P (loaded E st).

(** The two paths part at some key: neither leads to the other. *)
Fixpoint diverge (p q : list string) : bool :=
  match p, q with
  | k :: p', k' :: q' => if String.eqb k k' then diverge p' q' else true
  | _, _ => false
  end.

(** A read at [q] that writes at the paths [fp] cannot change: a write at
    a path may change what is read at that path, above it and below it. *)
Definition untouched (fp : list (list string)) (q : list string) : bool :=
  forallb (λ p, diverge p q) fp.

(** A method that writes to the document at the paths [fp] only: a value
    that can be read at a path those writes cannot change can be read
    there afterwards, whether the method returns or raises. *)
Definition writes (E : Collaborators) (fp : list (list string)) {A} (m : M A)
  : Prop :=
  ∀ q v, untouched fp q = true → inv (doc_holds E (reads_at q v)) m.

(** A statement that writes at the path [p]: what is read at a path that
    parts from [p] stays. *)
Definition touches (p : list string) (f : pyval → result pyval) : Prop :=
  ∀ q v, diverge p q = true → frames (reads_at q v) f.

(** The places of the document that [BaseBuildRequest.render] writes. *)
Definition base_render_writes : list (list string) :=
  [ ["metadata"; "name"];
    ["metadata"; "labels"; "scratch"];
    ["spec"; "output"; "to"; "name"];
    ["spec"; "strategy"; "customStrategy"; "from"; "kind"];
    ["spec"; "strategy"; "customStrategy"; "from"; "name"];
    ["spec"; "strategy"; "customStrategy"; "env"];
    ["spec"; "strategy"; "customStrategy"; "secrets"];
    ["spec"; "resources"; "limits"];
    ["spec"; "triggers"] ].

(** The places that [BuildRequestV2.render] writes. *)
Definition render_writes : list (list string) :=
  base_render_writes ++
  [ ["metadata"; "labels"; "git-repo-name"];
    ["metadata"; "labels"; "git-branch"];
    ["metadata"; "labels"; "git-full-repo"];
    ["metadata"; "labels"; "koji-task-id"];
    ["metadata"; "labels"; "original-koji-task-id"];
    ["metadata"; "labels"; "isolated"];
    ["metadata"; "labels"; "isolated-release"];
    ["spec"; "source"; "git"; "uri"];
    ["spec"; "source"; "git"; "ref"];
    ["spec"; "nodeSelector"];
    ["spec"; "completionDeadlineSeconds"] ].

(** The user parameters apart from the base image, which a flatpak build
    replaces by the one of the reactor configuration, and from the
    reactor configuration override, a list of which [set_required_secrets]
    extends in place. *)
Definition params_given (st : BuildRequestV2) : BuildUserParams.t :=
  let up := user_params st in
  BuildUserParams.with_reactor_config None (BuildUserParams.reactor_config_map up)
    (BuildUserParams.set_base_image PyNone up).

(** ** Statements of the properties *)

(** Whether an entry of the env list is the placeholder,
    [env['name'] == 'ATOMIC_REACTOR_PLUGINS'], when the entry has a name. *)
Definition is_placeholder (env : pyval) : option bool :=
  match getitem "name" env with
  | Ok n => Some (eq_str n "ATOMIC_REACTOR_PLUGINS")
  | Raise _ => None
  end.

Definition from_path : list string := custom_strategy_path ++ ["from"].

(** An env list with the placeholder in it. *)
Definition env_with_placeholder : list pyval :=
  [ PyDict {[ "name" := PyStr "FOO"; "value" := PyStr "1" ]};
    PyDict {[ "name" := PyStr "ATOMIC_REACTOR_PLUGINS"; "value" := PyStr "TBD" ]};
    PyDict {[ "name" := PyStr "ATOMIC_REACTOR_PLUGINS"; "value" := PyStr "again" ]} ].

(** The sample template with another env list. *)
Definition with_env (env : list pyval) (T : pyval) : pyval :=
  match at_path custom_strategy_path (setitem "env" (PyList env)) T with
  | Ok T' => T'
  | Raise _ => T
  end.

(** [x is None] *)
Definition is_None (x : pyval) : bool :=
  match x with PyNone => true | _ => false end.

(** The argument of [set_resource_limits] for a key of the limits. *)
Definition limit_arg (cpu memory storage : pyval) (k : string) : pyval :=
  if k =? "cpu" then cpu
  else if k =? "memory" then memory
  else if k =? "storage" then storage
  else PyNone.

(** The sample builder with resource limits. *)
Definition request_with_limits (cpu memory storage : pyval) : BuildRequestV2 :=
  (set_resource_limits cpu memory storage (request_with ∅)).2.

(** The hours [_set_deadline] takes from the user parameters. *)
Definition deadline_hours (E : Collaborators) (up : BuildUserParams.t) : Z :=
  if bool_decide (BuildUserParams.build_type up = Some (BUILD_TYPE_WORKER E))
  then BuildUserParams.worker_deadline up
  else BuildUserParams.orchestrator_deadline up.

(** The user parameters with other deadlines. *)
Definition with_deadlines (worker orchestrator : Z) (u : BuildUserParams.t)
  : BuildUserParams.t :=
  {| BuildUserParams.name := BuildUserParams.name u;
     BuildUserParams.platform := BuildUserParams.platform u;
     BuildUserParams.image_tag := BuildUserParams.image_tag u;
     BuildUserParams.build_imagestream := BuildUserParams.build_imagestream u;
     BuildUserParams.build_image := BuildUserParams.build_image u;
     BuildUserParams.reactor_config_override := BuildUserParams.reactor_config_override u;
     BuildUserParams.reactor_config_map := BuildUserParams.reactor_config_map u;
     BuildUserParams.git_uri := BuildUserParams.git_uri u;
     BuildUserParams.git_ref := BuildUserParams.git_ref u;
     BuildUserParams.git_branch := BuildUserParams.git_branch u;
     BuildUserParams.koji_task_id := BuildUserParams.koji_task_id u;
     BuildUserParams.trigger_imagestreamtag := BuildUserParams.trigger_imagestreamtag u;
     BuildUserParams.release := BuildUserParams.release u;
     BuildUserParams.build_type := BuildUserParams.build_type u;
     BuildUserParams.worker_deadline := worker;
     BuildUserParams.orchestrator_deadline := orchestrator;
     BuildUserParams.flatpak := BuildUserParams.flatpak u;
     BuildUserParams.base_image := BuildUserParams.base_image u |}.

(** The sample builder with the given deadlines, in hours. *)
Definition request_with_deadlines (worker orchestrator : Z) : BuildRequestV2 :=
  assign_user_params (with_deadlines worker orchestrator sample_user_params)
    (request_with ∅).

(** The number of occurrences of a character in a string. *)
Fixpoint count_char (c : ascii) (s : string) : nat :=
  match s with
  | EmptyString => 0
  | String a s' => (if Ascii.eqb a c then 1 else 0) + count_char c s'
  end.

Definition unpack_message : string := "not enough values to unpack".

(** The user parameters with another image tag. *)
Definition with_image_tag (tag : string) (u : BuildUserParams.t)
  : BuildUserParams.t :=
  {| BuildUserParams.name := BuildUserParams.name u;
     BuildUserParams.platform := BuildUserParams.platform u;
     BuildUserParams.image_tag := tag;
     BuildUserParams.build_imagestream := BuildUserParams.build_imagestream u;
     BuildUserParams.build_image := BuildUserParams.build_image u;
     BuildUserParams.reactor_config_override := BuildUserParams.reactor_config_override u;
     BuildUserParams.reactor_config_map := BuildUserParams.reactor_config_map u;
     BuildUserParams.git_uri := BuildUserParams.git_uri u;
     BuildUserParams.git_ref := BuildUserParams.git_ref u;
     BuildUserParams.git_branch := BuildUserParams.git_branch u;
     BuildUserParams.koji_task_id := BuildUserParams.koji_task_id u;
     BuildUserParams.trigger_imagestreamtag := BuildUserParams.trigger_imagestreamtag u;
     BuildUserParams.release := BuildUserParams.release u;
     BuildUserParams.build_type := BuildUserParams.build_type u;
     BuildUserParams.worker_deadline := BuildUserParams.worker_deadline u;
     BuildUserParams.orchestrator_deadline := BuildUserParams.orchestrator_deadline u;
     BuildUserParams.flatpak := BuildUserParams.flatpak u;
     BuildUserParams.base_image := BuildUserParams.base_image u |}.

(** The sample builder, scratch or not, for another image tag. *)
Definition request_tagged (kwargs : dict) (tag : string) : BuildRequestV2 :=
  assign_user_params (with_image_tag tag sample_user_params) (request_with kwargs).

(** The marker of a custom base image, and a line end. *)
Definition custom_marker : string := "koji/image-build".
Definition line_end : string := String newline EmptyString.

(** What the pattern of [is_custom_base_image] accepts after the marker
    and a colon: characters other than a line end, and then at most one
    line end. *)
Definition one_line (tag : string) : Prop :=
  free_of newline tag = true ∨
  ∃ t, tag = t ++ line_end ∧ free_of newline t = true.
(** The user parameters of a flatpak build or of another build. *)
Definition with_flatpak (b : bool) (u : BuildUserParams.t)
  : BuildUserParams.t :=
  {| BuildUserParams.name := BuildUserParams.name u;
     BuildUserParams.platform := BuildUserParams.platform u;
     BuildUserParams.image_tag := BuildUserParams.image_tag u;
     BuildUserParams.build_imagestream := BuildUserParams.build_imagestream u;
     BuildUserParams.build_image := BuildUserParams.build_image u;
     BuildUserParams.reactor_config_override := BuildUserParams.reactor_config_override u;
     BuildUserParams.reactor_config_map := BuildUserParams.reactor_config_map u;
     BuildUserParams.git_uri := BuildUserParams.git_uri u;
     BuildUserParams.git_ref := BuildUserParams.git_ref u;
     BuildUserParams.git_branch := BuildUserParams.git_branch u;
     BuildUserParams.koji_task_id := BuildUserParams.koji_task_id u;
     BuildUserParams.trigger_imagestreamtag := BuildUserParams.trigger_imagestreamtag u;
     BuildUserParams.release := BuildUserParams.release u;
     BuildUserParams.build_type := BuildUserParams.build_type u;
     BuildUserParams.worker_deadline := BuildUserParams.worker_deadline u;
     BuildUserParams.orchestrator_deadline := BuildUserParams.orchestrator_deadline u;
     BuildUserParams.flatpak := b;
     BuildUserParams.base_image := BuildUserParams.base_image u |}.

(** The user parameters with another build type. *)
Definition with_build_type (t : option string) (u : BuildUserParams.t)
  : BuildUserParams.t :=
  {| BuildUserParams.name := BuildUserParams.name u;
     BuildUserParams.platform := BuildUserParams.platform u;
     BuildUserParams.image_tag := BuildUserParams.image_tag u;
     BuildUserParams.build_imagestream := BuildUserParams.build_imagestream u;
     BuildUserParams.build_image := BuildUserParams.build_image u;
     BuildUserParams.reactor_config_override := BuildUserParams.reactor_config_override u;
     BuildUserParams.reactor_config_map := BuildUserParams.reactor_config_map u;
     BuildUserParams.git_uri := BuildUserParams.git_uri u;
     BuildUserParams.git_ref := BuildUserParams.git_ref u;
     BuildUserParams.git_branch := BuildUserParams.git_branch u;
     BuildUserParams.koji_task_id := BuildUserParams.koji_task_id u;
     BuildUserParams.trigger_imagestreamtag := BuildUserParams.trigger_imagestreamtag u;
     BuildUserParams.release := BuildUserParams.release u;
     BuildUserParams.build_type := t;
     BuildUserParams.worker_deadline := BuildUserParams.worker_deadline u;
     BuildUserParams.orchestrator_deadline := BuildUserParams.orchestrator_deadline u;
     BuildUserParams.flatpak := BuildUserParams.flatpak u;
     BuildUserParams.base_image := BuildUserParams.base_image u |}.

(** The user parameters with a Koji task. *)
Definition with_koji_task_id (id : option Z) (u : BuildUserParams.t)
  : BuildUserParams.t :=
  {| BuildUserParams.name := BuildUserParams.name u;
     BuildUserParams.platform := BuildUserParams.platform u;
     BuildUserParams.image_tag := BuildUserParams.image_tag u;
     BuildUserParams.build_imagestream := BuildUserParams.build_imagestream u;
     BuildUserParams.build_image := BuildUserParams.build_image u;
     BuildUserParams.reactor_config_override := BuildUserParams.reactor_config_override u;
     BuildUserParams.reactor_config_map := BuildUserParams.reactor_config_map u;
     BuildUserParams.git_uri := BuildUserParams.git_uri u;
     BuildUserParams.git_ref := BuildUserParams.git_ref u;
     BuildUserParams.git_branch := BuildUserParams.git_branch u;
     BuildUserParams.koji_task_id := id;
     BuildUserParams.trigger_imagestreamtag := BuildUserParams.trigger_imagestreamtag u;
     BuildUserParams.release := BuildUserParams.release u;
     BuildUserParams.build_type := BuildUserParams.build_type u;
     BuildUserParams.worker_deadline := BuildUserParams.worker_deadline u;
     BuildUserParams.orchestrator_deadline := BuildUserParams.orchestrator_deadline u;
     BuildUserParams.flatpak := BuildUserParams.flatpak u;
     BuildUserParams.base_image := BuildUserParams.base_image u |}.

Definition flatpak_message : string := "flatpak_base_image must be provided".

(** The sample builder for a flatpak build. *)
Definition flatpak_request : BuildRequestV2 :=
  assign_user_params (with_flatpak true sample_user_params)
    (request_with {[ "base_image" := PyStr "fedora:latest" ]}).

(** A reactor configuration with a base image for flatpak builds. *)
Definition flatpak_config : dict :=
  {[ "flatpak" := PyDict {[ "base_image" := PyStr "registry.example.com/flatpak:f30" ]} ]}.

(** Whether a trigger is an ImageChange trigger from an ImageStreamTag,
    when it has the entries that [has_ist_trigger] reads. *)
Definition ist_trigger (trigger : pyval) : option bool :=
  match getitem "type" trigger with
  | Ok ty =>
      if eq_str ty "ImageChange" then
        match get_path ["imageChange"; "from"; "kind"] trigger with
        | Ok kind => Some (eq_str kind "ImageStreamTag")
        | Raise _ => None
        end
      else Some false
  | Raise _ => None
  end.

Definition release_label_message : string :=
  "when autorebuild is enabled in repo configuration, " ++
  dquote ++ "release" ++ dquote ++ " label must not be set in Dockerfile".

(** A repository with autorebuilds switched off, and one with
    autorebuilds on and a release label in its Dockerfile. *)
Definition no_autorebuild : RepoInfo :=
  {| is_autorebuild_enabled := false;
     add_timestamp_to_release := PyBool false;
     has_release_label := false |}.

Definition autorebuild_with_release : RepoInfo :=
  {| is_autorebuild_enabled := true;
     add_timestamp_to_release := PyBool false;
     has_release_label := true |}.

(** The sample builder for a build of the given type. *)
Definition request_of_type (build_type : option string) : BuildRequestV2 :=
  assign_user_params (with_build_type build_type sample_user_params)
    (request_with ∅).

(** A reactor configuration with required secrets and token secrets. *)
Definition secrets_config : dict :=
  {[ "required_secrets" := PyList [PyStr "koji"];
     "worker_token_secrets" := PyList [PyStr "worker-token"] ]}.

(** The reactor configuration with another list under required_secrets,
    when it has the key. *)
Definition with_required (data : dict) (required : list string) : dict :=
  match data !! "required_secrets" with
  | Some _ => <["required_secrets" := PyList (PyStr <$> required)]> data
  | None => data
  end.

(** The sample builder of the given build type with the reactor
    configuration as the override of its user parameters. *)
Definition request_overridden (build_type : option string) (override : dict)
  : BuildRequestV2 :=
  assign_user_params
    (BuildUserParams.with_reactor_config (Some override) None
       (with_build_type build_type sample_user_params))
    (request_with ∅).

Definition api_message : string := "OSBS API is not specified".

(** A method that returns what it has put in [build_json] and has in
    [_template]. *)
Definition returns_build_json (m : M pyval) : Prop :=
  ∀ st doc st', m st = (Ok doc, st') → build_json st' = doc ∧ _template st' = doc.

(** The env entry that [render_user_params] appends. *)
Definition user_params_entry (E : Collaborators) (up : BuildUserParams.t) : pyval :=
  PyDict {[ "name" := PyStr "USER_PARAMS"; "value" := PyStr (to_json E up) ]}.

(** The env entries that rendering appends: the reactor configuration,
    when there is one, and the user parameters. *)
Definition rendered_entries (E : Collaborators) (up : BuildUserParams.t)
  : list pyval :=
  match reactor_config_entry E up with
  | Some reactor_config => [reactor_config]
  | None => []
  end ++ [user_params_entry E up].

(** The name [render_name] gives a scratch or isolated build. *)
Definition variation_name (st : BuildRequestV2) (salt timestamp : string) : pyval :=
  PyStr ((if truthy (scratch st) then "scratch-" else "isolated-")
         ++ salt ++ "-" ++ timestamp).

(** The image tag without the platform suffix. *)
Definition stripped_tag (st : BuildRequestV2) : string :=
  strip_platform (BuildUserParams.platform (user_params st))
                 (BuildUserParams.image_tag (user_params st)).

(** The sample builder for a build from a Koji task. *)
Definition request_for_task (id : Z) (kwargs : dict) : BuildRequestV2 :=
  assign_user_params (with_koji_task_id (Some id) sample_user_params)
    (request_with kwargs).

(** The name [SourceBuildRequest.render_name] gives a build. *)
Definition sources_name (st : BuildRequestV2) (salt timestamp : string) : pyval :=
  PyStr ((if truthy (scratch st) then "scratch-" else "")
         ++ "sources-" ++ salt ++ "-" ++ timestamp).

(** The sample builder with repository information. *)
Definition request_for_repo (repo_info : RepoInfo) : BuildRequestV2 :=
  (set_repo_info (Some repo_info) (request_with ∅)).2.

(** A reactor configuration with a source registry and an organization. *)
Definition registry_config : dict :=
  {[ "source_registry" := PyDict {[ "url" := PyStr "https://registry.example.com" ]};
     "registries_organization" := PyStr "org" ]}.

(** The triggers of the document are gone, or they are [v]. *)
Definition gone_or (v : pyval) (T : pyval) : Prop :=
  triggers_of T = None ∨ get_path ["spec"; "triggers"] T = Ok v.

(** A trigger list whose second trigger is the one from an image stream
    tag, and the sample template with it. *)
Definition second_is_ist : list pyval :=
  [ PyDict {[ "type" := PyStr "ImageChange";
              "imageChange" := PyDict {[ "from" :=
                 PyDict {[ "kind" := PyStr "DockerImage";
                           "name" := PyStr "other" ]} ]} ]};
    PyDict {[ "type" := PyStr "ImageChange";
              "imageChange" := PyDict {[ "from" :=
                 PyDict {[ "kind" := PyStr "ImageStreamTag";
                           "name" := PyStr "{{STREAM}}" ]} ]} ]} ].

Definition with_triggers (triggers : list pyval) (T : pyval) : pyval :=
  match at_key "spec" (setitem "triggers" (PyList triggers)) T with
  | Ok T' => T'
  | Raise _ => T
  end.

(** The first of those triggers with the image stream tag of the sample
    parameters as its name. *)
Definition first_named : pyval :=
  PyDict {[ "type" := PyStr "ImageChange";
            "imageChange" := PyDict {[ "from" :=
               PyDict {[ "kind" := PyStr "DockerImage";
                         "name" := PyStr "base:latest" ]} ]} ]}.

(** The sample auto build on the template with those triggers. *)
Definition auto_request_with_triggers : BuildRequestV2 :=
  request_on (with_triggers second_is_ist sample_template)
    {[ "is_auto" := PyBool true ]}.

(** The sample isolated build of a release, on another image tag. *)
Definition isolated_request_tagged (release : option string) (tag : string)
  : BuildRequestV2 :=
  assign_user_params
    (with_image_tag tag (BuildUserParams.with_release release sample_user_params))
    (request_with {[ "isolated" := PyBool true ]}).

(** The first trigger with the image stream tag of the parameters as the
    name it is from. *)
Definition named_from (up : BuildUserParams.t) (trigger : pyval) : result pyval :=
  at_path ["imageChange"; "from"]
    (setitem "name" (BuildUserParams.trigger_imagestreamtag up)) trigger.

(** * Proofs *)

Lemma trig_rel_refl o : trig_rel o o.
Proof. right; left; reflexivity. Qed.

Lemma trig_rel_trans o1 o2 o3 : trig_rel o1 o2 → trig_rel o2 o3 → trig_rel o1 o3.
Proof.
  intros [-> | [-> | (x & x' & l & -> & ->)]] [-> | [-> | (y & y' & l' & Hy & ->)]];
    try discriminate; unfold trig_rel; eauto 10.
  - injection Hy as -> ->. eauto 10.
Qed.

Lemma trig_rel_None o : trig_rel None o → o = None.
Proof. intros [-> | [-> | (x & x' & l & Hx & _)]]; [done | done | discriminate]. Qed.

Lemma trig_rel_absent_or_truthy o o' :
  trig_rel o o' → absent_or_truthy o = true → absent_or_truthy o' = true.
Proof. intros [-> | [-> | (x & x' & l & -> & ->)]]; done. Qed.

Section Logic.
Variable E : Collaborators.

#[local] Abbreviation sanitized := (sanitized E).
#[local] Abbreviation doc_step := (doc_step E).
#[local] Abbreviation good := (good E).
#[local] Abbreviation doc_of := (doc_of E).
#[local] Abbreviation loaded := (loaded E).
#[local] Abbreviation st_step := (st_step E).
#[local] Abbreviation steps := (steps E).

Lemma doc_step_refl T : doc_step T T.
Proof. split; [apply trig_rel_refl | auto]. Qed.

Lemma doc_step_trans T1 T2 T3 : doc_step T1 T2 → doc_step T2 T3 → doc_step T1 T3.
Proof.
  intros [Ht1 Hl1] [Ht2 Hl2]. split; [by eapply trig_rel_trans |].
  intros k x Hx. destruct (Hl2 k x Hx) as [? | Hx2]; [by left | auto].
Qed.

Lemma template_eq st : template E st = ((template E st).1, loaded st).
Proof. unfold loaded. by destruct (template E st). Qed.

Lemma doc_of_loaded st : doc_of (loaded st) = doc_of st.
Proof.
  unfold doc_of, loaded, template.
  destruct (_template st) eqn:Ht; simpl; rewrite ?Ht; try done.
  set (path := os_path_join (build_json_store st) (_outer_template_path st)).
  destruct (open_read E path) as [ex | content] eqn:Ho; simpl;
    rewrite ?Ht; fold path; rewrite ?Ho; try done.
  destruct (json_load E content) as [doc | e] eqn:Hj; simpl.
  - destruct doc; simpl; fold path; rewrite ?Ho, ?Hj; done.
  - rewrite Ht. fold path. rewrite Ho, Hj. done.
Qed.

Lemma doc_of_assign__template T st : T ≠ PyNone → doc_of (assign__template T st) = Some T.
Proof. intros HT. unfold doc_of, template. simpl. by destruct T. Qed.

Lemma template_Some st T : doc_of st = Some T → template E st = (Ok T, loaded st).
Proof.
  unfold doc_of, loaded. destruct (template E st) as [[T0 | e] st1]; simpl; congruence.
Qed.

Lemma template_None st :
  doc_of st = None → ∃ e, template E st = (Raise e, loaded st).
Proof.
  unfold doc_of, loaded. destruct (template E st) as [[T0 | e] st1]; simpl; [done | eauto].
Qed.

Lemma on_template_Some f st T :
  doc_of st = Some T →
  on_template E f st =
    match f T with
    | Ok T' => (Ok tt, assign__template T' (loaded st))
    | Raise e => (Raise e, loaded st)
    end.
Proof.
  intros HT. unfold on_template, mbind, M_bind. rewrite (template_Some _ _ HT).
  unfold lift, modify. by destruct (f T).
Qed.

Lemma on_template_None f st :
  doc_of st = None → ∃ e, on_template E f st = (Raise e, loaded st).
Proof.
  intros HT. destruct (template_None _ HT) as [e He]. exists e.
  unfold on_template, mbind, M_bind. by rewrite He.
Qed.

Lemma read_template_Some {A} (f : pyval → result A) st T :
  doc_of st = Some T → read_template E f st = (f T, loaded st).
Proof.
  intros HT. unfold read_template, mbind, M_bind. by rewrite (template_Some _ _ HT).
Qed.

Lemma read_template_None {A} (f : pyval → result A) st :
  doc_of st = None → ∃ e, read_template E f st = (Raise e, loaded st).
Proof.
  intros HT. destruct (template_None _ HT) as [e He]. exists e.
  unfold read_template, mbind, M_bind. by rewrite He.
Qed.

Lemma st_step_refl st : st_step st st.
Proof. split; try done. intros T HT. exists T. split; [done | apply doc_step_refl]. Qed.

Lemma st_step_trans st1 st2 st3 : st_step st1 st2 → st_step st2 st3 → st_step st1 st3.
Proof.
  intros [H1 H2 H3 H4] [K1 K2 K3 K4]. split; try congruence.
  intros T HT. destruct (H4 T HT) as (T2 & HT2 & Hs2).
  destruct (K4 T2 HT2) as (T3 & HT3 & Hs3).
  exists T3. split; [done | by eapply doc_step_trans].
Qed.

Lemma loaded_attrs st :
  scratch (loaded st) = scratch st ∧ isolated (loaded st) = isolated st ∧
  is_auto (loaded st) = is_auto st ∧ base_image (loaded st) = base_image st ∧
  user_params (loaded st) = user_params st ∧
  platform_node_selector (loaded st) = platform_node_selector st.
Proof.
  unfold loaded, template. destruct (_template st); try done.
  destruct (open_read E _); [done |]. by destruct (json_load E _).
Qed.

Lemma st_step_loaded st : st_step st (loaded st).
Proof.
  destruct (loaded_attrs st) as (? & ? & ? & _).
  split; try done. intros T HT. exists T.
  rewrite doc_of_loaded. split; [done | apply doc_step_refl].
Qed.

Lemma st_step_assign__template st T T' :
  doc_of st = Some T → T' ≠ PyNone → doc_step T T' →
  st_step st (assign__template T' (loaded st)).
Proof.
  intros HT HT' Hs. destruct (loaded_attrs st) as (? & ? & ? & _).
  split; try done. intros T0 HT0. exists T'.
  rewrite doc_of_assign__template by done. split; [done | congruence].
Qed.

Lemma steps_ret {A} (a : A) : steps (mret a).
Proof. intros st r st' [= <- <-]. apply st_step_refl. Qed.

Lemma steps_raise {A} e : steps (raise e : M A).
Proof. intros st r st' [= <- <-]. apply st_step_refl. Qed.

Lemma steps_get {A} (f : BuildRequestV2 → A) : steps (get f).
Proof. intros st r st' [= <- <-]. apply st_step_refl. Qed.

Lemma steps_lift {A} (x : result A) : steps (lift x).
Proof. intros st r st' [= <- <-]. apply st_step_refl. Qed.

Lemma steps_modify g : (∀ st, st_step st (g st)) → steps (modify g).
Proof. intros Hg st r st' [= <- <-]. apply Hg. Qed.

Lemma steps_bind {A B} (m : M A) (f : A → M B) :
  steps m → (∀ a, steps (f a)) → steps (m ≫= f).
Proof.
  intros Hm Hf st r st'. unfold mbind, M_bind.
  destruct (m st) as [[a | e] st1] eqn:Hm1.
  - intros Hf1. eapply st_step_trans; [by eapply Hm | by eapply Hf].
  - intros [= <- <-]. by eapply Hm.
Qed.

Lemma steps_when b m : steps m → steps (when b m).
Proof. destruct b; [done | intros _; apply steps_ret]. Qed.

Lemma steps_template : steps (template E).
Proof.
  intros st r st' H. replace st' with (loaded st); [apply st_step_loaded |].
  unfold loaded. by rewrite H.
Qed.

Lemma steps_read_template {A} (f : pyval → result A) : steps (read_template E f).
Proof.
  intros st r st'. destruct (doc_of st) as [T |] eqn:HT.
  - rewrite (read_template_Some _ _ _ HT). intros [= <- <-]. apply st_step_loaded.
  - destruct (read_template_None f _ HT) as [e ->]. intros [= <- <-].
    apply st_step_loaded.
Qed.

Lemma steps_on_template f : good f → steps (on_template E f).
Proof.
  intros Hf st r st'. destruct (doc_of st) as [T |] eqn:HT.
  - rewrite (on_template_Some _ _ _ HT). destruct (f T) as [T' | e] eqn:HfT.
    + intros [= <- <-]. destruct (Hf _ _ HfT). by eapply st_step_assign__template.
    + intros [= <- <-]. apply st_step_loaded.
  - destruct (on_template_None f _ HT) as [e ->]. intros [= <- <-].
    apply st_step_loaded.
Qed.

(** *** Statements that respect [doc_step] *)

Lemma at_key_Ok k f T T' :
  at_key k f T = Ok T' →
  ∃ m x x', T = PyDict m ∧ m !! k = Some x ∧ f x = Ok x' ∧
            T' = PyDict (<[k := x']> m).
Proof.
  unfold at_key, getitem, setitem. destruct T; try done. simpl.
  destruct (m !! k) as [x |] eqn:Hk; [| done]. simpl.
  destruct (f x) as [x' |] eqn:Hf; [| done]. simpl.
  intros [= <-]. by exists m, x, x'.
Qed.

Lemma spec_of_insert_spec k m x :
  spec_of k (PyDict (<["spec" := x]> m)) = lookup_in k x.
Proof. unfold spec_of. simpl. by rewrite lookup_insert_eq. Qed.

Lemma triggers_of_insert_spec m x :
  triggers_of (PyDict (<["spec" := x]> m)) = lookup_in "triggers" x.
Proof. apply spec_of_insert_spec. Qed.

Lemma label_of_insert_spec k m x :
  label_of k (PyDict (<["spec" := x]> m)) = label_of k (PyDict m).
Proof. unfold label_of. simpl. by rewrite lookup_insert_ne. Qed.

Lemma triggers_of_insert_metadata m x :
  triggers_of (PyDict (<["metadata" := x]> m)) = triggers_of (PyDict m).
Proof. unfold triggers_of, spec_of. simpl. by rewrite lookup_insert_ne. Qed.

Lemma label_of_insert_metadata k m x :
  label_of k (PyDict (<["metadata" := x]> m)) =
    lookup_in "labels" x ≫= lookup_in k.
Proof. unfold label_of. simpl. by rewrite lookup_insert_eq. Qed.

(** A statement on [spec] that moves [spec.triggers] by [trig_rel]. *)
Lemma good_at_spec g :
  (∀ x x', g x = Ok x' → trig_rel (lookup_in "triggers" x) (lookup_in "triggers" x')) →
  good (at_key "spec" g).
Proof.
  intros Hg T T' H. apply at_key_Ok in H as (m & x & x' & -> & Hx & Hgx & ->).
  split; [done |]. split.
  - rewrite triggers_of_insert_spec. unfold triggers_of, spec_of. simpl.
    rewrite Hx. apply (Hg _ _ Hgx).
  - intros k y. rewrite label_of_insert_spec. auto.
Qed.

Lemma good_spec_at_key k g : k ≠ "triggers" → good (at_key "spec" (at_key k g)).
Proof.
  intros Hk. apply good_at_spec. intros spec x' H.
  apply at_key_Ok in H as (m & x & y & -> & _ & _ & ->). simpl.
  rewrite lookup_insert_ne by done. apply trig_rel_refl.
Qed.

Lemma good_spec_setitem k v : k ≠ "triggers" → good (at_key "spec" (setitem k v)).
Proof.
  intros Hk. apply good_at_spec. intros [] x'; try done. intros [= <-]. simpl.
  rewrite lookup_insert_ne by done. apply trig_rel_refl.
Qed.

Lemma good_spec_pop : good (at_key "spec" (dict_pop "triggers")).
Proof.
  apply good_at_spec. intros [] x'; try done. intros [= <-]. simpl.
  rewrite lookup_delete_eq. by left.
Qed.

Lemma good_spec_del : good (at_key "spec" (delitem "triggers")).
Proof.
  apply good_at_spec. intros [] x'; try done. simpl.
  destruct (m !! "triggers"); [| done]. intros [= <-]. simpl.
  rewrite lookup_delete_eq. by left.
Qed.

Lemma good_spec_triggers_first g :
  good (at_key "spec" (at_key "triggers" (at_first g))).
Proof.
  apply good_at_spec. intros spec x' H.
  apply at_key_Ok in H as (m & x & y & -> & Hx & Hy & ->). simpl.
  rewrite lookup_insert_eq, Hx.
  destruct x as [| | | | [| x l] |]; try done. simpl in Hy.
  destruct (g x) as [x1 |]; [| done]. injection Hy as <-.
  right; right. by exists x, x1, l.
Qed.

Lemma good_at_path_spec k p g : k ≠ "triggers" → good (at_path ("spec" :: k :: p) g).
Proof. intros Hk T T' H. by apply (good_spec_at_key k (at_path p g)). Qed.

(** A statement on [metadata] after which every label is sanitized or
    was there before. *)
Lemma good_at_metadata g :
  (∀ x x' k y, g x = Ok x' →
     lookup_in "labels" x' ≫= lookup_in k = Some y →
     sanitized y ∨ lookup_in "labels" x ≫= lookup_in k = Some y) →
  good (at_key "metadata" g).
Proof.
  intros Hg T T' H. apply at_key_Ok in H as (m & x & x' & -> & Hx & Hgx & ->).
  split; [done |]. split.
  - rewrite triggers_of_insert_metadata. apply trig_rel_refl.
  - intros k y. rewrite label_of_insert_metadata. intros Hy.
    destruct (Hg _ _ _ _ Hgx Hy) as [? | Hy']; [by left | right].
    unfold label_of. simpl. by rewrite Hx.
Qed.

Lemma good_metadata_name v : good (at_key "metadata" (setitem "name" v)).
Proof.
  apply good_at_metadata. intros [] x' k y; try done. intros [= <-]. simpl.
  rewrite lookup_insert_ne by done. auto.
Qed.

Lemma good_metadata_setdefault :
  good (at_key "metadata" (setdefault "labels" (PyDict ∅))).
Proof.
  apply good_at_metadata. intros [] x' k y; try done. simpl.
  destruct (m !! "labels") eqn:Hl; intros [= <-]; simpl.
  - rewrite Hl. auto.
  - rewrite lookup_insert_eq. simpl. by rewrite lookup_empty.
Qed.

Lemma good_metadata_label name s :
  good (at_path ["metadata"; "labels"]
          (setitem name (PyStr (sanitize_strings_for_openshift E s)))).
Proof.
  intros T T' H. revert T T' H. apply good_at_metadata. intros x x' k y H.
  apply at_key_Ok in H as (m & l & l' & -> & Hl & Hs & ->). simpl.
  rewrite lookup_insert_eq, Hl. simpl.
  destruct l; try done. injection Hs as <-. simpl.
  destruct (decide (name = k)) as [-> | Hne].
  - rewrite lookup_insert_eq. intros [= <-]. left. by eexists.
  - rewrite lookup_insert_ne by done. auto.
Qed.

Lemma good_resource_limits rl :
  good (λ t,
    spec ← getitem "spec" t;
    resources ← dict_get "resources" (PyDict ∅) spec;
    limits ← dict_get "limits" (PyDict ∅) resources;
    limits ← dict_update rl limits;
    resources ← setitem "limits" limits resources;
    at_key "spec" (setitem "resources" resources) t).
Proof.
  intros T T'. destruct (getitem "spec" T) as [spec |]; [simpl | done].
  destruct (dict_get "resources" _ spec) as [resources |]; [simpl | done].
  destruct (dict_get "limits" _ resources) as [limits |]; [simpl | done].
  destruct (dict_update rl limits) as [limits' |]; [simpl | done].
  destruct (setitem "limits" limits' resources) as [resources' |]; [simpl | done].
  by apply good_spec_setitem.
Qed.

Lemma good_triggers_first g : good (at_path ["spec"; "triggers"] (at_first g)).
Proof. intros T T' H. by apply (good_spec_triggers_first g). Qed.

Lemma good_node_selector g : good (at_path ["spec"; "nodeSelector"] g).
Proof. by apply good_at_path_spec. Qed.

Lemma good_custom_strategy g : good (at_path custom_strategy_path g).
Proof. by apply (good_at_path_spec "strategy" ["customStrategy"]). Qed.

Lemma good_custom_strategy_app p g : good (at_path (custom_strategy_path ++ p) g).
Proof. by apply (good_at_path_spec "strategy" ("customStrategy" :: p)). Qed.

Lemma good_secrets_path g : good (at_path secrets_path g).
Proof. apply good_custom_strategy_app. Qed.

(** The document depends on three attributes only. *)
Lemma doc_of_ext st st' :
  _template st' = _template st →
  build_json_store st' = build_json_store st →
  _outer_template_path st' = _outer_template_path st →
  doc_of st' = doc_of st.
Proof.
  intros H1 H2 H3. unfold doc_of, template. rewrite H1, H2, H3.
  destruct (_template st); try done.
  destruct (open_read E _); [done |]. by destruct (json_load E _).
Qed.

(** Assigning another attribute than the flags and those three. *)
Lemma st_step_attr g :
  (∀ st, scratch (g st) = scratch st) →
  (∀ st, isolated (g st) = isolated st) →
  (∀ st, is_auto (g st) = is_auto st) →
  (∀ st, _template (g st) = _template st) →
  (∀ st, build_json_store (g st) = build_json_store st) →
  (∀ st, _outer_template_path (g st) = _outer_template_path st) →
  ∀ st, st_step st (g st).
Proof.
  intros H1 H2 H3 H4 H5 H6 st. split; try done.
  intros T HT. exists T. rewrite (doc_of_ext st (g st)) by done.
  split; [done | apply doc_step_refl].
Qed.

Lemma steps_get_bind {A B} (g : BuildRequestV2 → A) (f : A → M B) :
  (∀ st0, steps (f (g st0))) → steps (get g ≫= f).
Proof. intros Hf st r st' H. by apply (Hf st st r st'). Qed.
End Logic.

Create HintDb good.
#[export] Hint Resolve good_spec_setitem good_spec_pop good_spec_del
  good_spec_triggers_first good_at_path_spec good_metadata_name
  good_metadata_setdefault good_metadata_label good_resource_limits
  good_spec_at_key good_custom_strategy good_custom_strategy_app
  good_secrets_path good_triggers_first good_node_selector : good.

(** Walks through a method: sequencing, branches and the elementary
    computations; what is left are the statements on the document and the
    attribute assignments. *)
Create HintDb steps.

Ltac steps_walk :=
  repeat first
    [ solve [auto with steps nocore]
    | apply steps_ret | apply steps_raise | apply steps_get | apply steps_lift
    | apply steps_template | apply steps_read_template
    | apply steps_when
    | apply steps_on_template; solve [eauto with good]
    | apply steps_modify; apply st_step_attr; intros; reflexivity
    | apply steps_bind; [| intros ?]
    | match goal with
      | |- steps _ (if ?b then _ else _) => destruct b
      | |- steps _ (match ?x with _ => _ end) => destruct x
      | |- steps _ (let _ := _ in _) => cbv zeta
      end ].

Section MethodSteps.
Variable E : Collaborators.

Lemma steps_set_label name value : steps E (set_label E name value).
Proof. unfold set_label. steps_walk. Qed.
#[local] Hint Resolve steps_set_label : steps.

Lemma steps_render_name : steps E (render_name E).
Proof. unfold render_name. steps_walk. Qed.
#[local] Hint Resolve steps_render_name : steps.

Lemma steps_render_output_name : steps E (render_output_name E).
Proof. unfold render_output_name. steps_walk. Qed.
#[local] Hint Resolve steps_render_output_name : steps.

Lemma steps_render_custom_strategy : steps E (render_custom_strategy E).
Proof. unfold render_custom_strategy. steps_walk. Qed.
#[local] Hint Resolve steps_render_custom_strategy : steps.

Lemma steps_render_resource_limits : steps E (render_resource_limits E).
Proof. unfold render_resource_limits. steps_walk. Qed.
#[local] Hint Resolve steps_render_resource_limits : steps.

Lemma steps_adjust_for_scratch : steps E (adjust_for_scratch E).
Proof. unfold adjust_for_scratch. steps_walk. Qed.
#[local] Hint Resolve steps_adjust_for_scratch : steps.

Lemma steps_set_reactor_config : steps E (set_reactor_config E).
Proof. unfold set_reactor_config. steps_walk. Qed.
#[local] Hint Resolve steps_set_reactor_config : steps.

Lemma steps_render_user_params : steps E (render_user_params E).
Proof. unfold render_user_params. steps_walk. Qed.
#[local] Hint Resolve steps_render_user_params : steps.

Lemma steps_delete_atomic_reactor_placeholder :
  steps E (delete_atomic_reactor_placeholder E).
Proof. unfold delete_atomic_reactor_placeholder. steps_walk. Qed.
#[local] Hint Resolve steps_delete_atomic_reactor_placeholder : steps.

Lemma steps_get_reactor_config_data : steps E get_reactor_config_data.
Proof. unfold get_reactor_config_data. steps_walk. Qed.
#[local] Hint Resolve steps_get_reactor_config_data : steps.

Lemma steps__set_required_secrets rs : steps E (_set_required_secrets E rs).
Proof. unfold _set_required_secrets. steps_walk. Qed.
#[local] Hint Resolve steps__set_required_secrets : steps.

Lemma steps_config_changed o d : steps E (config_changed o d).
Proof. unfold config_changed. steps_walk. Qed.
#[local] Hint Resolve steps_config_changed : steps.

Lemma steps_set_required_secrets o : steps E (set_required_secrets E o).
Proof. unfold set_required_secrets. steps_walk. Qed.
#[local] Hint Resolve steps_set_required_secrets : steps.

Lemma steps_set_data_from_reactor_config o :
  steps E (set_data_from_reactor_config E o).
Proof.
  unfold set_data_from_reactor_config, set_source_registry,
    set_registry_organization, _set_flatpak.
  steps_walk.
Qed.
#[local] Hint Resolve steps_set_data_from_reactor_config : steps.

Lemma steps_BaseBuildRequest_render validate :
  steps E (BaseBuildRequest_render E validate).
Proof.
  unfold BaseBuildRequest_render.
  steps_walk.
Qed.
#[local] Hint Resolve steps_BaseBuildRequest_render : steps.

Lemma steps_has_ist_trigger : steps E (has_ist_trigger E).
Proof. unfold has_ist_trigger. steps_walk. Qed.
#[local] Hint Resolve steps_has_ist_trigger : steps.

Lemma steps_triggers_to_remove : steps E (triggers_to_remove E).
Proof. unfold triggers_to_remove, is_custom_base_image, is_from_scratch_image. steps_walk. Qed.
#[local] Hint Resolve steps_triggers_to_remove : steps.

Lemma steps_adjust_for_repo_info : steps E (adjust_for_repo_info E).
Proof. unfold adjust_for_repo_info. steps_walk. Qed.
#[local] Hint Resolve steps_adjust_for_repo_info : steps.

Lemma steps_adjust_for_isolated release : steps E (adjust_for_isolated E release).
Proof. unfold adjust_for_isolated. steps_walk. Qed.
#[local] Hint Resolve steps_adjust_for_isolated : steps.

Lemma steps_render_node_selectors build_type :
  steps E (render_node_selectors E build_type).
Proof.
  unfold render_node_selectors. case_bool_decide; [| apply steps_ret].
  apply steps_get_bind. intros st0. unfold chosen_selector.
  destruct (truthy (is_auto st0)); [| destruct (truthy (scratch st0));
    [| destruct (truthy (isolated st0))]]; steps_walk.
Qed.
#[local] Hint Resolve steps_render_node_selectors : steps.

Lemma steps__set_deadline : steps E (_set_deadline E).
Proof. unfold _set_deadline, set_deadline. steps_walk. Qed.
#[local] Hint Resolve steps__set_deadline : steps.

Lemma steps_render validate : steps E (render E validate).
Proof. unfold render, is_custom_base_image. steps_walk. Qed.
End MethodSteps.

#[export] Hint Resolve
  steps_set_label steps_render_name steps_render_output_name
  steps_render_custom_strategy steps_render_resource_limits
  steps_adjust_for_scratch steps_set_reactor_config steps_render_user_params
  steps_delete_atomic_reactor_placeholder steps_get_reactor_config_data
  steps__set_required_secrets steps_config_changed steps_set_required_secrets
  steps_set_data_from_reactor_config
  steps_BaseBuildRequest_render steps_has_ist_trigger
  steps_triggers_to_remove steps_adjust_for_repo_info
  steps_adjust_for_isolated steps_render_node_selectors steps__set_deadline
  steps_render : steps.


(** ** Running [render] step by step *)

Lemma bind_Ok {A B} (m : M A) (f : A → M B) st b st' :
  (m ≫= f) st = (Ok b, st') →
  ∃ a st1, m st = (Ok a, st1) ∧ f a st1 = (Ok b, st').
Proof.
  unfold mbind, M_bind. destruct (m st) as [[a | e] st1]; [eauto | done].
Qed.

Lemma get_bind {A B} (g : BuildRequestV2 → A) (f : A → M B) st :
  (get g ≫= f) st = f (g st) st.
Proof. reflexivity. Qed.

(** One statement of a method that returned: the state after it is a step
    away, and the rest of the method ran from there. *)
Ltac next E H Acc :=
  first
    [ rewrite get_bind in H
    | let a := fresh "a" in
      let st1 := fresh "st" in
      let Hm := fresh "Hm" in
      let S := fresh "S" in
      apply bind_Ok in H as (a & st1 & Hm & H);
      match type of Hm with
      | ?m ?st0 = _ =>
          assert (S : st_step E st0 st1)
            by (apply (λ Hs : steps E m, Hs _ _ _ Hm); steps_walk)
      end;
      apply (st_step_trans _ _ _ _ Acc) in S; clear Acc Hm; rename S into Acc ].

Section Render.
Variable E : Collaborators.

#[local] Abbreviation doc_of := (doc_of E).
#[local] Abbreviation loaded := (loaded E).

Lemma on_template_Ok f st u st' :
  on_template E f st = (Ok u, st') →
  ∃ T T', doc_of st = Some T ∧ f T = Ok T' ∧ st' = assign__template T' (loaded st).
Proof.
  destruct (doc_of st) as [T |] eqn:HT.
  - rewrite (on_template_Some _ _ _ _ HT). destruct (f T) as [T' |] eqn:Hf; [| done].
    intros [= _ <-]. by exists T, T'.
  - destruct (on_template_None E f _ HT) as [e ->]. done.
Qed.

Lemma returns_doc_bind {A} (m : M A) (f : A → M pyval) :
  (∀ a, returns_doc E (f a)) → returns_doc E (m ≫= f).
Proof.
  intros Hf st doc st' H. apply bind_Ok in H as (a & st1 & _ & H). by eapply Hf.
Qed.

Lemma returns_doc_tail :
  returns_doc E (t ← template E; modify (assign_build_json t);; get build_json).
Proof.
  intros st doc st'. destruct (doc_of st) as [T |] eqn:HT.
  - unfold mbind, M_bind. rewrite (template_Some _ _ _ HT). simpl.
    intros [= <- <-]. rewrite <- HT, <- (doc_of_loaded E st). by apply doc_of_ext.
  - destruct (template_None _ _ HT) as [e He]. unfold mbind, M_bind. by rewrite He.
Qed.

Lemma render_returns_doc validate : returns_doc E (render E validate).
Proof.
  unfold render.
  repeat first [ apply returns_doc_tail | apply returns_doc_bind; intros ? ].
Qed.

(** After the triggers are popped the document has none. *)
Lemma pop_triggers_Ok st u st' :
  on_template E (at_key "spec" (dict_pop "triggers")) st = (Ok u, st') →
  ∃ T, doc_of st' = Some T ∧ triggers_of T = None.
Proof.
  intros H. apply on_template_Ok in H as (T & T' & HT & Hf & ->).
  apply at_key_Ok in Hf as (m & x & x' & -> & Hx & Hp & ->).
  eexists. split; [by apply doc_of_assign__template |].
  rewrite triggers_of_insert_spec. destruct x; try done.
  injection Hp as <-. simpl. apply lookup_delete_eq.
Qed.

(** Once the triggers are gone, no step brings them back. *)
Lemma st_step_no_triggers st st' T :
  doc_of st = Some T → triggers_of T = None → st_step E st st' →
  ∃ T', doc_of st' = Some T' ∧ triggers_of T' = None.
Proof.
  intros HT Hn S. destruct (step_doc _ _ _ S T HT) as (T' & HT' & [Hr _]).
  exists T'. split; [done |]. rewrite Hn in Hr. by apply trig_rel_None.
Qed.

Lemma adjust_for_scratch_no_triggers st u st' :
  truthy (scratch st) = true →
  adjust_for_scratch E st = (Ok u, st') →
  ∃ T, doc_of st' = Some T ∧ triggers_of T = None.
Proof.
  intros Hs H. unfold adjust_for_scratch in H. rewrite get_bind, Hs in H.
  apply bind_Ok in H as (a & st1 & Hpop & H).
  apply pop_triggers_Ok in Hpop as (T & HT & Hn).
  eapply st_step_no_triggers; [done | done |].
  by eapply steps_set_label.
Qed.

Lemma adjust_for_isolated_no_triggers release st u st' :
  truthy (isolated st) = true →
  adjust_for_isolated E release st = (Ok u, st') →
  ∃ T, doc_of st' = Some T ∧ triggers_of T = None.
Proof.
  intros Hs H. unfold adjust_for_isolated in H. rewrite get_bind, Hs in H.
  apply bind_Ok in H as (a & st1 & Hpop & H).
  apply pop_triggers_Ok in Hpop as (T & HT & Hn).
  eapply st_step_no_triggers; [done | done |].
  revert H. apply (λ Hs : steps E _, Hs _ _ _). steps_walk.
Qed.

(** Rendering a scratch build. *)
Lemma render_scratch_no_triggers validate st doc st' :
  truthy (scratch st) = true →
  render E validate st = (Ok doc, st') →
  triggers_of doc = None.
Proof.
  intros Hs H. pose proof (render_returns_doc _ _ _ _ H) as Hdoc.
  unfold render in H. apply bind_Ok in H as (d & st1 & Hbase & H).
  assert (S2 : st_step E st1 st')
    by (revert H; apply (λ Hs : steps E _, Hs _ _ _); unfold is_custom_base_image; steps_walk).
  clear H. unfold BaseBuildRequest_render in Hbase. rewrite get_bind in Hbase.
  destruct (osbs_api st); [| done].
  pose proof (st_step_refl E st) as Acc.
  do 5 next E Hbase Acc.
  apply bind_Ok in Hbase as (u & st7 & Hadj & Hbase).
  apply adjust_for_scratch_no_triggers in Hadj as (T & HT & Hn);
    [| by rewrite (step_scratch _ _ _ Acc)].
  assert (S1 : st_step E st7 st1)
    by (revert Hbase; apply (λ Hs : steps E _, Hs _ _ _); steps_walk).
  destruct (st_step_no_triggers _ _ _ HT Hn (st_step_trans _ _ _ _ S1 S2))
    as (T' & HT' & Hn').
  congruence.
Qed.

(** Rendering an isolated build. *)
Lemma render_isolated_no_triggers validate st doc st' :
  truthy (isolated st) = true →
  render E validate st = (Ok doc, st') →
  triggers_of doc = None.
Proof.
  intros Hs H. pose proof (render_returns_doc _ _ _ _ H) as Hdoc.
  unfold render in H. pose proof (st_step_refl E st) as Acc.
  do 14 next E H Acc.
  apply bind_Ok in H as (u & sti & Hadj & H).
  apply adjust_for_isolated_no_triggers in Hadj as (T & HT & Hn);
    [| by rewrite (step_isolated _ _ _ Acc)].
  assert (S : st_step E sti st')
    by (revert H; apply (λ Hs : steps E _, Hs _ _ _); steps_walk).
  destruct (st_step_no_triggers _ _ _ HT Hn S) as (T' & HT' & Hn').
  congruence.
Qed.
End Render.

(** * The claims *)

Section Claims.
Variable E : Collaborators.

#[local] Abbreviation doc_of := (doc_of E).
#[local] Abbreviation loaded := (loaded E).

(** ** Build variations are mutually exclusive *)

Lemma set_params_eq api kwargs st :
  set_params E api kwargs st =
    let st1 := assign_variation kwargs (Base_set_params api kwargs st).2 in
    if (1 <? count_True (variation_flags kwargs))%nat then
      (Raise (OsbsValidationException variation_message), st1)
    else
      let st2 := assign_selectors kwargs st1 in
      match user_params_set_params E api
              (delete "skip_build" (delete "is_auto" kwargs)) (user_params st) with
      | Ok up' => (Ok tt, assign_user_params up' st2)
      | Raise e => (Raise e, st2)
      end.
Proof.
  unfold set_params, validate_build_variation, variation_flags.
  unfold mbind, M_bind, Base_set_params, modify, get, raise, lift, mret, M_ret. simpl.
  destruct (1 <? count_True _)%nat; [done |]. simpl.
  by destruct (user_params_set_params E _ _ _).
Qed.

(** C1: when more than one of scratch, is_auto and isolated is True,
    [set_params] raises the validation error of the build variations, and
    it does so with the document, the files opened and the user parameters
    as they were; when at most one is True, the variation is accepted and
    [set_params] raises only what [user_params.set_params] raises. *)
Theorem set_params_build_variation api kwargs st :
  ((1 < count_True (variation_flags kwargs))%nat →
   ∃ st', set_params E api kwargs st
            = (Raise (OsbsValidationException variation_message), st') ∧
          _template st' = _template st ∧ opened st' = opened st ∧
          user_params st' = user_params st) ∧
  ((count_True (variation_flags kwargs) ≤ 1)%nat →
   (set_params E api kwargs st).1 =
     (user_params_set_params E api (delete "skip_build" (delete "is_auto" kwargs))
        (user_params st) ≫= λ _, Ok tt)).
Proof.
  rewrite set_params_eq. cbv zeta. split; intros Hc.
  - apply Nat.ltb_lt in Hc. rewrite Hc. eexists. split; [done |]. done.
  - apply Nat.ltb_ge in Hc. rewrite Hc.
    by destruct (user_params_set_params E _ _ _).
Qed.
End Claims.

(** Two flags set: the request is refused; one flag set: it is accepted. *)
Lemma set_params_build_variation_witness :
  (∃ st', set_params sample_collaborators (Some sample_api)
            {[ "scratch" := PyBool true; "isolated" := PyBool true ]} new_request
          = (Raise (OsbsValidationException variation_message), st') ∧
          _template st' = PyNone ∧ opened st' = [] ∧
          user_params st' = sample_user_params) ∧
  (set_params sample_collaborators (Some sample_api)
     {[ "scratch" := PyBool true ]} new_request).1 = Ok tt.
Proof.
  split.
  - apply (proj1 (set_params_build_variation sample_collaborators (Some sample_api)
                    {[ "scratch" := PyBool true; "isolated" := PyBool true ]} new_request)).
    vm_compute. lia.
  - apply (proj2 (set_params_build_variation sample_collaborators (Some sample_api)
                    {[ "scratch" := PyBool true ]} new_request)).
    vm_compute. lia.
Defined.

(** ** The name of a scratch or isolated build *)

Lemma append_cons (x : ascii) (a b : string) : String x a ++ b = String x (a ++ b).
Proof. reflexivity. Qed.

Lemma append_assoc (a b c : string) : (a ++ b) ++ c = a ++ b ++ c.
Proof. induction a as [| x a IH]; [done | by rewrite !append_cons, IH]. Qed.

Lemma length_append (a b : string) :
  String.length (a ++ b) = (String.length a + String.length b)%nat.
Proof. induction a as [| x a IH]; [done | rewrite append_cons; simpl; by rewrite IH]. Qed.

Lemma substring_all (t : string) : String.substring 0 (String.length t) t = t.
Proof. induction t as [| x t IH]; simpl; [done | f_equal; exact IH]. Qed.

Lemma substring_append_r (s t : string) :
  String.substring (String.length s) (String.length t) (s ++ t) = t.
Proof.
  induction s as [| x s IH]; [apply substring_all | rewrite append_cons; exact IH].
Qed.

Lemma substring_append_l (s t : string) :
  String.substring 0 (String.length s) (s ++ t) = s.
Proof.
  induction s as [| x s IH]; [by destruct t |].
  rewrite append_cons. simpl. by rewrite IH.
Qed.

Lemma endswith_append (s t : string) : endswith (s ++ t) t = true.
Proof.
  unfold endswith. rewrite length_append.
  replace (String.length s + String.length t - String.length t)%nat
    with (String.length s) by lia.
  rewrite substring_append_r, String.eqb_refl.
  rewrite andb_true_r. apply Nat.leb_le. lia.
Qed.

Lemma drop_last_append (s t : string) : drop_last (String.length t) (s ++ t) = s.
Proof.
  unfold drop_last. rewrite length_append.
  replace (String.length s + String.length t - String.length t)%nat
    with (String.length s) by lia.
  apply substring_append_l.
Qed.

Lemma substring_split (s : string) (n : nat) :
  (n ≤ String.length s)%nat →
  String.substring 0 n s ++ String.substring n (String.length s - n) s = s.
Proof.
  revert n. induction s as [| a s IH]; intros [| n] Hn; simpl in Hn; try lia.
  - done.
  - simpl. by rewrite substring_all.
  - cbn [String.substring String.length Nat.sub]. rewrite append_cons.
    f_equal. apply IH. lia.
Qed.

(** A string that ends with [t] is something followed by [t]. *)
Lemma endswith_inv (s t : string) :
  endswith s t = true → s = drop_last (String.length t) s ++ t.
Proof.
  unfold endswith, drop_last.
  intros [Hk Ht]%andb_true_iff. apply Nat.leb_le in Hk. apply String.eqb_eq in Ht.
  pose proof (substring_split s (String.length s - String.length t)
                ltac:(lia)) as H.
  replace (String.length s - (String.length s - String.length t))%nat
    with (String.length t) in H by lia.
  by rewrite Ht in H.
Qed.

(** A tag that ends in [-<platform>] loses that suffix. *)
Lemma strip_platform_suffix (p s : string) :
  p ≠ "" → strip_platform (Some p) (s ++ "-" ++ p) = s.
Proof.
  intros Hp. unfold strip_platform. simpl truthy_str.
  apply String.eqb_neq in Hp. rewrite Hp. simpl negb. cbv iota.
  change (default "" (Some p)) with p.
  by rewrite endswith_append, drop_last_append.
Qed.

(** What [render_name] strips from the image tag. *)
Lemma strip_platform_without platform image_tag :
  without_platform_suffix platform image_tag (strip_platform platform image_tag).
Proof.
  unfold strip_platform. destruct platform as [p |]; [| right; auto].
  simpl truthy_str. destruct (String.eqb_spec p "") as [-> | Hp]; [right; auto |].
  simpl negb. cbv iota. change (default "" (Some p)) with p.
  destruct (endswith image_tag ("-" ++ p)) eqn:He.
  - left. exists p. split; [done |]. split; [done |]. by apply endswith_inv.
  - right. split; [done |]. right. right. exists p. split; [done |].
    intros s ->. by rewrite endswith_append in He.
Qed.

Lemma without_platform_strip platform image_tag tag :
  without_platform_suffix platform image_tag tag →
  strip_platform platform image_tag = tag.
Proof.
  intros [(p & -> & Hp & ->) | [<- H]]; [by apply strip_platform_suffix |].
  unfold strip_platform. destruct H as [-> | [-> | (p & -> & Hs)]]; [done | done |].
  simpl truthy_str. destruct (negb (p =? "")); [| done]. cbv iota.
  change (default "" (Some p)) with p.
  destruct (endswith image_tag ("-" ++ p)) eqn:He; [| done].
  apply endswith_inv in He. by destruct (Hs _ He).
Qed.

Lemma rsplit1_free c t : free_of c t = true → rsplit1 c t = None.
Proof.
  induction t as [| a t IH]; simpl; [done |].
  intros [Ha Ht]%andb_true_iff. rewrite (IH Ht).
  by apply negb_true_iff in Ha as ->.
Qed.

Lemma rsplit1_append c h t :
  free_of c t = true → rsplit1 c (h ++ String c t) = Some (h, t).
Proof.
  intros Ht. induction h as [| a h IH].
  - simpl. by rewrite (rsplit1_free _ _ Ht), Ascii.eqb_refl.
  - rewrite append_cons. simpl. by rewrite IH.
Qed.

(** [rsplit('-', 2)] of a tag that ends in two dash-free segments. *)
Lemma rsplit_salt_timestamp head salt timestamp :
  free_of dash salt = true → free_of dash timestamp = true →
  rsplit dash 2 (head ++ "-" ++ salt ++ "-" ++ timestamp) = [head; salt; timestamp].
Proof.
  intros Hs Ht. change ("-" ++ salt ++ "-" ++ timestamp)
    with (String dash salt ++ String dash timestamp).
  rewrite <- append_assoc. simpl rsplit.
  rewrite (rsplit1_append dash (head ++ String dash salt) timestamp Ht).
  by rewrite (rsplit1_append dash head salt Hs).
Qed.

Section Name.
Variable E : Collaborators.

Lemma at_key_not_None k f T T' : at_key k f T = Ok T' → T' ≠ PyNone.
Proof. intros H. by apply at_key_Ok in H as (m & x & x' & _ & _ & _ & ->). Qed.

(** A statement on the document that succeeds. *)
Lemma on_template_run f st T T' :
  doc_of E st = Some T → f T = Ok T' → T' ≠ PyNone →
  on_template E f st = (Ok tt, assign__template T' (loaded E st)) ∧
  doc_of E (assign__template T' (loaded E st)) = Some T'.
Proof.
  intros HT Hf HT'. rewrite (on_template_Some _ _ _ _ HT), Hf.
  split; [done | by apply doc_of_assign__template].
Qed.

(** C3: for a scratch or isolated build whose image tag is
    [<head>-<salt>-<timestamp>], with no dash in salt and timestamp,
    followed by [-<platform>] when there is a platform and the tag ends
    so, [render_name] sets metadata.name to [scratch-<salt>-<timestamp>]
    when scratch is set and to [isolated-<salt>-<timestamp>] otherwise. *)
Theorem render_name_scratch_isolated st T md head salt timestamp :
  doc_of E st = Some T →
  lookup_in "metadata" T = Some (PyDict md) →
  truthy (scratch st) = true ∨ truthy (isolated st) = true →
  without_platform_suffix
    (BuildUserParams.platform (user_params st))
    (BuildUserParams.image_tag (user_params st))
    (head ++ "-" ++ salt ++ "-" ++ timestamp) →
  free_of dash salt = true → free_of dash timestamp = true →
  let name := (if truthy (scratch st) then "scratch-" else "isolated-")
              ++ salt ++ "-" ++ timestamp in
  ∃ st' T',
    render_name E st = (Ok tt, st') ∧ doc_of E st' = Some T' ∧
    at_key "metadata" (setitem "name" (PyStr name)) T = Ok T' ∧
    get_path ["metadata"; "name"] T' = Ok (PyStr name).
Proof.
  intros HT Hmd Hv Htag Hs Ht name. apply without_platform_strip in Htag.
  destruct T as [| | | | | m]; try done. simpl in Hmd.
  set (T' := PyDict (<["metadata" := PyDict (<["name" := PyStr name]> md)]> m)).
  assert (Hf : at_key "metadata" (setitem "name" (PyStr name)) (PyDict m) = Ok T').
  { unfold at_key. simpl. by rewrite Hmd. }
  destruct (on_template_run _ _ _ _ HT Hf) as [Hrun Hdoc]; [done |].
  exists (assign__template T' (loaded E st)), T'.
  split; [| split; [done | split; [done |]]].
  - unfold render_name. rewrite !get_bind, Htag.
    rewrite (rsplit_salt_timestamp _ _ _ Hs Ht).
    assert (Hor : truthy (scratch st) || truthy (isolated st) = true)
      by (destruct Hv as [-> | ->]; [done | apply orb_true_r]).
    rewrite Hor. subst name.
    destruct (truthy (scratch st)) eqn:Hscr.
    + exact Hrun.
    + destruct Hv as [Hv | ->]; [done |]. exact Hrun.
  - subst T'. simpl. rewrite lookup_insert_eq. simpl. by rewrite lookup_insert_eq.
Qed.
End Name.

(** The tag of the specification as an isolated build without a
    platform, and as a scratch build on a platform, whose image tag ends
    in the platform. *)
Lemma render_name_scratch_isolated_witness :
  (∃ st' T',
     render_name sample_collaborators
       (request_on_platform {[ "scratch" := PyBool true ]} "x86_64"
          "myimage-abc123-20200101000000-x86_64")
       = (Ok tt, st') ∧
     doc_of sample_collaborators st' = Some T' ∧
     get_path ["metadata"; "name"] T' = Ok (PyStr "scratch-abc123-20200101000000")) ∧
  (∃ st' T',
     render_name sample_collaborators (request_with {[ "isolated" := PyBool true ]})
       = (Ok tt, st') ∧
     doc_of sample_collaborators st' = Some T' ∧
     get_path ["metadata"; "name"] T' = Ok (PyStr "isolated-abc123-20200101000000")).
Proof.
  split.
  - destruct (render_name_scratch_isolated sample_collaborators
                (request_on_platform {[ "scratch" := PyBool true ]} "x86_64"
                   "myimage-abc123-20200101000000-x86_64") sample_template
                sample_metadata "myimage" "abc123" "20200101000000")
      as (st' & T' & H1 & H2 & _ & H3);
      [vm_compute; reflexivity | vm_compute; reflexivity
      | left; vm_compute; reflexivity
      | left; exists "x86_64"; split; [reflexivity |];
        split; [discriminate | reflexivity]
      | vm_compute; reflexivity | vm_compute; reflexivity |].
    exists st', T'. split; [exact H1 | split; [exact H2 | exact H3]].
  - destruct (render_name_scratch_isolated sample_collaborators
                (request_with {[ "isolated" := PyBool true ]}) sample_template
                sample_metadata "myimage" "abc123" "20200101000000")
      as (st' & T' & H1 & H2 & _ & H3);
      [vm_compute; reflexivity | vm_compute; reflexivity
      | right; vm_compute; reflexivity
      | right; split; [reflexivity | left; reflexivity]
      | vm_compute; reflexivity | vm_compute; reflexivity |].
    exists st', T'. split; [exact H1 | split; [exact H2 | exact H3]].
Defined.

(** ** Node selectors *)

Section NodeSelectors.
Variable E : Collaborators.

Lemma assign_selector_doc_of (assign : pyval → BuildRequestV2 → BuildRequestV2) x st :
  (assign = assign_auto_build_node_selector ∨
   assign = assign_scratch_build_node_selector ∨
   assign = assign_isolated_build_node_selector ∨
   assign = assign_explicit_build_node_selector) →
  doc_of E (assign x st) = doc_of E st.
Proof. intros [-> | [-> | [-> | ->]]]; by apply doc_of_ext. Qed.

Lemma chosen_selector_assign st :
  (chosen_selector st).2 = assign_auto_build_node_selector ∨
  (chosen_selector st).2 = assign_scratch_build_node_selector ∨
  (chosen_selector st).2 = assign_isolated_build_node_selector ∨
  (chosen_selector st).2 = assign_explicit_build_node_selector.
Proof.
  unfold chosen_selector.
  destruct (truthy (is_auto st)); [auto |].
  destruct (truthy (scratch st)); [auto |].
  destruct (truthy (isolated st)); auto.
Qed.

(** C4: for a worker build [render_node_selectors] puts in
    spec.nodeSelector the auto-build selector if is_auto, else the
    scratch-build selector if scratch, else the isolated-build selector if
    isolated, else the explicit-build selector, and, when there is a
    platform selector, merges it on top, the platform's keys winning; for
    any other build type it changes nothing. *)
Theorem render_node_selectors_precedence st T spec build_type :
  doc_of E st = Some T →
  lookup_in "spec" T = Some (PyDict spec) →
  let base :=
    if truthy (is_auto st) then auto_build_node_selector st
    else if truthy (scratch st) then scratch_build_node_selector st
    else if truthy (isolated st) then isolated_build_node_selector st
    else explicit_build_node_selector st in
  (build_type ≠ Some (BUILD_TYPE_WORKER E) →
   render_node_selectors E build_type st = (Ok tt, st)) ∧
  (build_type = Some (BUILD_TYPE_WORKER E) →
   truthy (platform_node_selector st) = false →
   ∃ st' T', render_node_selectors E build_type st = (Ok tt, st') ∧
             doc_of E st' = Some T' ∧ spec_of "nodeSelector" T' = Some base) ∧
  (build_type = Some (BUILD_TYPE_WORKER E) →
   ∀ b p, base = PyDict b → platform_node_selector st = PyDict p →
   ∃ st' T', render_node_selectors E build_type st = (Ok tt, st') ∧
             doc_of E st' = Some T' ∧
             spec_of "nodeSelector" T' = Some (PyDict (p ∪ b))).
Proof.
  intros HT Hspec base.
  assert (Hbase : (chosen_selector st).1 = base).
  { unfold chosen_selector, base.
    destruct (truthy (is_auto st)); [done |].
    destruct (truthy (scratch st)); [done |].
    by destruct (truthy (isolated st)). }
  clearbody base.
  destruct T as [| | | | | m]; try done. simpl in Hspec.
  set (T1 := PyDict (<["spec" := PyDict (<["nodeSelector" := base]> spec)]> m)).
  assert (Hf : at_key "spec" (setitem "nodeSelector" base) (PyDict m) = Ok T1).
  { unfold at_key. simpl. by rewrite Hspec. }
  destruct (on_template_run E _ _ _ _ HT Hf) as [Hrun Hdoc]; [by subst T1 |].
  assert (Hsel : spec_of "nodeSelector" T1 = Some base).
  { subst T1. rewrite spec_of_insert_spec. simpl. by rewrite lookup_insert_eq. }
  assert (Hplat : platform_node_selector (assign__template T1 (loaded E st))
                  = platform_node_selector st).
  { simpl. by destruct (loaded_attrs E st) as (_ & _ & _ & _ & _ & ->). }
  split; [| split].
  - intros Hne. unfold render_node_selectors. by rewrite bool_decide_eq_false_2.
  - intros -> Hp. exists (assign__template T1 (loaded E st)), T1.
    split; [| done]. unfold render_node_selectors.
    rewrite bool_decide_eq_true_2 by done. rewrite get_bind.
    destruct (chosen_selector st) as [sel assign] eqn:Hch. simpl in Hbase. subst sel.
    unfold mbind at 1, M_bind at 1. rewrite Hrun. rewrite get_bind, Hplat, Hp. done.
  - intros -> b p -> Hp.
    destruct (truthy (platform_node_selector st)) eqn:Htr.
    + set (base := PyDict b) in *.
      set (T2 := PyDict (<["spec" := PyDict (<["nodeSelector" := PyDict (p ∪ b)]>
                                         (<["nodeSelector" := base]> spec))]>
                       (<["spec" := PyDict (<["nodeSelector" := base]> spec)]> m))).
      assert (Hg : at_path ["spec"; "nodeSelector"] (dict_update p) T1 = Ok T2).
      { subst T1. simpl. unfold at_key. simpl. rewrite lookup_insert_eq. simpl.
        by rewrite lookup_insert_eq. }
      destruct (on_template_run E _ _ _ _ Hdoc Hg) as [Hrun2 Hdoc2]; [by subst T2 |].
      assert (Hsel2 : spec_of "nodeSelector" T2 = Some (PyDict (p ∪ b))).
      { subst T2. rewrite spec_of_insert_spec. simpl. by rewrite lookup_insert_eq. }
      set (st2 := assign__template T2 (loaded E (assign__template T1 (loaded E st)))) in *.
      pose proof (chosen_selector_assign st) as Has.
      destruct (chosen_selector st) as [sel assign] eqn:Hch. simpl in Hbase, Has.
      subst sel.
      exists (assign (PyDict (p ∪ b)) (loaded E st2)), T2. split; [| split].
      * unfold render_node_selectors.
        rewrite bool_decide_eq_true_2 by done. rewrite get_bind, Hch.
        unfold mbind at 1, M_bind at 1. rewrite Hrun.
        rewrite get_bind, Hplat, Htr, Hp.
        unfold mbind at 1, M_bind at 1. rewrite Hrun2. fold st2.
        unfold mbind, M_bind. rewrite (read_template_Some _ _ _ _ Hdoc2).
        subst T2. simpl. rewrite lookup_insert_eq. simpl.
        rewrite lookup_insert_eq. done.
      * rewrite assign_selector_doc_of by done. by rewrite doc_of_loaded.
      * done.
    + exists (assign__template T1 (loaded E st)), T1.
      assert (p = ∅) as ->.
      { rewrite Hp in Htr. simpl in Htr. apply map_to_list_empty_iff.
        by destruct (map_to_list p). }
      rewrite (left_id_L ∅ (∪)).
      split; [| done]. unfold render_node_selectors.
      rewrite bool_decide_eq_true_2 by done. rewrite get_bind.
      destruct (chosen_selector st) as [sel assign] eqn:Hch. simpl in Hbase. subst sel.
      unfold mbind at 1, M_bind at 1. rewrite Hrun. by rewrite get_bind, Hplat, Htr.
Qed.
End NodeSelectors.

(** The selectors of the specification's example, and an orchestrator
    build next to it. *)
Lemma render_node_selectors_precedence_witness :
  (∃ st' T',
     render_node_selectors sample_collaborators (Some "worker") (request_with auto_kwargs)
       = (Ok tt, st') ∧
     doc_of sample_collaborators st' = Some T' ∧
     spec_of "nodeSelector" T'
       = Some (PyDict {[ "pool" := PyStr "auto"; "zone" := PyStr "a" ]})) ∧
  render_node_selectors sample_collaborators (Some "orchestrator")
    (request_with auto_kwargs) = (Ok tt, request_with auto_kwargs).
Proof.
  destruct (render_node_selectors_precedence sample_collaborators
              (request_with auto_kwargs) sample_template
              sample_spec
              (Some "worker"))
    as (_ & _ & H3); [by vm_compute | by vm_compute |].
  destruct (render_node_selectors_precedence sample_collaborators
              (request_with auto_kwargs) sample_template
              sample_spec
              (Some "orchestrator"))
    as (H1 & _ & _); [by vm_compute | by vm_compute |].
  split.
  - destruct (H3 eq_refl {[ "pool" := PyStr "auto" ]} {[ "zone" := PyStr "a" ]})
      as (st' & T' & Hr & Hd & Hs); [by vm_compute | by vm_compute |].
    exists st', T'. split; [exact Hr | split; [exact Hd |]].
    rewrite Hs. by vm_compute.
  - apply H1. discriminate.
Defined.

(** ** The reactor configuration entry *)

Lemma get_path_app p q T : get_path (p ++ q) T = get_path p T ≫= get_path q.
Proof.
  revert T. induction p as [| k p IH]; intros T; simpl; [done |].
  destruct (getitem k T); simpl; [apply IH | done].
Qed.

Lemma at_key_run k g (m : dict) x x' :
  m !! k = Some x → g x = Ok x' →
  at_key k g (PyDict m) = Ok (PyDict (<[k := x']> m)).
Proof. intros Hk Hg. unfold at_key. simpl. rewrite Hk. simpl. by rewrite Hg. Qed.

(** A statement on the object at a path that is there. *)
Lemma at_path_get p f T v v' :
  p ≠ [] → get_path p T = Ok v → f v = Ok v' →
  ∃ T', at_path p f T = Ok T' ∧ get_path p T' = Ok v' ∧ T' ≠ PyNone.
Proof.
  revert T. induction p as [| k p IH]; intros T Hp Hg Hf; [done |].
  simpl in Hg. destruct T as [| | | | | m]; try done. simpl in Hg.
  destruct (m !! k) as [x |] eqn:Hk; [| done]. simpl in Hg.
  destruct p as [| k' p'].
  - simpl in Hg. injection Hg as ->.
    exists (PyDict (<[k := v']> m)). split; [| split; [| done]].
    + by apply (at_key_run k f m v).
    + simpl. by rewrite lookup_insert_eq.
  - destruct (IH x) as (x' & Hx' & Hgx' & _); [done | done | done |].
    exists (PyDict (<[k := x']> m)). split; [| split; [| done]].
    + by apply (at_key_run k (at_path (k' :: p') f) m x).
    + change (get_path (k :: k' :: p') (PyDict (<[k := x']> m)))
        with (getitem k (PyDict (<[k := x']> m)) ≫= get_path (k' :: p')).
      simpl getitem. rewrite lookup_insert_eq. exact Hgx'.
Qed.

Section ReactorConfig.
Variable E : Collaborators.

(** C5: [set_reactor_config] appends to the env list of the custom
    strategy one inline REACTOR_CONFIG entry when there is an override,
    with or without a config map; one entry that refers to the key
    config.yaml of the config map when there is only a config map; and
    nothing when there is neither. *)
Theorem set_reactor_config_one_entry st T env :
  doc_of E st = Some T →
  get_path env_path T = Ok (PyList env) →
  let reactor_config_override :=
    BuildUserParams.reactor_config_override (user_params st) in
  let reactor_config_map := BuildUserParams.reactor_config_map (user_params st) in
  let entries :=
    if truthy (of_opt_dict reactor_config_override)
    then [inline_reactor_config E (default ∅ reactor_config_override)]
    else if truthy_str reactor_config_map
    then [config_map_reactor_config (default "" reactor_config_map)]
    else [] in
  ∃ st' T',
    set_reactor_config E st = (Ok tt, st') ∧ doc_of E st' = Some T' ∧
    get_path env_path T' = Ok (PyList (env ++ entries)).
Proof.
  intros HT Henv o cm entries.
  assert (Hentry : match reactor_config_entry E (user_params st) with
                   | Some e => entries = [e]
                   | None => entries = []
                   end).
  { unfold reactor_config_entry, entries. fold o. fold cm.
    destruct (truthy (of_opt_dict o)); [done |].
    destruct cm as [c |]; [| done]. simpl.
    by destruct (negb _). }
  unfold set_reactor_config. rewrite get_bind. fold o. fold cm.
  destruct (negb (truthy_str cm) && negb (truthy (of_opt_dict o))) eqn:Hnone.
  - apply andb_true_iff in Hnone as [Hcm Ho].
    apply negb_true_iff in Hcm, Ho.
    exists st, T. subst entries. rewrite Ho, Hcm, app_nil_r. done.
  - assert (Hcs : ∃ cs, get_path custom_strategy_path T = Ok cs).
    { unfold env_path in Henv. rewrite get_path_app in Henv.
      destruct (get_path custom_strategy_path T); [eauto | done]. }
    destruct Hcs as [cs Hcs].
    unfold mbind at 1, M_bind at 1.
    rewrite (read_template_Some _ _ _ _ HT), Hcs.
    destruct (reactor_config_entry E (user_params st)) as [e |] eqn:He.
    + destruct (at_path_get env_path (list_append e) T (PyList env)
                  (PyList (env ++ [e]))) as (T' & Hat & Hget & HT');
        [done | done | done |].
      rewrite <- (doc_of_loaded E st) in HT.
      destruct (on_template_run E _ _ _ _ HT Hat HT') as [Hrun Hdoc].
      exists (assign__template T' (loaded E (loaded E st))), T'.
      rewrite Hentry. done.
    + exists (loaded E st), T. rewrite Hentry, app_nil_r.
      by rewrite doc_of_loaded.
Qed.
End ReactorConfig.

(** An override next to a config map: one entry, the inline one. *)
Lemma set_reactor_config_one_entry_witness :
  ∃ st' T',
    set_reactor_config sample_collaborators
      (request_with_reactor_config (Some sample_override) (Some "reactor-config-map"))
      = (Ok tt, st') ∧
    doc_of sample_collaborators st' = Some T' ∧
    get_path env_path T' =
      Ok (PyList (sample_env ++
                  [inline_reactor_config sample_collaborators sample_override])).
Proof.
  apply (set_reactor_config_one_entry sample_collaborators
           (request_with_reactor_config (Some sample_override) (Some "reactor-config-map"))
           sample_template sample_env);
    by vm_compute.
Defined.

(** ** Required secrets *)

(** C6 as stated fails on a starting list that mounts a required secret
    already: mounted elsewhere, the secret keeps that mount path, which is
    not SECRETS_PATH/<name>; and mounted twice, it stays mounted twice. *)
Lemma required_secrets_keep_existing_mounts :
  inject_twice sample_collaborators (PyList [PyStr "pulp"])
    (request_on (with_secrets [mount_at "pulp" "/etc/pulp"] sample_template) ∅)
  = Ok (PyList [mount_at "pulp" "/etc/pulp"]) ∧
  mount_at "pulp" "/etc/pulp"
  ≠ mount_at "pulp" (SECRETS_PATH sample_collaborators ++ "/" ++ "pulp") ∧
  inject_twice sample_collaborators (PyList [PyStr "pulp"])
    (request_on (with_secrets [mount_at "pulp" "/a"; mount_at "pulp" "/b"]
                   sample_template) ∅)
  = Ok (PyList [mount_at "pulp" "/a"; mount_at "pulp" "/b"]).
Proof.
  split; [by vm_compute | split; [| by vm_compute]].
  intros H. apply (f_equal (lookup_in "mountPath")) in H.
  vm_compute in H. discriminate H.
Qed.

(** A statement that gives the object back leaves the document as it is. *)
Lemma at_path_same p f T v :
  get_path p T = Ok v → f v = Ok v → at_path p f T = Ok T.
Proof.
  revert T. induction p as [| k p IH]; intros T Hg Hf.
  - simpl in *. by injection Hg as ->.
  - simpl in Hg. destruct T as [| | | | | m]; try done. simpl in Hg.
    destruct (m !! k) as [x |] eqn:Hk; [| done]. simpl in Hg.
    change (at_path (k :: p) f (PyDict m)) with (at_key k (at_path p f) (PyDict m)).
    rewrite (at_key_run k (at_path p f) m x x Hk (IH x Hg Hf)).
    by rewrite insert_id.
Qed.

Lemma str_items_fmap names : str_items (PyStr <$> names) = Ok names.
Proof.
  induction names as [| n names IH]; [done |].
  change (str_items (PyStr <$> n :: names))
    with (r ← str_items (PyStr <$> names); Ok (n :: r)).
  by rewrite IH.
Qed.

Section RequiredSecrets.
Variable E : Collaborators.

Lemma foldl_secret_mounts (l : list pyval) (new : list string) :
  foldl (λ acc secret, acc ≫= list_append (secret_mount E secret))
        (Ok (PyList l)) new
  = Ok (PyList (l ++ (secret_mount E <$> new))).
Proof.
  revert l. induction new as [| n new IH]; intros l.
  - simpl. by rewrite app_nil_r.
  - rewrite fmap_cons. simpl foldl. rewrite IH. by rewrite <- app_assoc.
Qed.

Lemma existing_names_app l1 l2 e1 e2 :
  existing_names l1 = Ok e1 → existing_names l2 = Ok e2 →
  existing_names (l1 ++ l2) = Ok (e1 ∪ e2).
Proof.
  revert e1. induction l1 as [| sm l1 IH]; intros e1.
  - simpl. intros [= <-] ->. by rewrite (left_id_L ∅ (∪)).
  - cbn -[get_path].
    destruct (get_path ["secretSource"; "name"] sm) as [n |]; [| done].
    cbn -[get_path].
    destruct n; try done; try (intros H1 H2; by apply IH).
    destruct (existing_names l1) as [e |]; [| done]. cbn.
    intros [= <-] H2. rewrite (IH e eq_refl H2). cbn.
    by rewrite (assoc_L (∪)).
Qed.

Lemma existing_names_mounts (new : list string) :
  existing_names (secret_mount E <$> new) = Ok (list_to_set new).
Proof.
  induction new as [| n new IH]; [done |].
  rewrite fmap_cons.
  change (existing_names (secret_mount E n :: (secret_mount E <$> new)))
    with (names ← existing_names (secret_mount E <$> new); Ok ({[ n ]} ∪ names)).
  by rewrite IH.
Qed.

Lemma set_iter_NoDup (X : gset string) : NoDup (set_iter E X).
Proof. rewrite (set_iter_perm E X). apply NoDup_elements. Qed.

Lemma elem_of_set_iter (X : gset string) n : n ∈ set_iter E X ↔ n ∈ X.
Proof. rewrite (set_iter_perm E X). apply elem_of_elements. Qed.

Lemma set_iter_empty (X : gset string) : X = ∅ → set_iter E X = [].
Proof.
  intros ->. apply Permutation_nil_r.
  rewrite (set_iter_perm E ∅), elements_empty. done.
Qed.

Lemma mounts_named_app n l1 l2 :
  mounts_named n (l1 ++ l2) = (mounts_named n l1 ++ mounts_named n l2)%list.
Proof. apply List.filter_app. Qed.

Lemma names_secret_mount n n' :
  names_secret n (secret_mount E n') = (n' =? n).
Proof. reflexivity. Qed.

(** A secret that no mount names has no mount. *)
Lemma mounts_named_not_existing n secrets existing :
  existing_names secrets = Ok existing → n ∉ existing →
  mounts_named n secrets = [].
Proof.
  revert existing. induction secrets as [| sm l IH]; intros ex; [done |].
  cbn -[get_path]. unfold names_secret at 1.
  destruct (get_path ["secretSource"; "name"] sm) as [v |]; [| done].
  cbn -[get_path]. fold (mounts_named n l).
  destruct v; try done; try (intros H Hn; simpl; by apply (IH ex)).
  destruct (existing_names l) as [e |]; [| done]. cbn.
  intros [= <-] Hn. simpl.
  destruct (String.eqb_spec s n) as [-> | Hne]; [set_solver |].
  apply (IH e); [done | set_solver].
Qed.

Lemma mounts_named_new n (new : list string) :
  NoDup new →
  mounts_named n (secret_mount E <$> new)
  = if decide (n ∈ new) then [secret_mount E n] else [].
Proof.
  induction 1 as [| n' new Hn' Hnd IH]; [done |].
  rewrite fmap_cons.
  change (mounts_named n (secret_mount E n' :: (secret_mount E <$> new)))
    with (if names_secret n (secret_mount E n')
          then secret_mount E n' :: mounts_named n (secret_mount E <$> new)
          else mounts_named n (secret_mount E <$> new)).
  rewrite names_secret_mount, IH.
  destruct (String.eqb_spec n' n) as [-> | Hne].
  - rewrite (decide_True (P := n ∈ n :: new)) by (apply elem_of_cons; by left).
    by rewrite decide_False.
  - destruct (decide (n ∈ new)) as [Hin | Hin].
    + by rewrite decide_True by (apply elem_of_cons; by right).
    + rewrite decide_False; [done |].
      intros [? | ?]%elem_of_cons; [congruence | done].
Qed.
End RequiredSecrets.

Lemma bind_run {A B} (m : M A) (f : A → M B) st a st1 :
  m st = (Ok a, st1) → (m ≫= f) st = f a st1.
Proof. intros H. unfold mbind, M_bind. by rewrite H. Qed.

Lemma os_path_join_plain (a b : string) :
  startswith b "/" = false → a ≠ "" → endswith a "/" = false →
  os_path_join a b = a ++ "/" ++ b.
Proof.
  intros Hb Ha He. unfold os_path_join. rewrite Hb, He.
  apply String.eqb_neq in Ha. by rewrite Ha.
Qed.

Section Injection.
Variable E : Collaborators.

(** One run of [_set_required_secrets] on a document whose custom
    strategy has no secrets yet or a list of well-formed mounts. *)
Lemma _set_required_secrets_run st T cs secrets existing names :
  doc_of E st = Some T →
  get_path custom_strategy_path T = Ok (PyDict cs) →
  default (PyList []) (cs !! "secrets") = PyList secrets →
  existing_names secrets = Ok existing →
  names ≠ [] →
  let new := set_iter E (list_to_set names ∖ existing) in
  ∃ st1 Ta T1,
    _set_required_secrets E (PyList (PyStr <$> names)) st = (Ok tt, st1) ∧
    doc_of E st1 = Some T1 ∧
    at_path custom_strategy_path (setdefault "secrets" (PyList [])) T = Ok Ta ∧
    at_path secrets_path (append_mounts E new) Ta = Ok T1 ∧
    get_path secrets_path T1 = Ok (PyList (secrets ++ (secret_mount E <$> new))).
Proof.
  intros HT Hcs Hsec Hex Hnames new.
  assert (Hset : ∃ cs', setdefault "secrets" (PyList []) (PyDict cs) = Ok (PyDict cs') ∧
                        cs' !! "secrets" = Some (PyList secrets)).
  { simpl. destruct (cs !! "secrets") as [v |] eqn:Hv; simpl in Hsec.
    - exists cs. by subst v.
    - exists (<["secrets" := PyList []]> cs). injection Hsec as <-.
      by rewrite lookup_insert_eq. }
  destruct Hset as (cs' & Hset & Hcs').
  destruct (at_path_get custom_strategy_path _ T _ _ ltac:(done) Hcs Hset)
    as (Ta & Hat & Hga & HTa).
  destruct (on_template_run E _ _ _ _ HT Hat HTa) as [Hrun1 Hdoc1].
  set (sta := assign__template Ta (loaded E st)) in *.
  assert (Hgs : get_path secrets_path Ta = Ok (PyList secrets)).
  { unfold secrets_path. rewrite get_path_app, Hga. simpl. by rewrite Hcs'. }
  assert (Hf : append_mounts E new (PyList secrets)
               = Ok (PyList (secrets ++ (secret_mount E <$> new))))
    by apply foldl_secret_mounts.
  destruct (at_path_get secrets_path _ Ta _ _ ltac:(done) Hgs Hf)
    as (T1 & Hat1 & Hg1 & HT1).
  assert (Hdoca : doc_of E (loaded E sta) = Some Ta) by by rewrite doc_of_loaded.
  destruct (on_template_run E _ _ _ _ Hdoca Hat1 HT1) as [Hrun2 Hdoc2].
  exists (assign__template T1 (loaded E (loaded E sta))), Ta, T1.
  split; [| done].
  unfold _set_required_secrets.
  replace (truthy (PyList (PyStr <$> names))) with true by by destruct names.
  cbn [negb].
  rewrite (bind_run _ _ _ _ _ Hrun1).
  pose proof (read_template_Some E (get_path secrets_path) _ _ Hdoc1) as Hread.
  rewrite Hgs in Hread. rewrite (bind_run _ _ _ _ _ Hread).
  rewrite Hex. rewrite (bind_run _ _ (loaded E sta) existing _ eq_refl).
  unfold required_set. rewrite str_items_fmap.
  change (Ok names ≫= λ r : list string, Ok (list_to_set r))
    with (Ok (list_to_set names : gset string)).
  rewrite (bind_run (lift (Ok (list_to_set names))) _ (loaded E sta)
             (list_to_set names) _ eq_refl).
  exact Hrun2.
Qed.

(** C6, as amended: injecting the required secrets a second time leaves
    the document as the first injection left it.  The first injection
    gives each required name that no mount of the starting list names
    exactly one mount, at os.path.join(SECRETS_PATH, name), which is
    SECRETS_PATH/<name> for a relative name; a name already mounted, or
    not required, keeps the mounts it had. *)
Theorem required_secrets_idempotent st T cs secrets existing names :
  doc_of E st = Some T →
  get_path custom_strategy_path T = Ok (PyDict cs) →
  default (PyList []) (cs !! "secrets") = PyList secrets →
  existing_names secrets = Ok existing →
  names ≠ [] →
  let required := PyList (PyStr <$> names) in
  ∃ st1 T1 final,
    _set_required_secrets E required st = (Ok tt, st1) ∧
    doc_of E st1 = Some T1 ∧ get_path secrets_path T1 = Ok (PyList final) ∧
    (∃ st2, _set_required_secrets E required st1 = (Ok tt, st2) ∧
            doc_of E st2 = Some T1) ∧
    (∀ n, n ∈ names → n ∉ existing →
          mounts_named n final
          = [mount_at n (os_path_join (SECRETS_PATH E) n)]) ∧
    (∀ n, n ∈ existing ∨ n ∉ names →
          mounts_named n final = mounts_named n secrets) ∧
    (∀ n, startswith n "/" = false → SECRETS_PATH E ≠ "" →
          endswith (SECRETS_PATH E) "/" = false →
          os_path_join (SECRETS_PATH E) n = SECRETS_PATH E ++ "/" ++ n).
Proof.
  intros HT Hcs Hsec Hex Hnames required.
  destruct (_set_required_secrets_run st T cs secrets existing names
              HT Hcs Hsec Hex Hnames) as (st1 & Ta & T1 & Hrun & Hdoc & _ & _ & Hfinal).
  set (new := set_iter E (list_to_set names ∖ existing)) in *.
  set (final := (secrets ++ (secret_mount E <$> new))%list) in *.
  exists st1, T1, final. split; [done |]. split; [done |]. split; [done |].
  assert (Hnew : ∀ n, n ∈ new ↔ n ∈ names ∧ n ∉ existing).
  { intros n. unfold new. rewrite elem_of_set_iter. set_solver. }
  split; [| split; [| split]].
  - assert (Hcs1 : ∃ cs1, get_path custom_strategy_path T1 = Ok (PyDict cs1) ∧
                          cs1 !! "secrets" = Some (PyList final)).
    { unfold secrets_path in Hfinal. rewrite get_path_app in Hfinal.
      destruct (get_path custom_strategy_path T1) as [x |]; [| done].
      simpl in Hfinal. destruct x as [| | | | | cs1]; try done. simpl in Hfinal.
      exists cs1. split; [done |].
      destruct (cs1 !! "secrets"); [| done]. simpl in Hfinal. congruence. }
    destruct Hcs1 as (cs1 & Hcs1 & Hsec1).
    assert (Hex1 : existing_names final = Ok (existing ∪ list_to_set new))
      by (apply existing_names_app; [done | apply existing_names_mounts]).
    destruct (_set_required_secrets_run st1 T1 cs1 final _ names
                Hdoc Hcs1 ltac:(by rewrite Hsec1) Hex1 Hnames)
      as (st2 & Ta' & T2 & Hrun2 & Hdoc2 & Hat & Hat' & _).
    assert (Hnone : list_to_set names ∖ (existing ∪ list_to_set new) = (∅ : gset string)).
    { apply set_eq. intros n. rewrite elem_of_difference, elem_of_union.
      rewrite !elem_of_list_to_set, Hnew.
      split; [| set_solver]. intros [Hin Hnot]. exfalso. apply Hnot.
      destruct (decide (n ∈ existing)); [by left | by right]. }
    rewrite Hnone, (set_iter_empty E ∅ eq_refl) in Hat'.
    assert (Ta' = T1) as ->.
    { rewrite (at_path_same custom_strategy_path _ T1 (PyDict cs1) Hcs1) in Hat.
      - by injection Hat.
      - simpl. by rewrite Hsec1. }
    rewrite (at_path_same secrets_path (append_mounts E []) T1 (PyList final)
               Hfinal eq_refl) in Hat'.
    injection Hat' as <-. by exists st2.
  - intros n Hin Hnot. unfold final. rewrite mounts_named_app.
    rewrite (mounts_named_not_existing n secrets existing Hex Hnot).
    rewrite (mounts_named_new E n new (set_iter_NoDup E _)).
    by rewrite decide_True by by apply Hnew.
  - intros n Hn. unfold final. rewrite mounts_named_app.
    rewrite (mounts_named_new E n new (set_iter_NoDup E _)).
    rewrite decide_False; [by rewrite app_nil_r |].
    rewrite Hnew. intros [? ?]. by destruct Hn.
  - intros n. apply os_path_join_plain.
Qed.
End Injection.

(** Two required secrets, one of them mounted by the template already:
    the other gets its mount, and a second injection changes nothing. *)
Lemma required_secrets_idempotent_witness :
  ∃ st1 T1 final,
    _set_required_secrets sample_collaborators (PyList [PyStr "pulp"; PyStr "koji"])
      (request_on (with_secrets [mount_at "pulp" "/etc/pulp"] sample_template) ∅)
      = (Ok tt, st1) ∧
    doc_of sample_collaborators st1 = Some T1 ∧
    get_path secrets_path T1 = Ok (PyList final) ∧
    (∃ st2,
       _set_required_secrets sample_collaborators
         (PyList [PyStr "pulp"; PyStr "koji"]) st1 = (Ok tt, st2) ∧
       doc_of sample_collaborators st2 = Some T1) ∧
    mounts_named "koji" final
      = [mount_at "koji" "/var/run/secrets/atomic-reactor/koji"] ∧
    mounts_named "pulp" final = [mount_at "pulp" "/etc/pulp"].
Proof.
  destruct (required_secrets_idempotent sample_collaborators
              (request_on (with_secrets [mount_at "pulp" "/etc/pulp"] sample_template) ∅)
              (with_secrets [mount_at "pulp" "/etc/pulp"] sample_template)
              (<["secrets" := PyList [mount_at "pulp" "/etc/pulp"]]> sample_custom_strategy)
              [mount_at "pulp" "/etc/pulp"] {[ "pulp" ]} ["pulp"; "koji"])
    as (st1 & T1 & final & H1 & H2 & H3 & H4 & H5 & H6 & _);
    [vm_compute; reflexivity | vm_compute; reflexivity | vm_compute; reflexivity
    | vm_compute; reflexivity | done |].
  exists st1, T1, final.
  split; [exact H1 |]. split; [exact H2 |]. split; [exact H3 |].
  split; [exact H4 |]. split.
  - apply (H5 "koji").
    + apply elem_of_cons. right. apply elem_of_cons. by left.
    + rewrite elem_of_singleton. discriminate.
  - rewrite (H6 "pulp"); [vm_compute; reflexivity |].
    left. by apply elem_of_singleton.
Defined.

(** ** Labels *)

Section Labels.
Variable E : Collaborators.

(** [set_label] on a document with a metadata dict whose labels are absent
    or a dict: the labels are a dict afterwards, the label holds the
    sanitized value, and nothing else changes in labels or spec. *)
Lemma set_label_run st T md name value :
  doc_of E st = Some T →
  lookup_in "metadata" T = Some (PyDict md) →
  labels_absent_or_dict md →
  ∃ st' T' md',
    set_label E name value st = (Ok tt, st') ∧ doc_of E st' = Some T' ∧
    lookup_in "metadata" T' = Some (PyDict md') ∧
    (∃ labels : dict, md' !! "labels" = Some (PyDict labels)) ∧
    label_of name T' = Some (label_value E value) ∧
    (∀ k, k ≠ name → label_of k T' = label_of k T) ∧
    lookup_in "spec" T' = lookup_in "spec" T ∧
    scratch st' = scratch st ∧ isolated st' = isolated st.
Proof.
  intros HT Hmd Hl. destruct T as [| | | | | m]; try done. simpl in Hmd.
  set (labels := match md !! "labels" with Some (PyDict ls) => ls | _ => ∅ end).
  set (mda := <["labels" := PyDict labels]> md).
  assert (Hsd : setdefault "labels" (PyDict ∅) (PyDict md) = Ok (PyDict mda)).
  { simpl. subst mda labels. destruct Hl as [Hl | [ls Hl]]; rewrite Hl; [done |].
    by rewrite insert_id. }
  set (Ta := PyDict (<["metadata" := PyDict mda]> m)).
  assert (H1 : at_key "metadata" (setdefault "labels" (PyDict ∅)) (PyDict m) = Ok Ta)
    by by apply (at_key_run "metadata" _ m (PyDict md)).
  destruct (on_template_run E _ _ _ _ HT H1) as [Hrun1 Hdoc1]; [done |].
  set (sta := assign__template Ta (loaded E st)) in *.
  set (mdb := <["labels" := PyDict (<[name := label_value E value]> labels)]> mda).
  set (Tb := PyDict (<["metadata" := PyDict mdb]> (<["metadata" := PyDict mda]> m))).
  assert (H2 : at_path ["metadata"; "labels"] (setitem name (label_value E value)) Ta
               = Ok Tb).
  { subst Ta Tb. apply (at_key_run "metadata" _ _ (PyDict mda));
      [by rewrite lookup_insert_eq |].
    apply (at_key_run "labels" _ mda (PyDict labels)); [| done].
    subst mda. by rewrite lookup_insert_eq. }
  destruct (on_template_run E _ _ _ _ Hdoc1 H2) as [Hrun2 Hdoc2]; [done |].
  exists (assign__template Tb (loaded E sta)), Tb, mdb.
  split; [| split; [done |]].
  - unfold set_label. rewrite (bind_run _ _ _ _ _ Hrun1). exact Hrun2.
  - subst Tb mdb. simpl. rewrite !lookup_insert_eq. split; [done |].
    split; [by eexists |]. unfold label_of. simpl. rewrite !lookup_insert_eq. simpl.
    rewrite lookup_insert_eq. simpl. rewrite lookup_insert_eq.
    split; [done |]. split.
    + intros k Hk. rewrite lookup_insert_ne by done. rewrite Hmd. simpl.
      subst labels. destruct Hl as [Hl | [ls Hl]]; rewrite Hl; simpl; [| done].
      by rewrite lookup_empty.
    + rewrite !lookup_insert_ne by done.
      pose proof (loaded_attrs E st) as (Hc & Hd & _).
      split; [done |]. by rewrite Hc, Hd.
Qed.
End Labels.

(** ** Isolated builds *)

Section Isolated.
Variable E : Collaborators.

(** For an isolated build, [adjust_for_isolated] raises the validation
    error when the release is empty, raises it with the expected pattern
    in the message when the release does not match the isolated-release
    format, and for a release that matches sets the labels isolated and
    isolated-release through [set_label]. *)
Lemma adjust_for_isolated_cases st T spec md release :
  truthy (isolated st) = true →
  doc_of E st = Some T →
  lookup_in "spec" T = Some (PyDict spec) →
  lookup_in "metadata" T = Some (PyDict md) →
  labels_absent_or_dict md →
  (truthy_str release = false →
   ∃ st', adjust_for_isolated E release st
          = (Raise (OsbsValidationException release_required_message), st')) ∧
  (truthy_str release = true →
   ISOLATED_RELEASE_FORMAT_match E (default "" release) = false →
   ∃ st', adjust_for_isolated E release st
          = (Raise (OsbsValidationException (release_format_message E)), st')) ∧
  (truthy_str release = true →
   ISOLATED_RELEASE_FORMAT_match E (default "" release) = true →
   ∃ st' T',
     adjust_for_isolated E release st = (Ok tt, st') ∧ doc_of E st' = Some T' ∧
     label_of "isolated" T' = Some (label_value E (Some "true")) ∧
     label_of "isolated-release" T' = Some (label_value E release) ∧
     triggers_of T' = None).
Proof.
  intros Hiso HT Hspec Hmd Hl.
  destruct T as [| | | | | m]; try done. simpl in Hspec, Hmd.
  set (T1 := PyDict (<["spec" := PyDict (delete "triggers" spec)]> m)).
  assert (Hpop : at_key "spec" (dict_pop "triggers") (PyDict m) = Ok T1)
    by by apply (at_key_run "spec" _ m (PyDict spec)).
  destruct (on_template_run E _ _ _ _ HT Hpop) as [Hrun Hdoc]; [done |].
  set (st1 := assign__template T1 (loaded E st)) in *.
  assert (Hstart : ∀ r,
    (if negb (truthy_str release) then
       raise (OsbsValidationException release_required_message)
     else if negb (ISOLATED_RELEASE_FORMAT_match E (default "" release)) then
       raise (OsbsValidationException (release_format_message E))
     else set_label E "isolated" (Some "true");;
          set_label E "isolated-release" release) st1 = r →
    adjust_for_isolated E release st = r).
  { intros r <-. unfold adjust_for_isolated. rewrite get_bind, Hiso. cbn [negb].
    by rewrite (bind_run _ _ _ _ _ Hrun). }
  split; [| split].
  - intros Hr. eexists. apply Hstart. by rewrite Hr.
  - intros Hr Hm. eexists. apply Hstart. by rewrite Hr, Hm.
  - intros Hr Hm.
    assert (Hmd1 : lookup_in "metadata" T1 = Some (PyDict md))
      by (subst T1; simpl; by rewrite lookup_insert_ne).
    destruct (set_label_run E st1 T1 md "isolated" (Some "true") Hdoc Hmd1 Hl)
      as (st2 & T2 & md2 & Hrun2 & Hdoc2 & Hmd2 & Hl2 & Hlab2 & _ & Hspec2 & _).
    destruct (set_label_run E st2 T2 md2 "isolated-release" release Hdoc2 Hmd2
                ltac:(by right))
      as (st3 & T3 & md3 & Hrun3 & Hdoc3 & _ & _ & Hlab3 & Hother3 & Hspec3 & _).
    exists st3, T3. split; [| split; [done | split; [| split; [done |]]]].
    + apply Hstart. rewrite Hr, Hm. cbn [negb].
      by rewrite (bind_run _ _ _ _ _ Hrun2).
    + by rewrite Hother3.
    + unfold triggers_of, spec_of. rewrite Hspec3, Hspec2. subst T1. simpl.
      rewrite lookup_insert_eq. simpl. apply lookup_delete_eq.
Qed.
End Isolated.


(** ** Labels of a rendered document *)

Section RenderedLabels.
Variable E : Collaborators.

(** What [render] does to the document, from the first access on. *)
Lemma render_doc_step validate st T doc st' :
  doc_of E st = Some T →
  render E validate st = (Ok doc, st') →
  doc_step E T doc.
Proof.
  intros HT H. pose proof (render_returns_doc E _ _ _ _ H) as Hdoc.
  destruct (step_doc _ _ _ (steps_render E validate _ _ _ H) T HT) as (T' & HT' & Hs).
  congruence.
Qed.

(** C10, as amended: [set_label] creates metadata.labels when absent,
    stores the empty string for a false value and sanitizes what it stores;
    every label of a rendered document is a string that [set_label]
    sanitized or a label of the template with the value it had there. *)
Theorem labels_through_set_label :
  (∀ st T md name value,
     doc_of E st = Some T →
     lookup_in "metadata" T = Some (PyDict md) →
     labels_absent_or_dict md →
     ∃ st' T',
       set_label E name value st = (Ok tt, st') ∧ doc_of E st' = Some T' ∧
       label_of name T' = Some (label_value E value) ∧
       ∀ k, k ≠ name → label_of k T' = label_of k T) ∧
  label_value E None = PyStr (sanitize_strings_for_openshift E "") ∧
  label_value E (Some "") = PyStr (sanitize_strings_for_openshift E "") ∧
  (∀ validate st T doc st',
     doc_of E st = Some T →
     render E validate st = (Ok doc, st') →
     ∀ k x, label_of k doc = Some x → sanitized E x ∨ label_of k T = Some x).
Proof.
  split; [| split; [done | split; [done |]]].
  - intros st T md name value HT Hmd Hl.
    destruct (set_label_run E st T md name value HT Hmd Hl)
      as (st' & T' & md' & Hrun & Hdoc & _ & _ & Hlab & Hother & _).
    by exists st', T'.
  - intros validate st T doc st' HT H.
    by destruct (render_doc_step _ _ _ _ _ HT H) as [_ Hlabels].
Qed.
End RenderedLabels.

(** The labels of the sample build: the template has none, so the branch
    label is one that [set_label] sanitized. *)
Lemma labels_through_set_label_witness :
  ∃ doc st',
    render sample_collaborators true (request_with ∅) = (Ok doc, st') ∧
    label_of "git-branch" doc = Some (PyStr "master") ∧
    sanitized sample_collaborators (PyStr "master").
Proof.
  destruct (render sample_collaborators true (request_with ∅))
    as [[doc | e] st'] eqn:H.
  - exists doc, st'. split; [reflexivity |].
    assert (Hlab : label_of "git-branch" doc = Some (PyStr "master")).
    { replace doc with
        (match (render sample_collaborators true (request_with ∅)).1 with
         | Ok d => d
         | Raise _ => PyNone
         end) by by rewrite H.
      vm_compute. reflexivity. }
    split; [exact Hlab |].
    assert (HT : doc_of sample_collaborators (request_with ∅) = Some sample_template)
      by (vm_compute; reflexivity).
    pose proof (proj2 (proj2 (proj2 (labels_through_set_label sample_collaborators)))
                  true (request_with ∅) sample_template doc st' HT H
                  "git-branch" (PyStr "master") Hlab) as [Hs | Ht]; [exact Hs |].
    exfalso. vm_compute in Ht. discriminate Ht.
  - exfalso. vm_compute in H. discriminate H.
Defined.

(** C10 as stated fails for labels the template brings along: rendering
    leaves them as they are, a null value and a string that the sanitizer
    would change included. *)
Lemma render_keeps_template_labels :
  ∃ doc,
    (render sample_collaborators true (request_on labelled_template ∅)).1 = Ok doc ∧
    label_of "keep" doc = Some PyNone ∧
    label_of "team" doc = Some (PyStr "a b") ∧
    sanitize_strings_for_openshift sample_collaborators "a b" = "ab".
Proof.
  eexists. split; [vm_compute; reflexivity |].
  split; [vm_compute; reflexivity |]. split; vm_compute; reflexivity.
Qed.

(** ** Loading the template *)

Section Template.
Variable E : Collaborators.

(** While no document is kept, every access opens the file. *)
Lemma accesses_not_kept st n :
  _template st = PyNone →
  (∀ content doc,
     open_read E (template_path st) = inr content → json_load E content = Ok doc →
     doc = PyNone) →
  accesses E n st
  = assign_opened (replicate n (template_path st) ++ opened st) st.
Proof.
  intros Hn Hnull. induction n as [| n IH]; [by destruct st |].
  change (accesses E (S n) st) with (template E (accesses E n st)).2.
  rewrite IH. unfold template.
  cbn [_template build_json_store _outer_template_path opened assign_opened].
  rewrite Hn. fold (template_path st).
  destruct (open_read E (template_path st)) as [ex | content] eqn:Ho; [done |].
  destruct (json_load E content) as [doc | e] eqn:Hj; [| done].
  rewrite (Hnull _ _ eq_refl Hj). cbn [snd].
  destruct st. simpl in Hn. subst. reflexivity.
Qed.

(** C9, as amended: an access with a document in [_template] returns it
    and reads no file, and after a load of a document that is not null
    every later access does so.  A load opens the file; it raises
    OsbsException when the file cannot be opened, and the error of the JSON
    parser when the content is no JSON.  A load that raised, or that gave
    null, is not kept: each of [n] accesses opens the file again. *)
Theorem template_memoized st :
  (_template st ≠ PyNone → template E st = (Ok (_template st), st)) ∧
  (_template st = PyNone →
   ∀ ex, open_read E (template_path st) = inl ex →
   template E st
   = (Raise (OsbsException (cannot_open_message (template_path st) ex)),
      assign_opened (template_path st :: opened st) st) ∧
   ∀ n, opened (accesses E n st) = (replicate n (template_path st) ++ opened st)%list) ∧
  (_template st = PyNone →
   ∀ content e,
     open_read E (template_path st) = inr content → json_load E content = Raise e →
     template E st = (Raise e, assign_opened (template_path st :: opened st) st) ∧
     ∀ n, opened (accesses E n st) = (replicate n (template_path st) ++ opened st)%list) ∧
  (_template st = PyNone →
   ∀ content doc,
     open_read E (template_path st) = inr content → json_load E content = Ok doc →
     let st1 := assign__template doc
                  (assign_opened (template_path st :: opened st) st) in
     template E st = (Ok doc, st1) ∧
     (doc ≠ PyNone →
      template E st1 = (Ok doc, st1) ∧
      ∀ n, accesses E n st1 = st1 ∧
           opened (accesses E n st1) = template_path st :: opened st) ∧
     (doc = PyNone →
      ∀ n, opened (accesses E n st) = (replicate n (template_path st) ++ opened st)%list)).
Proof.
  split; [| split; [| split]].
  - intros Hn. unfold template. by destruct (_template st).
  - intros Hn ex Ho. split.
    + unfold template. fold (template_path st). by rewrite Hn, Ho.
    + intros n. rewrite accesses_not_kept; [done | done |].
      intros content doc Ho'. congruence.
  - intros Hn content e Ho Hj. split.
    + unfold template. fold (template_path st). by rewrite Hn, Ho, Hj.
    + intros n. rewrite accesses_not_kept; [done | done |].
      intros content' doc Ho' Hj'. congruence.
  - intros Hn content doc Ho Hj st1. split; [| split].
    + unfold template. fold (template_path st). by rewrite Hn, Ho, Hj.
    + intros Hdoc.
      assert (Hre : template E st1 = (Ok doc, st1)).
      { unfold template. simpl. by destruct doc. }
      split; [done |]. intros n.
      assert (Hn' : accesses E n st1 = st1).
      { induction n as [| n IH]; [done |].
        unfold accesses in *. simpl. by rewrite IH, Hre. }
      by rewrite Hn'.
    + intros -> n. rewrite accesses_not_kept; [done | done |].
      intros content' doc Ho' Hj'. congruence.
Qed.
End Template.

(** The sample template is read once; a missing file and a file that is
    no JSON give the two errors, and are opened at each of three
    accesses. *)
Lemma template_memoized_witness :
  let st1 := assign__template sample_template
               (assign_opened ["/store/prod.json"] new_request) in
  template sample_collaborators new_request = (Ok sample_template, st1) ∧
  template sample_collaborators st1 = (Ok sample_template, st1) ∧
  opened (accesses sample_collaborators 3 st1) = ["/store/prod.json"] ∧
  (template sample_collaborators (new_request_at "missing.json")).1
  = Raise (OsbsException
             "Can't open template '/store/missing.json': FileNotFoundError()") ∧
  opened (accesses sample_collaborators 3 (new_request_at "missing.json"))
  = ["/store/missing.json"; "/store/missing.json"; "/store/missing.json"] ∧
  (template sample_collaborators (new_request_at "broken.json")).1
  = Raise (ValueError "No JSON object could be decoded") ∧
  opened (accesses sample_collaborators 3 (new_request_at "broken.json"))
  = ["/store/broken.json"; "/store/broken.json"; "/store/broken.json"].
Proof.
  intros st1.
  destruct (template_memoized sample_collaborators new_request) as (_ & _ & _ & H4).
  destruct (H4 eq_refl "<template>" sample_template eq_refl eq_refl)
    as (Hload & Hmemo & _).
  destruct (Hmemo ltac:(done)) as [Hagain Hn].
  split; [exact Hload |]. split; [exact Hagain |].
  split; [exact (proj2 (Hn 3%nat)) |].
  destruct (template_memoized sample_collaborators (new_request_at "missing.json"))
    as (_ & H2 & _ & _).
  destruct (template_memoized sample_collaborators (new_request_at "broken.json"))
    as (_ & _ & H3 & _).
  destruct (H2 eq_refl "FileNotFoundError()" eq_refl) as [Hm1 Hm2].
  destruct (H3 eq_refl "{" (ValueError "No JSON object could be decoded")
              eq_refl eq_refl) as [Hb1 Hb2].
  split; [by rewrite Hm1 |]. split; [exact (Hm2 3%nat) |].
  split; [by rewrite Hb1 |]. exact (Hb2 3%nat).
Defined.

(** C9 as stated fails where it says the file is read at most once: a
    template file that is no JSON is opened at the first access, which
    raises, and again at the second, which raises again. *)
Lemma template_failed_load_read_again :
  let st := new_request_at "broken.json" in
  let st1 := (template sample_collaborators st).2 in
  (template sample_collaborators st).1
  = Raise (ValueError "No JSON object could be decoded") ∧
  (template sample_collaborators st1).1
  = Raise (ValueError "No JSON object could be decoded") ∧
  opened (template sample_collaborators st1).2
  = ["/store/broken.json"; "/store/broken.json"].
Proof. vm_compute. auto. Qed.

(** ** Triggers and the base image *)

Lemma dot_star_end_free (tag : string) :
  free_of newline tag = true → dot_star_end tag = true.
Proof.
  induction tag as [| c tag IH]; [done |]. simpl.
  intros [Hc Ht]%andb_true_iff. apply negb_true_iff in Hc. rewrite Hc. auto.
Qed.

(** The marker alone, and the marker with a tag, are custom base images. *)
Lemma custom_base_image_marker (tag : string) :
  custom_base_image_match "koji/image-build" = true ∧
  (free_of newline tag = true →
   custom_base_image_match ("koji/image-build:" ++ tag) = true).
Proof.
  split; [done |]. intros Ht. unfold custom_base_image_match.
  change ("koji/image-build:" ++ tag)
    with ("koji/image-build" ++ String ":" tag).
  assert (Hp : startswith ("koji/image-build" ++ String ":" tag) "koji/image-build"
               = true) by done.
  rewrite Hp. rewrite length_append.
  replace (String.length "koji/image-build" + String.length (String ":" tag)
           - String.length "koji/image-build")%nat
    with (String.length (String ":" tag)) by lia.
  rewrite substring_append_r. simpl. by apply dot_star_end_free.
Qed.

Section KeepsBaseImage.
Variable E : Collaborators.

Lemma keeps_ret {A} (a : A) : keeps base_image (mret a : M A).
Proof. by intros st r st' [= <- <-]. Qed.

Lemma keeps_raise {A} e : keeps base_image (raise e : M A).
Proof. by intros st r st' [= <- <-]. Qed.

Lemma keeps_get {A} (f : BuildRequestV2 → A) : keeps base_image (get f).
Proof. by intros st r st' [= <- <-]. Qed.

Lemma keeps_lift {A} (x : result A) : keeps base_image (lift x).
Proof. by intros st r st' [= <- <-]. Qed.

Lemma keeps_modify g :
  (∀ st, base_image (g st) = base_image st) → keeps base_image (modify g).
Proof. intros Hg st r st' [= <- <-]. apply Hg. Qed.

Lemma keeps_bind {A B} (m : M A) (f : A → M B) :
  keeps base_image m → (∀ a, keeps base_image (f a)) → keeps base_image (m ≫= f).
Proof.
  intros Hm Hf st r st'. unfold mbind, M_bind.
  destruct (m st) as [[a | e] st1] eqn:Hm1.
  - intros Hf1. rewrite (Hf _ _ _ _ Hf1). by eapply Hm.
  - intros [= <- <-]. by eapply Hm.
Qed.

Lemma keeps_get_bind {A B} (g : BuildRequestV2 → A) (f : A → M B) :
  (∀ st0, keeps base_image (f (g st0))) → keeps base_image (get g ≫= f).
Proof. intros Hf st r st' H. by apply (Hf st st r st'). Qed.

Lemma keeps_when b m : keeps base_image m → keeps base_image (when b m).
Proof. destruct b; [done | intros _; apply keeps_ret]. Qed.

Lemma base_image_loaded st : base_image (loaded E st) = base_image st.
Proof. by destruct (loaded_attrs E st) as (_ & _ & _ & -> & _). Qed.

Lemma keeps_template : keeps base_image (template E).
Proof.
  intros st r st' H. replace st' with (loaded E st); [apply base_image_loaded |].
  unfold loaded. by rewrite H.
Qed.

Lemma keeps_read_template {A} (f : pyval → result A) :
  keeps base_image (read_template E f).
Proof.
  intros st r st'. destruct (doc_of E st) as [T |] eqn:HT.
  - rewrite (read_template_Some _ _ _ _ HT). intros [= <- <-]. apply base_image_loaded.
  - destruct (read_template_None E f _ HT) as [e ->]. intros [= <- <-].
    apply base_image_loaded.
Qed.

Lemma keeps_on_template f : keeps base_image (on_template E f).
Proof.
  intros st r st'. destruct (doc_of E st) as [T |] eqn:HT.
  - rewrite (on_template_Some _ _ _ _ HT). destruct (f T) as [T' | e].
    + intros [= <- <-]. simpl. apply base_image_loaded.
    + intros [= <- <-]. apply base_image_loaded.
  - destruct (on_template_None E f _ HT) as [e ->]. intros [= <- <-].
    apply base_image_loaded.
Qed.
End KeepsBaseImage.

Create HintDb keeps.

Ltac keeps_walk :=
  repeat first
    [ solve [auto with keeps nocore]
    | apply keeps_ret | apply keeps_raise | apply keeps_get | apply keeps_lift
    | apply keeps_template | apply keeps_read_template
    | apply keeps_when
    | apply keeps_on_template
    | apply keeps_modify; intros; reflexivity
    | apply keeps_bind; [| intros ?]
    | match goal with
      | |- keeps _ (if ?b then _ else _) => destruct b
      | |- keeps _ (match ?x with _ => _ end) => destruct x
      | |- keeps _ (let _ := _ in _) => cbv zeta
      end ].

Section BaseImage.
Variable E : Collaborators.

Lemma keeps_render_node_selectors build_type :
  keeps base_image (render_node_selectors E build_type).
Proof.
  unfold render_node_selectors. case_bool_decide; [| apply keeps_ret].
  apply keeps_get_bind. intros st0. unfold chosen_selector.
  destruct (truthy (is_auto st0)); [| destruct (truthy (scratch st0));
    [| destruct (truthy (isolated st0))]]; keeps_walk.
Qed.

Lemma keeps_adjust_for_repo_info : keeps base_image (adjust_for_repo_info E).
Proof. unfold adjust_for_repo_info. keeps_walk. Qed.

Lemma keeps_set_label name value : keeps base_image (set_label E name value).
Proof. unfold set_label. keeps_walk. Qed.

Lemma keeps_adjust_for_isolated release :
  keeps base_image (adjust_for_isolated E release).
Proof. unfold adjust_for_isolated. keeps_walk. Qed.

Lemma keeps__set_deadline : keeps base_image (_set_deadline E).
Proof. unfold _set_deadline, set_deadline. keeps_walk. Qed.

Lemma keeps_is_custom_base_image : keeps base_image is_custom_base_image.
Proof. unfold is_custom_base_image. keeps_walk. Qed.

Lemma keeps_triggers_to_remove : keeps base_image (triggers_to_remove E).
Proof.
  unfold triggers_to_remove, is_from_scratch_image. keeps_walk.
Qed.

#[local] Hint Resolve keeps_render_node_selectors keeps_adjust_for_repo_info
  keeps_set_label keeps_adjust_for_isolated keeps__set_deadline
  keeps_is_custom_base_image keeps_triggers_to_remove : keeps.

Lemma del_triggers_Ok st u st' :
  on_template E (at_key "spec" (delitem "triggers")) st = (Ok u, st') →
  ∃ T, doc_of E st' = Some T ∧ triggers_of T = None.
Proof.
  intros H. apply on_template_Ok in H as (T & T' & HT & Hf & ->).
  apply at_key_Ok in Hf as (m & x & x' & -> & Hx & Hp & ->).
  eexists. split; [by apply doc_of_assign__template |].
  rewrite triggers_of_insert_spec. destruct x as [| | | | | spec]; try done.
  simpl in Hp. destruct (spec !! "triggers"); [| done].
  injection Hp as <-. simpl. apply lookup_delete_eq.
Qed.

(** With triggers in the document and a custom or scratch base image the
    test of [render] says to remove them. *)
Lemma triggers_to_remove_true st T x :
  doc_of E st = Some T → triggers_of T = Some x → truthy x = true →
  custom_or_scratch (base_image st) →
  triggers_to_remove E st = (Ok true, loaded E st).
Proof.
  intros HT Hx Htr (b & Hb & Hcs).
  assert (Hread : (spec ← getitem "spec" T; dict_get "triggers" (PyList []) spec)
                  = Ok x).
  { unfold triggers_of, spec_of in Hx.
    destruct T as [| | | | | m]; try done. simpl in *.
    destruct (m !! "spec") as [[| | | | | spec] |]; try done. simpl in *.
    by rewrite Hx. }
  unfold triggers_to_remove.
  pose proof (read_template_Some E
                (λ t, spec ← getitem "spec" t; dict_get "triggers" (PyList []) spec)
                st T HT) as Hr.
  cbv beta in Hr. rewrite Hread in Hr. rewrite (bind_run _ _ _ _ _ Hr), Htr.
  assert (Hne : truthy (PyStr b) = true).
  { destruct Hcs as [Hc | ->]; [| done]. by destruct b. }
  assert (Hcustom : is_custom_base_image (loaded E st)
                    = (Ok (custom_base_image_match b), loaded E st)).
  { unfold is_custom_base_image. by rewrite get_bind, base_image_loaded, Hb, Hne. }
  rewrite (bind_run _ _ _ _ _ Hcustom).
  destruct Hcs as [-> | ->]; [done |].
  destruct (custom_base_image_match "scratch"); [done |].
  unfold is_from_scratch_image. by rewrite get_bind, base_image_loaded, Hb.
Qed.

(** With triggers defined by the template and a custom or scratch base
    image in the builder when [render] returns, the rendered document has
    no spec.triggers entry. *)
Lemma render_base_image_no_triggers validate st T doc st' :
  doc_of E st = Some T →
  absent_or_truthy (triggers_of T) = true →
  render E validate st = (Ok doc, st') →
  custom_or_scratch (base_image st') →
  triggers_of doc = None.
Proof.
  intros HT Htrig H Hbase. pose proof (render_returns_doc E _ _ _ _ H) as Hdoc.
  unfold render in H. pose proof (st_step_refl E st) as Acc.
  do 10 next E H Acc.
  match type of Acc with st_step _ _ ?s => rename s into stk end.
  destruct (step_doc _ _ _ Acc T HT) as (T1 & HT1 & [Hrel _]).
  pose proof (trig_rel_absent_or_truthy _ _ Hrel Htrig) as Htrig1.
  apply bind_Ok in H as (remove & sta & Hrem & H).
  pose proof (steps_triggers_to_remove E _ _ _ Hrem) as Sa.
  destruct (step_doc _ _ _ Sa T1 HT1) as (Ta & HTa & [Hrela _]).
  apply bind_Ok in H as (u & stb & Hwhen & H).
  assert (Hkeep : base_image st' = base_image stb).
  { revert H. apply (λ Hk : keeps base_image _, Hk _ _ _).
    keeps_walk. }
  assert (Sb : st_step E stb st')
    by (revert H; apply (λ Hs : steps E _, Hs _ _ _); steps_walk).
  destruct (triggers_of T1) as [x |] eqn:Hx.
  - assert (Hkeep2 : base_image stb = base_image stk).
    { assert (Hk1 : base_image sta = base_image stk).
      { revert Hrem. apply (λ Hk : keeps base_image _, Hk _ _ _).
        apply keeps_triggers_to_remove. }
      rewrite <- Hk1. revert Hwhen. apply (λ Hk : keeps base_image _, Hk _ _ _).
      keeps_walk. }
    rewrite Hkeep, Hkeep2 in Hbase.
    rewrite (triggers_to_remove_true stk T1 x HT1 Hx Htrig1 Hbase) in Hrem.
    injection Hrem as <- <-. simpl in Hwhen.
    apply bind_Ok in Hwhen as (c & stc & _ & Hdel).
    apply del_triggers_Ok in Hdel as (Tb & HTb & Hnone).
    destruct (st_step_no_triggers E _ _ _ HTb Hnone Sb) as (T' & HT' & Hn').
    congruence.
  - assert (Hnonea : triggers_of Ta = None) by (by apply trig_rel_None).
    assert (Swhen : st_step E sta stb)
      by (revert Hwhen; apply (λ Hs : steps E _, Hs _ _ _); steps_walk).
    destruct (st_step_no_triggers E _ _ _ HTa Hnonea (st_step_trans _ _ _ _ Swhen Sb))
      as (T' & HT' & Hn').
    congruence.
Qed.
End BaseImage.

(** *** The base image of a build that is no flatpak build *)

Section PlainBuild.
Variable E : Collaborators.
Variable b : pyval.

#[local] Abbreviation P := (plain_build_from b).

Lemma inv_ret {A} (a : A) : inv P (mret a : M A).
Proof. by intros st r st' HP [= <- <-]. Qed.

Lemma inv_raise {A} e : inv P (raise e : M A).
Proof. by intros st r st' HP [= <- <-]. Qed.

Lemma inv_get {A} (f : BuildRequestV2 → A) : inv P (get f).
Proof. by intros st r st' HP [= <- <-]. Qed.

Lemma inv_lift {A} (x : result A) : inv P (lift x).
Proof. by intros st r st' HP [= <- <-]. Qed.

Lemma inv_modify g : (∀ st, P st → P (g st)) → inv P (modify g).
Proof. intros Hg st r st' HP [= <- <-]. by apply Hg. Qed.

Lemma inv_bind {A B} (m : M A) (f : A → M B) :
  inv P m → (∀ a, inv P (f a)) → inv P (m ≫= f).
Proof.
  intros Hm Hf st r st' HP. unfold mbind, M_bind.
  destruct (m st) as [[a | e] st1] eqn:Hm1.
  - intros Hf1. eapply Hf; [| exact Hf1]. by eapply Hm.
  - intros [= <- <-]. by eapply Hm.
Qed.

Lemma inv_get_bind {A B} (g : BuildRequestV2 → A) (f : A → M B) :
  (∀ st0, P st0 → inv P (f (g st0))) → inv P (get g ≫= f).
Proof. intros Hf st r st' HP H. by apply (Hf st HP st r st' HP). Qed.

Lemma inv_when c m : inv P m → inv P (when c m).
Proof. destruct c; [done | intros _; apply inv_ret]. Qed.

Lemma plain_loaded st : P st → P (loaded E st).
Proof.
  intros [Hf Hb]. destruct (loaded_attrs E st) as (_ & _ & _ & Hbi & Hup & _).
  split; by rewrite ?Hup, ?Hbi.
Qed.

Lemma inv_template : inv P (template E).
Proof.
  intros st r st' HP H. replace st' with (loaded E st); [by apply plain_loaded |].
  unfold loaded. by rewrite H.
Qed.

Lemma inv_read_template {A} (f : pyval → result A) : inv P (read_template E f).
Proof.
  intros st r st' HP. destruct (doc_of E st) as [T |] eqn:HT.
  - rewrite (read_template_Some _ _ _ _ HT). intros [= <- <-]. by apply plain_loaded.
  - destruct (read_template_None E f _ HT) as [e ->]. intros [= <- <-].
    by apply plain_loaded.
Qed.

Lemma inv_on_template f : inv P (on_template E f).
Proof.
  intros st r st' HP. apply plain_loaded in HP. destruct (doc_of E st) as [T |] eqn:HT.
  - rewrite (on_template_Some _ _ _ _ HT). destruct (f T) as [T' | e].
    + by intros [= <- <-].
    + by intros [= <- <-].
  - destruct (on_template_None E f _ HT) as [e ->]. by intros [= <- <-].
Qed.
End PlainBuild.

Create HintDb inv.

Ltac inv_walk :=
  repeat first
    [ solve [auto with inv nocore]
    | apply inv_ret | apply inv_raise | apply inv_get | apply inv_lift
    | apply inv_template | apply inv_read_template
    | apply inv_when
    | apply inv_on_template
    | apply inv_modify; intros ? [? ?]; split; assumption
    | apply inv_bind; [| intros ?]
    | match goal with
      | |- inv _ (if ?c then _ else _) => destruct c
      | |- inv _ (match ?x with _ => _ end) => destruct x
      | |- inv _ (let _ := _ in _) => cbv zeta
      end ].

Section PlainRender.
Variable E : Collaborators.
Variable b : pyval.

Lemma inv__set_flatpak data : inv (plain_build_from b) (_set_flatpak data).
Proof.
  unfold _set_flatpak. apply inv_get_bind. intros st0 [Hf _]. rewrite Hf.
  apply inv_ret.
Qed.

(** The list extended in place is not the base image. *)
Lemma inv_config_changed o d : inv (plain_build_from b) (config_changed o d).
Proof.
  destruct o; [| apply inv_ret]. unfold config_changed.
  apply inv_get_bind. intros st0 [Hf _].
  apply inv_bind; [| intros _; apply inv_ret].
  apply inv_modify. intros st [_ Hb]. by split.
Qed.

Lemma inv_set_required_secrets o :
  inv (plain_build_from b) (set_required_secrets E o).
Proof.
  pose proof inv_config_changed.
  unfold set_required_secrets, _set_required_secrets. inv_walk.
Qed.

Lemma inv_set_data_from_reactor_config o :
  inv (plain_build_from b) (set_data_from_reactor_config E o).
Proof.
  unfold set_data_from_reactor_config.
  apply inv_bind; [apply inv_get | intros data].
  apply inv_bind; [unfold set_source_registry; inv_walk | intros _].
  apply inv_bind; [unfold set_registry_organization; inv_walk | intros _].
  apply inv_bind; [apply inv_set_required_secrets | intros o'].
  apply inv_bind; [apply inv_get | intros data'].
  apply inv_bind; [| intros _; apply inv_ret].
  destruct (negb _); [| apply inv__set_flatpak].
  apply inv_get_bind. intros st0 [Hf _]. rewrite Hf. apply inv_ret.
Qed.

Lemma inv_render_node_selectors build_type :
  inv (plain_build_from b) (render_node_selectors E build_type).
Proof.
  unfold render_node_selectors. case_bool_decide; [| apply inv_ret].
  apply inv_get_bind. intros st0 _. unfold chosen_selector.
  destruct (truthy (is_auto st0)); [| destruct (truthy (scratch st0));
    [| destruct (truthy (isolated st0))]]; inv_walk.
Qed.

#[local] Hint Resolve inv_set_data_from_reactor_config
  inv_render_node_selectors : inv.

(** A build that is no flatpak build keeps its base image through
    [render]. *)
Lemma inv_render validate : inv (plain_build_from b) (render E validate).
Proof.
  unfold render, BaseBuildRequest_render. inv_walk.
Qed.
End PlainRender.

Section CustomBaseImage.
Variable E : Collaborators.

(** C8: when the template defines triggers and the base image is the
    custom-base-image marker, with or without a tag, or is scratch, the
    rendered document has no spec.triggers entry.  The base image is the
    one the builder holds when [render] returns, which for a build that is
    no flatpak build is the one it was given. *)
Theorem render_custom_or_scratch_no_triggers validate st T doc st' :
  doc_of E st = Some T →
  absent_or_truthy (triggers_of T) = true →
  render E validate st = (Ok doc, st') →
  custom_or_scratch (base_image st') ∨
  (BuildUserParams.flatpak (user_params st) = false ∧
   custom_or_scratch (base_image st)) →
  triggers_of doc = None.
Proof.
  intros HT Htrig H [Hbase | [Hflat Hbase]].
  - by eapply render_base_image_no_triggers.
  - eapply render_base_image_no_triggers; [done | done | done |].
    destruct (inv_render E (base_image st) validate st _ st' (conj Hflat eq_refl) H)
      as [_ ->]. done.
Qed.
End CustomBaseImage.


(** The sample build on the marker with a tag, and on scratch. *)
Lemma render_custom_or_scratch_no_triggers_witness :
  (∃ doc st',
     render sample_collaborators true (request_from "koji/image-build:v1")
       = (Ok doc, st') ∧
     triggers_of doc = None) ∧
  (∃ doc st',
     render sample_collaborators true (request_from "scratch") = (Ok doc, st') ∧
     triggers_of doc = None).
Proof.
  split.
  - destruct (render sample_collaborators true (request_from "koji/image-build:v1"))
      as [[doc | e] st'] eqn:H.
    + exists doc, st'. split; [reflexivity |].
      apply (render_custom_or_scratch_no_triggers sample_collaborators true
               (request_from "koji/image-build:v1") sample_template doc st');
        [vm_compute; reflexivity | vm_compute; reflexivity | exact H |].
      right. split; [vm_compute; reflexivity |].
      exists "koji/image-build:v1". split; [vm_compute; reflexivity | by left].
    + exfalso. vm_compute in H. discriminate H.
  - destruct (render sample_collaborators true (request_from "scratch"))
      as [[doc | e] st'] eqn:H.
    + exists doc, st'. split; [reflexivity |].
      apply (render_custom_or_scratch_no_triggers sample_collaborators true
               (request_from "scratch") sample_template doc st');
        [vm_compute; reflexivity | vm_compute; reflexivity | exact H |].
      right. split; [vm_compute; reflexivity |].
      exists "scratch". split; [vm_compute; reflexivity | by right].
    + exfalso. vm_compute in H. discriminate H.
Defined.

(** * The rest of the module *)

(** ** Properties that a method keeps *)

Section Pres.
Variable E : Collaborators.
Variable P : BuildRequestV2 → Prop.

Lemma pres_ret {A} (a : A) : inv P (mret a : M A).
Proof. by intros st r st' HP [= <- <-]. Qed.

Lemma pres_raise {A} e : inv P (raise e : M A).
Proof. by intros st r st' HP [= <- <-]. Qed.

Lemma pres_get {A} (f : BuildRequestV2 → A) : inv P (get f).
Proof. by intros st r st' HP [= <- <-]. Qed.

Lemma pres_lift {A} (x : result A) : inv P (lift x).
Proof. by intros st r st' HP [= <- <-]. Qed.

Lemma pres_modify g : (∀ st, P st → P (g st)) → inv P (modify g).
Proof. intros Hg st r st' HP [= <- <-]. by apply Hg. Qed.

Lemma pres_bind {A B} (m : M A) (f : A → M B) :
  inv P m → (∀ a, inv P (f a)) → inv P (m ≫= f).
Proof.
  intros Hm Hf st r st' HP. unfold mbind, M_bind.
  destruct (m st) as [[a | e] st1] eqn:Hm1.
  - intros Hf1. eapply Hf; [| exact Hf1]. by eapply Hm.
  - intros [= <- <-]. by eapply Hm.
Qed.

Lemma pres_get_bind {A B} (g : BuildRequestV2 → A) (f : A → M B) :
  (∀ st0, inv P (f (g st0))) → inv P (get g ≫= f).
Proof. intros Hf st r st' HP H. by apply (Hf st st r st' HP). Qed.

Lemma pres_when c m : inv P m → inv P (when c m).
Proof. destruct c; [done | intros _; apply pres_ret]. Qed.

Lemma pres_template : stable E P → inv P (template E).
Proof.
  intros Hs st r st' HP H. replace st' with (loaded E st); [by apply Hs |].
  unfold loaded. by rewrite H.
Qed.

Lemma pres_read_template {A} (f : pyval → result A) :
  stable E P → inv P (read_template E f).
Proof.
  intros Hs st r st' HP. destruct (doc_of E st) as [T |] eqn:HT.
  - rewrite (read_template_Some _ _ _ _ HT). intros [= <- <-]. by apply Hs.
  - destruct (read_template_None E f _ HT) as [e ->]. intros [= <- <-].
    by apply Hs.
Qed.

Lemma pres_on_template f :
  stable E P →
  (∀ st T T', doc_of E st = Some T → f T = Ok T' → P st →
              P (assign__template T' st)) →
  inv P (on_template E f).
Proof.
  intros Hs Hf st r st' HP. apply Hs in HP.
  destruct (doc_of E st) as [T |] eqn:HT.
  - rewrite (on_template_Some _ _ _ _ HT). destruct (f T) as [T' | e] eqn:HfT.
    + intros [= <- <-]. apply (Hf _ T); [by rewrite doc_of_loaded | done | done].
    + by intros [= <- <-].
  - destruct (on_template_None E f _ HT) as [e ->]. by intros [= <- <-].
Qed.
End Pres.

(** *** Properties of the document *)

Section DocHolds.
Variable E : Collaborators.
Variable Q : pyval → Prop.

Lemma stable_doc_holds : stable E (doc_holds E Q).
Proof. intros st (T & HT & HQ). exists T. by rewrite doc_of_loaded. Qed.

Lemma doc_holds_assign f st T T' :
  frames Q f → nonnull f →
  doc_of E st = Some T → f T = Ok T' → doc_holds E Q st →
  doc_holds E Q (assign__template T' st).
Proof.
  intros Hf Hn HT HfT (T0 & HT0 & HQ). exists T'.
  split; [apply doc_of_assign__template; by eapply Hn |].
  apply (Hf T); [done | congruence].
Qed.

Lemma doc_holds_attr g st :
  _template (g st) = _template st →
  build_json_store (g st) = build_json_store st →
  _outer_template_path (g st) = _outer_template_path st →
  doc_holds E Q st → doc_holds E Q (g st).
Proof.
  intros H1 H2 H3 (T & HT & HQ). exists T. by rewrite (doc_of_ext E st (g st)).
Qed.

Lemma pres_doc_on_template f :
  frames Q f → nonnull f → inv (doc_holds E Q) (on_template E f).
Proof.
  intros Hf Hn. apply pres_on_template; [apply stable_doc_holds |].
  intros st T T'. by apply doc_holds_assign.
Qed.
End DocHolds.

(** *** Statements and the paths they write *)

Lemma nonnull_at_key k g : nonnull (at_key k g).
Proof. intros T T' H. by apply at_key_Ok in H as (m & x & x' & _ & _ & _ & ->). Qed.

Lemma nonnull_at_path k p g : nonnull (at_path (k :: p) g).
Proof. apply nonnull_at_key. Qed.

Lemma get_path_cons k q (m : dict) :
  get_path (k :: q) (PyDict m)
  = match m !! k with Some x => get_path q x | None => Raise (KeyError k) end.
Proof. simpl. by destruct (m !! k). Qed.

(** A statement on the object at [p] keeps what is read at a path that
    parts from [p], and what is read below [p] when the statement keeps
    that in the object. *)
Lemma frames_at_path p g q v :
  diverge p q = true ∨ (∃ r, q = (p ++ r)%list ∧ frames (reads_at r v) g) →
  frames (reads_at q v) (at_path p g).
Proof.
  revert q. induction p as [| k p IH]; intros q Hq.
  - destruct Hq as [Hq | (r & -> & Hg)]; [by destruct q | exact Hg].
  - intros T T' H. change (at_path (k :: p) g T) with (at_key k (at_path p g) T) in H.
    apply at_key_Ok in H as (m & x & x' & -> & Hx & Hgx & ->).
    unfold reads_at. destruct q as [| k' q].
    { destruct Hq as [Hq | (r & Hr & _)]; done. }
    rewrite !get_path_cons.
    destruct (String.eqb_spec k k') as [<- | Hne].
    + rewrite lookup_insert_eq, Hx. apply (IH q); [| done].
      destruct Hq as [Hq | (r & Hr & Hg)].
      * left. simpl in Hq. by rewrite String.eqb_refl in Hq.
      * right. exists r. split; [by injection Hr | done].
    + by rewrite lookup_insert_ne.
Qed.

Lemma frames_path_diverge p g q v :
  diverge p q = true → frames (reads_at q v) (at_path p g).
Proof. intros Hq. apply frames_at_path. by left. Qed.

Lemma diverge_app p k q :
  diverge (p ++ [k]) q = true →
  diverge p q = true ∨ ∃ k' r, q = (p ++ k' :: r)%list ∧ k ≠ k'.
Proof.
  revert q. induction p as [| a p IH]; intros q.
  - destruct q as [| k' r]; [done |]. simpl.
    destruct (String.eqb_spec k k') as [-> | Hne]; [done |].
    intros _. right. by exists k', r.
  - destruct q as [| a' q]; [done |]. simpl.
    destruct (String.eqb_spec a a') as [<- | Hne]; [| by left].
    intros [Hd | (k' & r & -> & Hne)]%IH; [by left |].
    right. by exists k', r.
Qed.

Lemma diverge_app_l p r q : diverge p q = true → diverge (p ++ r) q = true.
Proof.
  revert q. induction p as [| a p IH]; intros q; [done |].
  destruct q as [| a' q]; [done |]. simpl.
  destruct (String.eqb a a'); [apply IH | done].
Qed.

Lemma diverge_app_inv p s q :
  diverge (p ++ s) q = true →
  diverge p q = true ∨ ∃ q', q = (p ++ q')%list ∧ diverge s q' = true.
Proof.
  revert q. induction p as [| a p IH]; intros q.
  - simpl. intros Hs. right. by exists q.
  - destruct q as [| a' q]; [done |]. simpl.
    destruct (String.eqb_spec a a') as [<- | Hne]; [| by left].
    intros [Hd | (q' & -> & Hs)]%IH; [by left |].
    right. by exists q'.
Qed.

Lemma touches_any g : touches [] g.
Proof. by intros q v Hq. Qed.

Lemma touches_at_key k p g : touches p g → touches (k :: p) (at_key k g).
Proof.
  intros Hg q v Hq T T' H.
  apply at_key_Ok in H as (m & x & x' & -> & Hx & Hgx & ->).
  unfold reads_at. destruct q as [| k' q]; [done |]. rewrite !get_path_cons.
  simpl in Hq. destruct (String.eqb_spec k k') as [<- | Hne].
  - rewrite lookup_insert_eq, Hx. by apply (Hg q v Hq x x').
  - by rewrite lookup_insert_ne.
Qed.

Lemma touches_at_path p1 p g : touches p g → touches (p1 ++ p) (at_path p1 g).
Proof.
  intros Hg. induction p1 as [| k p1 IH]; [exact Hg |].
  intros q v Hq T T' H. by apply (touches_at_key k (p1 ++ p) (at_path p1 g) IH q v Hq T T').
Qed.

Lemma touches_setitem k x : touches [k] (setitem k x).
Proof.
  intros q v Hq [] T'; try done. intros [= <-]. unfold reads_at.
  destruct q as [| k' q]; [done |]. rewrite !get_path_cons. simpl in Hq.
  destruct (String.eqb_spec k k') as [<- | Hne]; [done |].
  by rewrite lookup_insert_ne.
Qed.

Lemma touches_dict_pop k : touches [k] (dict_pop k).
Proof.
  intros q v Hq [] T'; try done. intros [= <-]. unfold reads_at.
  destruct q as [| k' q]; [done |]. rewrite !get_path_cons. simpl in Hq.
  destruct (String.eqb_spec k k') as [<- | Hne]; [done |].
  by rewrite lookup_delete_ne.
Qed.

Lemma touches_delitem k : touches [k] (delitem k).
Proof.
  intros q v Hq [] T'; try done. simpl. destruct (m !! k); [| done].
  intros [= <-]. unfold reads_at.
  destruct q as [| k' q]; [done |]. rewrite !get_path_cons. simpl in Hq.
  destruct (String.eqb_spec k k') as [<- | Hne]; [done |].
  by rewrite lookup_delete_ne.
Qed.

(** [setdefault] keeps every value that can be read in the dict: the key
    it adds was not there. *)
Lemma touches_setdefault k r d : touches (k :: r) (setdefault k d).
Proof.
  intros q v Hq [] T'; try done. simpl.
  destruct (m !! k) eqn:Hk; intros [= <-]; [done |]. unfold reads_at.
  destruct q as [| k' q]; [done |]. rewrite !get_path_cons.
  destruct (String.eqb_spec k k') as [<- | Hne]; [by rewrite Hk |].
  by rewrite lookup_insert_ne.
Qed.

Lemma touches_resource_limits rl :
  touches ["spec"; "resources"; "limits"] (λ t,
    spec ← getitem "spec" t;
    resources ← dict_get "resources" (PyDict ∅) spec;
    limits ← dict_get "limits" (PyDict ∅) resources;
    limits ← dict_update rl limits;
    resources ← setitem "limits" limits resources;
    at_key "spec" (setitem "resources" resources) t).
Proof.
  intros q v Hq T T'. destruct T as [| | | | | m]; try done. simpl.
  destruct (m !! "spec") as [spec |] eqn:Hspec; [simpl | done].
  destruct spec as [| | | | | spec]; try done. simpl.
  destruct (default (PyDict ∅) (spec !! "resources")) as [| | | | | res] eqn:Hres;
    try done. simpl.
  destruct (default (PyDict ∅) (res !! "limits")) as [| | | | | lim] eqn:Hlim;
    try done. simpl.
  unfold at_key. simpl. rewrite Hspec. simpl. intros [= <-]. unfold reads_at.
  destruct q as [| k1 q]; [done |]. rewrite !get_path_cons. simpl in Hq.
  destruct (String.eqb_spec "spec" k1) as [<- | Hne]; [| by rewrite lookup_insert_ne].
  rewrite lookup_insert_eq, Hspec.
  destruct q as [| k2 q]; [done |]. rewrite !get_path_cons.
  destruct (String.eqb_spec "resources" k2) as [<- | Hne]; [| by rewrite lookup_insert_ne].
  rewrite lookup_insert_eq.
  destruct (spec !! "resources") as [res0 |] eqn:Hr0; [| done]. simpl in Hres. subst res0.
  destruct q as [| k3 q]; [done |]. rewrite !get_path_cons.
  destruct (String.eqb_spec "limits" k3) as [<- | Hne]; [done |].
  by rewrite lookup_insert_ne.
Qed.

Lemma nonnull_resource_limits rl :
  nonnull (λ t,
    spec ← getitem "spec" t;
    resources ← dict_get "resources" (PyDict ∅) spec;
    limits ← dict_get "limits" (PyDict ∅) resources;
    limits ← dict_update rl limits;
    resources ← setitem "limits" limits resources;
    at_key "spec" (setitem "resources" resources) t).
Proof.
  intros T T'. destruct (getitem "spec" T) as [spec |]; [simpl | done].
  destruct (dict_get "resources" _ spec) as [resources |]; [simpl | done].
  destruct (dict_get "limits" _ resources) as [limits |]; [simpl | done].
  destruct (dict_update rl limits) as [limits' |]; [simpl | done].
  destruct (setitem "limits" limits' resources) as [resources' |]; [simpl | done].
  apply nonnull_at_key.
Qed.

(** *** Methods and the paths they write *)

Section Writes.
Variable E : Collaborators.

Lemma untouched_In fp q p : untouched fp q = true → In p fp → diverge p q = true.
Proof. intros Hu Hp. unfold untouched in Hu. by apply (proj1 (forallb_forall _ _) Hu). Qed.

Lemma untouched_incl fp fp' q :
  (∀ p, In p fp' → In p fp) → untouched fp q = true → untouched fp' q = true.
Proof.
  intros Hi Hu. apply forallb_forall. intros p Hp.
  by apply (untouched_In fp q p Hu), Hi.
Qed.

Lemma frames_touches fp p f q v :
  untouched fp q = true → touches p f → In p fp → frames (reads_at q v) f.
Proof. intros Hu Ht Hp. apply Ht. by eapply untouched_In. Qed.

Lemma writes_sub {A} fp' fp (m : M A) q v :
  untouched fp q = true → writes E fp' m → (∀ p, In p fp' → In p fp) →
  inv (doc_holds E (reads_at q v)) m.
Proof. intros Hu Hw Hi. apply Hw. by eapply untouched_incl. Qed.

Lemma writes_mono {A} fp' fp (m : M A) :
  writes E fp' m → (∀ p, In p fp' → In p fp) → writes E fp m.
Proof. intros Hw Hi q v Hu. by eapply writes_sub. Qed.
End Writes.

Create HintDb writes.
Create HintDb touches.
#[export] Hint Resolve touches_setitem touches_dict_pop touches_delitem
  touches_setdefault touches_resource_limits : touches.

(** The path a statement writes at: the keys on the way, then the key the
    statement sets or removes. *)
Ltac touches_solve :=
  repeat first
    [ solve [auto with touches nocore]
    | eapply touches_setdefault
    | apply touches_at_key
    | apply touches_at_path
    | apply touches_any ].

Ltac in_solve := cbn; repeat first [left; reflexivity | right].

Ltac incl_solve :=
  let p := fresh "p" in
  let Hp := fresh "Hp" in
  intros p Hp; cbn in Hp;
  repeat (destruct Hp as [<- | Hp]; [solve [in_solve] |]);
  destruct Hp.

(** Walks through a method for a read that its writes cannot change. *)
Ltac doc_walk :=
  repeat first
    [ eapply writes_sub;
        [eassumption | solve [eauto with writes nocore] | solve [incl_solve]]
    | apply pres_ret | apply pres_raise | apply pres_get | apply pres_lift
    | apply pres_template; apply stable_doc_holds
    | apply pres_read_template; apply stable_doc_holds
    | apply pres_when
    | apply pres_doc_on_template;
        [eapply frames_touches; [eassumption | touches_solve | solve [in_solve]]
        | first [apply nonnull_at_key | apply nonnull_at_path
                | apply nonnull_resource_limits]]
    | apply pres_modify; intros ?; apply doc_holds_attr; reflexivity
    | match goal with
      | |- inv _ (_ ≫= _) => apply pres_bind; [| intros ?]
      | |- inv _ (if ?c then _ else _) => destruct c
      | |- inv _ (match ?x with _ => _ end) => destruct x
      | |- inv _ (let _ := _ in _) => cbv zeta
      end ].

Section MethodWrites.
Variable E : Collaborators.

Lemma writes_set_label name value :
  writes E [["metadata"; "labels"; name]] (set_label E name value).
Proof. intros q v Hq. unfold set_label. doc_walk. Qed.
#[local] Hint Resolve writes_set_label : writes.

Lemma writes_render_name : writes E [["metadata"; "name"]] (render_name E).
Proof. intros q v Hq. unfold render_name. doc_walk. Qed.

Lemma writes_render_output_name :
  writes E [["spec"; "output"; "to"; "name"]] (render_output_name E).
Proof. intros q v Hq. unfold render_output_name. doc_walk. Qed.

Lemma writes_render_custom_strategy :
  writes E [["spec"; "strategy"; "customStrategy"; "from"; "kind"];
            ["spec"; "strategy"; "customStrategy"; "from"; "name"]]
    (render_custom_strategy E).
Proof. intros q v Hq. unfold render_custom_strategy. doc_walk. Qed.

Lemma writes_render_resource_limits :
  writes E [["spec"; "resources"; "limits"]] (render_resource_limits E).
Proof. intros q v Hq. unfold render_resource_limits. doc_walk. Qed.

Lemma writes_render_user_params :
  writes E [["spec"; "strategy"; "customStrategy"; "env"]] (render_user_params E).
Proof. intros q v Hq. unfold render_user_params. doc_walk. Qed.

Lemma writes_adjust_for_scratch :
  writes E [["spec"; "triggers"]; ["metadata"; "labels"; "scratch"]]
    (adjust_for_scratch E).
Proof. intros q v Hq. unfold adjust_for_scratch. doc_walk. Qed.

Lemma writes_set_deadline hours :
  writes E [["spec"; "completionDeadlineSeconds"]] (set_deadline E hours).
Proof. intros q v Hq. unfold set_deadline. doc_walk. Qed.
#[local] Hint Resolve writes_set_deadline : writes.

Lemma writes__set_deadline :
  writes E [["spec"; "completionDeadlineSeconds"]] (_set_deadline E).
Proof. intros q v Hq. unfold _set_deadline. doc_walk. Qed.

Lemma writes_set_reactor_config :
  writes E [["spec"; "strategy"; "customStrategy"; "env"]] (set_reactor_config E).
Proof. intros q v Hq. unfold set_reactor_config. doc_walk. Qed.

Lemma writes_delete_atomic_reactor_placeholder :
  writes E [["spec"; "strategy"; "customStrategy"; "env"]]
    (delete_atomic_reactor_placeholder E).
Proof. intros q v Hq. unfold delete_atomic_reactor_placeholder. doc_walk. Qed.

Lemma writes_get_reactor_config_data : writes E [] get_reactor_config_data.
Proof. intros q v Hq. unfold get_reactor_config_data. doc_walk. Qed.

Lemma writes__set_required_secrets required_secrets :
  writes E [["spec"; "strategy"; "customStrategy"; "secrets"]]
    (_set_required_secrets E required_secrets).
Proof. intros q v Hq. unfold _set_required_secrets. doc_walk. Qed.
#[local] Hint Resolve writes__set_required_secrets : writes.

Lemma writes_config_changed o d : writes E [] (config_changed o d).
Proof. intros q v Hq. unfold config_changed. doc_walk. Qed.
#[local] Hint Resolve writes_config_changed : writes.

Lemma writes_set_required_secrets o :
  writes E [["spec"; "strategy"; "customStrategy"; "secrets"]]
    (set_required_secrets E o).
Proof. intros q v Hq. unfold set_required_secrets. doc_walk. Qed.
#[local] Hint Resolve writes_set_required_secrets : writes.

Lemma writes_set_data_from_reactor_config data :
  writes E [["spec"; "strategy"; "customStrategy"; "secrets"]]
    (set_data_from_reactor_config E data).
Proof.
  intros q v Hq.
  unfold set_data_from_reactor_config, set_source_registry,
    set_registry_organization, _set_flatpak.
  doc_walk.
Qed.

Lemma writes_has_ist_trigger : writes E [] (has_ist_trigger E).
Proof. intros q v Hq. unfold has_ist_trigger. doc_walk. Qed.

Lemma writes_is_custom_base_image : writes E [] is_custom_base_image.
Proof. intros q v Hq. unfold is_custom_base_image. doc_walk. Qed.
#[local] Hint Resolve writes_is_custom_base_image : writes.

Lemma writes_triggers_to_remove : writes E [] (triggers_to_remove E).
Proof. intros q v Hq. unfold triggers_to_remove, is_from_scratch_image. doc_walk. Qed.

Lemma writes_adjust_for_repo_info :
  writes E [["spec"; "triggers"]] (adjust_for_repo_info E).
Proof. intros q v Hq. unfold adjust_for_repo_info. doc_walk. Qed.

Lemma writes_adjust_for_isolated release :
  writes E [["spec"; "triggers"]; ["metadata"; "labels"; "isolated"];
            ["metadata"; "labels"; "isolated-release"]]
    (adjust_for_isolated E release).
Proof. intros q v Hq. unfold adjust_for_isolated. doc_walk. Qed.

Lemma writes_render_node_selectors build_type :
  writes E [["spec"; "nodeSelector"]] (render_node_selectors E build_type).
Proof.
  intros q v Hq. unfold render_node_selectors. case_bool_decide; [| apply pres_ret].
  apply pres_get_bind. intros st0. unfold chosen_selector.
  destruct (truthy (is_auto st0)); [| destruct (truthy (scratch st0));
    [| destruct (truthy (isolated st0))]]; doc_walk.
Qed.
End MethodWrites.

#[export] Hint Resolve writes_set_label writes_render_name
  writes_render_output_name writes_render_custom_strategy
  writes_render_resource_limits writes_render_user_params
  writes_adjust_for_scratch writes_set_deadline writes__set_deadline
  writes_set_reactor_config writes_delete_atomic_reactor_placeholder
  writes_get_reactor_config_data writes__set_required_secrets
  writes_set_required_secrets writes_set_data_from_reactor_config
  writes_has_ist_trigger writes_is_custom_base_image
  writes_triggers_to_remove writes_adjust_for_repo_info
  writes_adjust_for_isolated writes_render_node_selectors : writes.

Section RenderWrites.
Variable E : Collaborators.

Lemma writes_BaseBuildRequest_render validate :
  writes E base_render_writes (BaseBuildRequest_render E validate).
Proof.
  intros q v Hq. unfold base_render_writes in Hq.
  unfold BaseBuildRequest_render. doc_walk.
Qed.
#[local] Hint Resolve writes_BaseBuildRequest_render : writes.

Lemma writes_render validate : writes E render_writes (render E validate).
Proof.
  intros q v Hq. unfold render_writes, base_render_writes in Hq. cbn [app] in Hq.
  unfold render. doc_walk.
Qed.
End RenderWrites.

#[export] Hint Resolve writes_BaseBuildRequest_render writes_render : writes.

(** *** Attributes of the builder that a method keeps *)

Lemma loaded_cases E st :
  loaded E st = st ∨
  (∃ x, loaded E st = assign_opened x st) ∨
  (∃ x T, loaded E st = assign__template T (assign_opened x st)).
Proof.
  unfold loaded, template. destruct (_template st); auto.
  destruct (open_read E _); [right; left; by eexists |].
  destruct (json_load E _); [right; right; by do 2 eexists | right; left; by eexists].
Qed.

Lemma stable_attr E {B} (attr : BuildRequestV2 → B) (b : B) :
  (∀ x st, attr (assign_opened x st) = attr st) →
  (∀ T st, attr (assign__template T st) = attr st) →
  stable E (λ st, attr st = b).
Proof.
  intros H1 H2 st <-.
  destruct (loaded_cases E st) as [-> | [(x & ->) | (x & T & ->)]];
    by rewrite ?H2, ?H1.
Qed.

Create HintDb attrs.

Ltac attr_stable := apply stable_attr; intros; reflexivity.

(** Walks through a method for an attribute that neither loading the
    template nor a statement on the document changes. *)
Ltac attr_walk_with sub :=
  repeat first
    [ sub
    | apply pres_ret | apply pres_raise | apply pres_get | apply pres_lift
    | apply pres_template; attr_stable
    | apply pres_read_template; attr_stable
    | apply pres_when
    | apply pres_on_template; [attr_stable | intros ? ? ? _ _ ?; assumption]
    | apply pres_modify; intros ? ?; assumption
    | match goal with
      | |- inv _ (_ ≫= _) => apply pres_bind; [| intros ?]
      | |- inv _ (if ?c then _ else _) => destruct c
      | |- inv _ (match ?x with _ => _ end) => destruct x
      | |- inv _ (let _ := _ in _) => cbv zeta
      end ].

Ltac attr_walk := attr_walk_with ltac:(solve [auto with attrs nocore]).

Section KeepsParams.
Variable E : Collaborators.
Variable u : BuildUserParams.t.

Lemma pres_node_selectors_attr {B} (attr : BuildRequestV2 → B) (b : B) build_type :
  (∀ x st, attr (assign_opened x st) = attr st) →
  (∀ T st, attr (assign__template T st) = attr st) →
  (∀ x st, attr (assign_auto_build_node_selector x st) = attr st) →
  (∀ x st, attr (assign_scratch_build_node_selector x st) = attr st) →
  (∀ x st, attr (assign_isolated_build_node_selector x st) = attr st) →
  (∀ x st, attr (assign_explicit_build_node_selector x st) = attr st) →
  inv (λ st, attr st = b) (render_node_selectors E build_type).
Proof.
  intros H1 H2 H3 H4 H5 H6.
  assert (Hs : stable E (λ st, attr st = b)) by by apply stable_attr.
  assert (Ht : ∀ f, inv (λ st, attr st = b) (on_template E f)).
  { intros f. apply pres_on_template; [done |]. intros st T T' _ _ <-. apply H2. }
  unfold render_node_selectors. case_bool_decide; [| apply pres_ret].
  apply pres_get_bind. intros st0. unfold chosen_selector.
  destruct (truthy (is_auto st0)); [| destruct (truthy (scratch st0));
    [| destruct (truthy (isolated st0))]];
    repeat first
      [ apply Ht | apply pres_ret | apply pres_raise | apply pres_get
      | apply pres_read_template; exact Hs
      | apply pres_modify; intros ? <-; auto
      | match goal with
        | |- inv _ (_ ≫= _) => apply pres_bind; [| intros ?]
        | |- inv _ (if ?c then _ else _) => destruct c
        | |- inv _ (match ?x with _ => _ end) => destruct x
        end ].
Qed.

(** Before the reactor configuration is read nothing touches the user
    parameters. *)
Lemma keeps_params_set_label name value :
  inv (λ st, user_params st = u) (set_label E name value).
Proof. unfold set_label. attr_walk. Qed.
#[local] Hint Resolve keeps_params_set_label : attrs.

Lemma keeps_params_render_name : inv (λ st, user_params st = u) (render_name E).
Proof. unfold render_name. attr_walk. Qed.

Lemma keeps_params_render_output_name :
  inv (λ st, user_params st = u) (render_output_name E).
Proof. unfold render_output_name. attr_walk. Qed.

Lemma keeps_params_render_custom_strategy :
  inv (λ st, user_params st = u) (render_custom_strategy E).
Proof. unfold render_custom_strategy. attr_walk. Qed.

Lemma keeps_params_render_resource_limits :
  inv (λ st, user_params st = u) (render_resource_limits E).
Proof. unfold render_resource_limits. attr_walk. Qed.

Lemma keeps_params_adjust_for_scratch :
  inv (λ st, user_params st = u) (adjust_for_scratch E).
Proof. unfold adjust_for_scratch. attr_walk. Qed.

Lemma keeps_params_set_reactor_config :
  inv (λ st, user_params st = u) (set_reactor_config E).
Proof. unfold set_reactor_config. attr_walk. Qed.

Lemma keeps_params_render_user_params :
  inv (λ st, user_params st = u) (render_user_params E).
Proof. unfold render_user_params. attr_walk. Qed.

Lemma keeps_params_delete_atomic_reactor_placeholder :
  inv (λ st, user_params st = u) (delete_atomic_reactor_placeholder E).
Proof. unfold delete_atomic_reactor_placeholder. attr_walk. Qed.

Lemma keeps_params_get_reactor_config_data :
  inv (λ st, user_params st = u) get_reactor_config_data.
Proof. unfold get_reactor_config_data. attr_walk. Qed.

Lemma keeps_params__set_required_secrets rs :
  inv (λ st, user_params st = u) (_set_required_secrets E rs).
Proof. unfold _set_required_secrets. attr_walk. Qed.
#[local] Hint Resolve keeps_params__set_required_secrets : attrs.

Lemma keeps_params_has_ist_trigger :
  inv (λ st, user_params st = u) (has_ist_trigger E).
Proof. unfold has_ist_trigger. attr_walk. Qed.

Lemma keeps_params_triggers_to_remove :
  inv (λ st, user_params st = u) (triggers_to_remove E).
Proof.
  unfold triggers_to_remove, is_custom_base_image, is_from_scratch_image. attr_walk.
Qed.

Lemma keeps_params_is_custom_base_image :
  inv (λ st, user_params st = u) is_custom_base_image.
Proof. unfold is_custom_base_image. attr_walk. Qed.

Lemma keeps_params_adjust_for_repo_info :
  inv (λ st, user_params st = u) (adjust_for_repo_info E).
Proof. unfold adjust_for_repo_info. attr_walk. Qed.

Lemma keeps_params_adjust_for_isolated release :
  inv (λ st, user_params st = u) (adjust_for_isolated E release).
Proof. unfold adjust_for_isolated. attr_walk. Qed.

Lemma keeps_params_render_node_selectors build_type :
  inv (λ st, user_params st = u) (render_node_selectors E build_type).
Proof. by apply pres_node_selectors_attr. Qed.

Lemma keeps_params__set_deadline : inv (λ st, user_params st = u) (_set_deadline E).
Proof. unfold _set_deadline, set_deadline. attr_walk. Qed.
End KeepsParams.

#[export] Hint Resolve keeps_params_set_label keeps_params_render_name
  keeps_params_render_output_name keeps_params_render_custom_strategy
  keeps_params_render_resource_limits keeps_params_adjust_for_scratch
  keeps_params_set_reactor_config keeps_params_render_user_params
  keeps_params_delete_atomic_reactor_placeholder
  keeps_params_get_reactor_config_data keeps_params__set_required_secrets
  keeps_params_has_ist_trigger
  keeps_params_triggers_to_remove keeps_params_is_custom_base_image
  keeps_params_adjust_for_repo_info keeps_params_adjust_for_isolated
  keeps_params_render_node_selectors keeps_params__set_deadline : attrs.

Section KeepsGiven.
Variable E : Collaborators.
Variable c : BuildUserParams.t.

Lemma keeps_given_of_params {A} (m : M A) :
  (∀ u, inv (λ st, user_params st = u) m) → inv (λ st, params_given st = c) m.
Proof.
  intros Hm st r st' <- H. unfold params_given.
  by rewrite (Hm (user_params st) st r st' eq_refl H).
Qed.

Lemma keeps_given__set_flatpak data :
  inv (λ st, params_given st = c) (_set_flatpak data).
Proof.
  intros st r st' <-. unfold _set_flatpak. rewrite get_bind.
  destruct (BuildUserParams.flatpak (user_params st)); [| by intros [= <- <-]].
  unfold mbind, M_bind, lift, modify, raise.
  destruct (dict_get "base_image" PyNone _) as [fb |]; [| by intros [= <- <-]].
  destruct (truthy fb); by intros [= <- <-].
Qed.

(** The list that [set_required_secrets] extends in place is a part of
    the override. *)
Lemma keeps_given_config_changed o d :
  inv (λ st, params_given st = c) (config_changed o d).
Proof.
  intros st r st' <- H. destruct o; [| by injection H as <- <-].
  unfold config_changed in H. rewrite get_bind in H.
  unfold mbind, M_bind, modify, mret, M_ret in H. by injection H as <- <-.
Qed.

Lemma keeps_given_set_required_secrets o :
  inv (λ st, params_given st = c) (set_required_secrets E o).
Proof.
  unfold set_required_secrets.
  attr_walk_with ltac:(first
    [ apply keeps_given_config_changed
    | apply keeps_given_of_params; intros ?; solve [auto with attrs nocore] ]).
Qed.

Lemma keeps_given_set_data_from_reactor_config o :
  inv (λ st, params_given st = c) (set_data_from_reactor_config E o).
Proof.
  unfold set_data_from_reactor_config, set_source_registry,
    set_registry_organization.
  attr_walk_with ltac:(first
    [ apply keeps_given__set_flatpak
    | apply keeps_given_set_required_secrets
    | apply keeps_given_of_params; intros ?; solve [auto with attrs nocore] ]).
Qed.

(** [BaseBuildRequest.render] changes the base image of the user
    parameters at most. *)
Lemma keeps_given_BaseBuildRequest_render validate :
  inv (λ st, params_given st = c) (BaseBuildRequest_render E validate).
Proof.
  unfold BaseBuildRequest_render.
  attr_walk_with ltac:(first
    [ apply keeps_given_set_data_from_reactor_config
    | apply keeps_given_of_params; intros ?; solve [auto with attrs nocore] ]).
Qed.
End KeepsGiven.

#[export] Hint Resolve keeps_given_BaseBuildRequest_render
  keeps_given_set_data_from_reactor_config keeps_given_set_required_secrets
  keeps_given_config_changed : attrs.

(** ** What a rendered document holds *)

Lemma reads_at_not_None k q v T : reads_at (k :: q) v T → T ≠ PyNone.
Proof. by destruct T. Qed.

Lemma at_path_setitem_reads p k x T T' :
  at_path p (setitem k x) T = Ok T' → reads_at (p ++ [k]) x T'.
Proof.
  revert T T'. induction p as [| a p IH]; intros T T' H.
  - destruct T; try done. injection H as <-. unfold reads_at. cbn [app].
    rewrite get_path_cons. by rewrite lookup_insert_eq.
  - change (at_path (a :: p) (setitem k x) T)
      with (at_key a (at_path p (setitem k x)) T) in H.
    apply at_key_Ok in H as (m & y & y' & -> & Hy & Hf & ->).
    unfold reads_at. change ((a :: p) ++ [k])%list with (a :: (p ++ [k]))%list.
    rewrite get_path_cons, lookup_insert_eq. by apply (IH y).
Qed.

(** A statement on the object at a path turns what is read there into
    what the statement makes of it. *)
Lemma at_path_Ok_get p f T T' x :
  at_path p f T = Ok T' → get_path p T = Ok x →
  ∃ x', f x = Ok x' ∧ get_path p T' = Ok x'.
Proof.
  revert T T'. induction p as [| a p IH]; intros T T' H Hg.
  - simpl in *. injection Hg as ->. by exists T'.
  - change (at_path (a :: p) f T) with (at_key a (at_path p f) T) in H.
    apply at_key_Ok in H as (m & y & y' & -> & Hy & Hf & ->).
    rewrite get_path_cons, Hy in Hg.
    destruct (IH y y' Hf Hg) as (x' & Hx' & Hg').
    exists x'. split; [done |]. by rewrite get_path_cons, lookup_insert_eq.
Qed.

Lemma at_path_snoc p k g T : at_path (p ++ [k]) g T = at_path p (at_key k g) T.
Proof.
  revert T. induction p as [| a p IH]; intros T; [done |].
  change (at_key a (at_path (p ++ [k]) g) T = at_key a (at_path p (at_key k g)) T).
  unfold at_key. destruct (getitem a T) as [y |]; [simpl | done]. by rewrite IH.
Qed.

Section Established.
Variable E : Collaborators.

Lemma on_template_sets p k x st u st' :
  on_template E (at_path p (setitem k x)) st = (Ok u, st') →
  doc_holds E (reads_at (p ++ [k]) x) st'.
Proof.
  intros H. apply on_template_Ok in H as (T & T' & HT & Hf & ->).
  apply at_path_setitem_reads in Hf. exists T'. split; [| done].
  apply doc_of_assign__template. destruct p; by eapply reads_at_not_None.
Qed.

Lemma on_template_updates p f x st u st' :
  p ≠ [] →
  on_template E (at_path p f) st = (Ok u, st') →
  doc_holds E (reads_at p x) st →
  ∃ x', f x = Ok x' ∧ doc_holds E (reads_at p x') st'.
Proof.
  intros Hp H (T0 & HT0 & Hx). apply on_template_Ok in H as (T & T' & HT & Hf & ->).
  assert (T0 = T) as -> by congruence.
  destruct (at_path_Ok_get _ _ _ _ _ Hf Hx) as (x' & Hx' & Hg').
  exists x'. split; [done |]. exists T'. split; [| done].
  apply doc_of_assign__template. destruct p; [done | by eapply reads_at_not_None].
Qed.

Lemma doc_holds_returned Q st doc :
  doc_holds E Q st → doc_of E st = Some doc → Q doc.
Proof. intros (T & HT & HQ) Hdoc. congruence. Qed.
End Established.

(** The document property or the attribute of the state before a
    statement, taken to the state after it. *)
Ltac carry_doc Hm Hd :=
  lazymatch type of Hm with
  | ?m ?s0 = _ =>
      lazymatch type of Hd with
      | doc_holds ?E (reads_at ?q ?v) s0 =>
          let fp := eval vm_compute in (List.filter (λ p, diverge p q) render_writes) in
          let Hq := fresh "Hq" in
          assert (Hq : untouched fp q = true) by (vm_compute; reflexivity);
          let Hi := fresh "Hi" in
          assert (Hi : inv (doc_holds E (reads_at q v)) m) by doc_walk;
          let Hd' := fresh "Hd" in
          pose proof (Hi _ _ _ Hd Hm) as Hd';
          clear Hi Hq Hd; rename Hd' into Hd
      end
  end.

(** The same walk with the methods unfolded, for an attribute that only
    [set_params] and the like assign. *)
Ltac attr_walk_all :=
  unfold BaseBuildRequest_render, render_name, render_output_name,
    render_custom_strategy, render_resource_limits, adjust_for_scratch,
    set_reactor_config, render_user_params,
    delete_atomic_reactor_placeholder, get_reactor_config_data,
    set_data_from_reactor_config, set_source_registry,
    set_registry_organization, set_required_secrets, config_changed,
    _set_required_secrets,
    _set_flatpak, has_ist_trigger, triggers_to_remove, is_custom_base_image,
    is_from_scratch_image, adjust_for_repo_info, adjust_for_isolated,
    _set_deadline, set_deadline, set_label;
  attr_walk_with ltac:(apply pres_node_selectors_attr; intros; reflexivity).

Ltac carry_attr Hm Ha :=
  lazymatch type of Hm with
  | ?m ?s0 = _ =>
      pattern s0 in Ha;
      lazymatch type of Ha with
      | ?P s0 =>
          let Hi := fresh "Hi" in
          assert (Hi : inv P m) by first [solve [attr_walk] | solve [attr_walk_all]];
          let Ha' := fresh "Ha" in
          pose proof (Hi _ _ _ Ha Hm) as Ha';
          cbv beta in Ha';
          clear Hi Ha; rename Ha' into Ha
      end
  end.

(** ** The methods one by one *)

Lemma at_path_raise p f T v e :
  get_path p T = Ok v → f v = Raise e → at_path p f T = Raise e.
Proof.
  revert T. induction p as [| k p IH]; intros T Hg Hf.
  - simpl in *. by injection Hg as ->.
  - simpl in Hg. destruct T as [| | | | | m]; try done. simpl in Hg.
    destruct (m !! k) as [x |] eqn:Hk; [| done]. simpl in Hg.
    change (at_path (k :: p) f (PyDict m)) with (at_key k (at_path p f) (PyDict m)).
    unfold at_key. simpl. rewrite Hk. simpl. by rewrite (IH x Hg Hf).
Qed.

Section Statements.
Variable E : Collaborators.

(** A statement on the object at a path of the document, run. *)
Lemma on_template_at_path p f st T v v' :
  p ≠ [] → doc_of E st = Some T → get_path p T = Ok v → f v = Ok v' →
  ∃ T', on_template E (at_path p f) st = (Ok tt, assign__template T' (loaded E st)) ∧
        doc_of E (assign__template T' (loaded E st)) = Some T' ∧
        at_path p f T = Ok T' ∧ get_path p T' = Ok v'.
Proof.
  intros Hp HT Hg Hf.
  destruct (at_path_get p f T v v' Hp Hg Hf) as (T' & Hat & Hg' & HT').
  destruct (on_template_run E _ _ _ _ HT Hat HT') as [Hrun Hdoc].
  by exists T'.
Qed.

Lemma on_template_at_path_raise p f st T v e :
  doc_of E st = Some T → get_path p T = Ok v → f v = Raise e →
  on_template E (at_path p f) st = (Raise e, loaded E st).
Proof.
  intros HT Hg Hf. rewrite (on_template_Some _ _ _ _ HT).
  by rewrite (at_path_raise p f T v e Hg Hf).
Qed.

Lemma on_template_ext f g st :
  (∀ T, f T = g T) → on_template E f st = on_template E g st.
Proof.
  intros Hfg. unfold on_template, mbind, M_bind.
  destruct (template E st) as [[T | e] st1]; [| done].
  unfold lift. by rewrite Hfg.
Qed.
End Statements.

(** *** The placeholder of the env list *)

Lemma delete_first_placeholder_none l :
  Forall (λ e, is_placeholder e = Some false) l →
  delete_first_placeholder l = Ok l.
Proof.
  induction 1 as [| e l He Hl IH]; [done |].
  unfold is_placeholder in He. cbn [delete_first_placeholder].
  destruct (getitem "name" e) as [n |]; [| done].
  injection He as He. cbn. rewrite He, IH. done.
Qed.

Lemma delete_first_placeholder_first l1 e l2 :
  Forall (λ e, is_placeholder e = Some false) l1 →
  is_placeholder e = Some true →
  delete_first_placeholder (l1 ++ e :: l2) = Ok (l1 ++ l2)%list.
Proof.
  intros Hl1 He. induction Hl1 as [| e1 l1 He1 Hl1 IH].
  - unfold is_placeholder in He. cbn [app delete_first_placeholder].
    destruct (getitem "name" e) as [n |]; [| done].
    injection He as He. cbn. by rewrite He.
  - unfold is_placeholder in He1.
    change ((e1 :: l1) ++ e :: l2)%list with (e1 :: (l1 ++ e :: l2))%list.
    cbn [delete_first_placeholder].
    destruct (getitem "name" e1) as [n |]; [| done].
    injection He1 as He1. cbn. rewrite He1, IH. done.
Qed.

Lemma delete_first_placeholder_raise l1 e l2 err :
  Forall (λ e, is_placeholder e = Some false) l1 →
  getitem "name" e = Raise err →
  delete_first_placeholder (l1 ++ e :: l2) = Raise err.
Proof.
  intros Hl1 He. induction Hl1 as [| e1 l1 He1 Hl1 IH].
  - cbn [app delete_first_placeholder]. by rewrite He.
  - unfold is_placeholder in He1.
    change ((e1 :: l1) ++ e :: l2)%list with (e1 :: (l1 ++ e :: l2))%list.
    cbn [delete_first_placeholder].
    destruct (getitem "name" e1) as [n |]; [| done].
    injection He1 as He1. cbn. rewrite He1, IH. done.
Qed.

Section Placeholder.
Variable E : Collaborators.

(** X1: [delete_atomic_reactor_placeholder] removes from the env list of the
    custom strategy the first entry named ATOMIC_REACTOR_PLUGINS and only
    that one; without such an entry the document stays as it is; and an
    entry without a name before the placeholder makes it raise. *)
Theorem delete_placeholder_first st T env :
  doc_of E st = Some T →
  get_path env_path T = Ok (PyList env) →
  (∀ l1 e l2,
     env = (l1 ++ e :: l2)%list →
     Forall (λ e, is_placeholder e = Some false) l1 →
     is_placeholder e = Some true →
     ∃ st' T', delete_atomic_reactor_placeholder E st = (Ok tt, st') ∧
               doc_of E st' = Some T' ∧
               get_path env_path T' = Ok (PyList (l1 ++ l2))) ∧
  (Forall (λ e, is_placeholder e = Some false) env →
   ∃ st', delete_atomic_reactor_placeholder E st = (Ok tt, st') ∧
          doc_of E st' = Some T) ∧
  (∀ l1 e l2 err,
     env = (l1 ++ e :: l2)%list →
     Forall (λ e, is_placeholder e = Some false) l1 →
     getitem "name" e = Raise err →
     ∃ st', delete_atomic_reactor_placeholder E st = (Raise err, st') ∧
            doc_of E st' = Some T).
Proof.
  intros HT Henv.
  set (g := λ env : pyval,
         match env with
         | PyList l => PyList <$> delete_first_placeholder l
         | PyStr s => if s =? "" then Ok env else Raise TypeError
         | PyDict m => if truthy env then Raise TypeError else Ok env
         | _ => Raise TypeError
         end).
  assert (Hrw : delete_atomic_reactor_placeholder E st
                = on_template E (at_path env_path g) st).
  { unfold delete_atomic_reactor_placeholder. apply on_template_ext. intros T0.
    unfold env_path. by rewrite at_path_snoc. }
  rewrite Hrw. split; [| split].
  - intros l1 e l2 -> Hl1 He.
    destruct (on_template_at_path E env_path g st T _ (PyList (l1 ++ l2))
                ltac:(done) HT Henv) as (T' & Hrun & Hdoc & _ & Hg).
    { simpl. by rewrite (delete_first_placeholder_first l1 e l2 Hl1 He). }
    by exists (assign__template T' (loaded E st)), T'.
  - intros Hall.
    assert (Hsame : at_path env_path g T = Ok T).
    { apply (at_path_same env_path g T (PyList env) Henv). simpl.
      by rewrite (delete_first_placeholder_none env Hall). }
    assert (HTn : T ≠ PyNone) by (by destruct T).
    destruct (on_template_run E _ _ _ _ HT Hsame HTn) as [Hrun Hdoc].
    by exists (assign__template T (loaded E st)).
  - intros l1 e l2 err -> Hl1 He.
    exists (loaded E st). split; [| by rewrite doc_of_loaded].
    apply (on_template_at_path_raise E env_path g st T _ err HT Henv). simpl.
    by rewrite (delete_first_placeholder_raise l1 e l2 err Hl1 He).
Qed.
End Placeholder.

(** An env list with two placeholders: the first one goes. *)
Lemma delete_placeholder_first_witness :
  ∃ st' T',
    delete_atomic_reactor_placeholder sample_collaborators
      (request_on (with_env env_with_placeholder sample_template) ∅) = (Ok tt, st') ∧
    doc_of sample_collaborators st' = Some T' ∧
    get_path env_path T'
    = Ok (PyList [ PyDict {[ "name" := PyStr "FOO"; "value" := PyStr "1" ]};
                   PyDict {[ "name" := PyStr "ATOMIC_REACTOR_PLUGINS";
                             "value" := PyStr "again" ]} ]).
Proof.
  destruct (delete_placeholder_first sample_collaborators
              (request_on (with_env env_with_placeholder sample_template) ∅)
              (with_env env_with_placeholder sample_template)
              env_with_placeholder)
    as (H1 & _ & _); [vm_compute; reflexivity | vm_compute; reflexivity |].
  refine (H1 [ PyDict {[ "name" := PyStr "FOO"; "value" := PyStr "1" ]} ]
            (PyDict {[ "name" := PyStr "ATOMIC_REACTOR_PLUGINS"; "value" := PyStr "TBD" ]})
            [ PyDict {[ "name" := PyStr "ATOMIC_REACTOR_PLUGINS";
                        "value" := PyStr "again" ]} ] _ _ _).
  - reflexivity.
  - constructor; [vm_compute; reflexivity | constructor].
  - vm_compute. reflexivity.
Defined.

(** *** The buildroot image *)

Section CustomStrategy.
Variable E : Collaborators.

(** X2: [render_custom_strategy] names the buildroot in
    customStrategy.from: an image stream, when the user parameters have
    one, with the kind ImageStreamTag, and the build image otherwise,
    with the kind the template gives. *)
Theorem render_custom_strategy_from st T from :
  doc_of E st = Some T →
  get_path from_path T = Ok (PyDict from) →
  let up := user_params st in
  let from' :=
    if truthy_str (BuildUserParams.build_imagestream up)
    then <["name" := of_opt_str (BuildUserParams.build_imagestream up)]>
           (<["kind" := PyStr "ImageStreamTag"]> from)
    else <["name" := BuildUserParams.build_image up]> from in
  ∃ st' T', render_custom_strategy E st = (Ok tt, st') ∧ doc_of E st' = Some T' ∧
            get_path from_path T' = Ok (PyDict from').
Proof.
  intros HT Hfrom up from'. unfold render_custom_strategy. rewrite get_bind.
  fold up. fold from_path. subst from'.
  destruct (truthy_str (BuildUserParams.build_imagestream up)).
  - destruct (on_template_at_path E from_path
                (setitem "kind" (PyStr "ImageStreamTag")) st T _ _
                ltac:(done) HT Hfrom eq_refl) as (T1 & Hrun1 & Hdoc1 & _ & Hg1).
    destruct (on_template_at_path E from_path
                (setitem "name" (of_opt_str (BuildUserParams.build_imagestream up)))
                _ T1 _ _ ltac:(done) Hdoc1 Hg1 eq_refl) as (T2 & Hrun2 & Hdoc2 & _ & Hg2).
    eexists _, T2. split; [| done].
    rewrite (bind_run _ _ _ _ _ Hrun1). exact Hrun2.
  - destruct (on_template_at_path E from_path
                (setitem "name" (BuildUserParams.build_image up)) st T _ _
                ltac:(done) HT Hfrom eq_refl) as (T1 & Hrun1 & Hdoc1 & _ & Hg1).
    by eexists _, T1.
Qed.
End CustomStrategy.

(** The sample build has no image stream: the build image is named and
    the kind of the template stays. *)
Lemma render_custom_strategy_from_witness :
  ∃ st' T',
    render_custom_strategy sample_collaborators (request_with ∅) = (Ok tt, st') ∧
    doc_of sample_collaborators st' = Some T' ∧
    get_path from_path T'
    = Ok (PyDict {[ "kind" := PyStr "DockerImage"; "name" := PyStr "buildroot:latest" ]}).
Proof.
  destruct (render_custom_strategy_from sample_collaborators (request_with ∅)
              sample_template
              {[ "kind" := PyStr "DockerImage"; "name" := PyStr "buildroot:latest" ]})
    as (st' & T' & H1 & H2 & H3); [vm_compute; reflexivity | vm_compute; reflexivity |].
  exists st', T'. split; [exact H1 | split; [exact H2 |]].
  rewrite H3. vm_compute. reflexivity.
Defined.

(** *** Resource limits *)

Lemma set_limit_run k x d st :
  _resource_limits st = Some d →
  set_limit k x st
  = (Ok tt, if is_None x then st
            else assign__resource_limits (Some (<[k := x]> d)) st).
Proof.
  intros Hd. unfold set_limit.
  destruct x; try done; by rewrite get_bind, Hd.
Qed.

(** X3: [set_resource_limits] adds the limits it is given to those of the
    builder: a limit that is given replaces the earlier one, a limit that
    is [None] leaves the earlier one, and nothing else of the builder
    changes.  The limits are a dict afterwards, also when none is given. *)
Theorem set_resource_limits_merges cpu memory storage st :
  ∃ limits : dict,
    set_resource_limits cpu memory storage st
    = (Ok tt, assign__resource_limits (Some limits) st) ∧
    ∀ k, limits !! k
         = if is_None (limit_arg cpu memory storage k)
           then default ∅ (_resource_limits st) !! k
           else Some (limit_arg cpu memory storage k).
Proof.
  set (d0 := default ∅ (_resource_limits st)).
  set (st0 := assign__resource_limits (Some d0) st).
  assert (H0 : (match _resource_limits st with
                | None => modify (assign__resource_limits (Some ∅))
                | Some _ => mret tt
                end) st = (Ok tt, st0)).
  { subst st0 d0. destruct st as [? ? [rl |]]; done. }
  set (d1 := if is_None cpu then d0 else <["cpu" := cpu]> d0).
  set (d2 := if is_None memory then d1 else <["memory" := memory]> d1).
  set (d3 := if is_None storage then d2 else <["storage" := storage]> d2).
  exists d3. split.
  - unfold set_resource_limits. rewrite get_bind, (bind_run _ _ _ _ _ H0).
    rewrite (bind_run _ _ _ _ _ (set_limit_run "cpu" cpu d0 st0 eq_refl)).
    assert (H1 : (if is_None cpu then st0
                  else assign__resource_limits (Some (<["cpu" := cpu]> d0)) st0)
                 = assign__resource_limits (Some d1) st).
    { subst d1. by destruct (is_None cpu). }
    rewrite H1.
    rewrite (bind_run _ _ _ _ _ (set_limit_run "memory" memory d1
                                     (assign__resource_limits (Some d1) st) eq_refl)).
    assert (H2 : (if is_None memory then assign__resource_limits (Some d1) st
                  else assign__resource_limits (Some (<["memory" := memory]> d1))
                         (assign__resource_limits (Some d1) st))
                 = assign__resource_limits (Some d2) st).
    { subst d2. by destruct (is_None memory). }
    rewrite H2. rewrite (set_limit_run "storage" storage d2
               (assign__resource_limits (Some d2) st) eq_refl).
    subst d3. by destruct (is_None storage).
  - intros k. subst d3 d2 d1. unfold limit_arg.
    destruct (String.eqb_spec k "cpu") as [-> | Hc].
    { destruct (is_None storage), (is_None memory), (is_None cpu);
        by rewrite ?lookup_insert_ne, ?lookup_insert_eq by done. }
    destruct (String.eqb_spec k "memory") as [-> | Hm].
    { destruct (is_None storage), (is_None memory), (is_None cpu);
        by rewrite ?lookup_insert_ne, ?lookup_insert_eq by done. }
    destruct (String.eqb_spec k "storage") as [-> | Hs].
    { destruct (is_None storage), (is_None memory), (is_None cpu);
        by rewrite ?lookup_insert_ne, ?lookup_insert_eq by done. }
    cbn [is_None].
    destruct (is_None storage), (is_None memory), (is_None cpu);
      by rewrite ?lookup_insert_ne by done.
Qed.

Section ResourceLimits.
Variable E : Collaborators.

(** X4: [render_resource_limits] does nothing without limits in the builder;
    with limits it puts them in spec.resources.limits on top of the limits
    of the template, the builder's winning, and leaves the other entries
    of spec.resources as they are. *)
Theorem render_resource_limits_merge st T spec :
  doc_of E st = Some T →
  lookup_in "spec" T = Some (PyDict spec) →
  (_resource_limits st = None → render_resource_limits E st = (Ok tt, st)) ∧
  (∀ rl resources limits,
     _resource_limits st = Some rl →
     default (PyDict ∅) (spec !! "resources") = PyDict resources →
     default (PyDict ∅) (resources !! "limits") = PyDict limits →
     ∃ st' T',
       render_resource_limits E st = (Ok tt, st') ∧ doc_of E st' = Some T' ∧
       spec_of "resources" T'
       = Some (PyDict (<["limits" := PyDict (rl ∪ limits)]> resources)) ∧
       ∀ k, k ≠ "resources" → spec_of k T' = spec_of k T).
Proof.
  intros HT Hspec. split.
  - intros Hn. unfold render_resource_limits. by rewrite get_bind, Hn.
  - intros rl resources limits Hrl Hres Hlim.
    destruct T as [| | | | | m]; try done. simpl in Hspec.
    set (res' := PyDict (<["limits" := PyDict (rl ∪ limits)]> resources)).
    set (T' := PyDict (<["spec" := PyDict (<["resources" := res']> spec)]> m)).
    assert (HT' : T' ≠ PyNone) by done.
    unfold render_resource_limits. rewrite get_bind, Hrl.
    match goal with
    | |- ∃ _ _, on_template E ?f st = _ ∧ _ =>
        assert (Hf : f (PyDict m) = Ok T')
    end.
    { cbn [getitem]. rewrite Hspec. cbn [mbind result_bind dict_get].
      rewrite Hres. cbn [mbind result_bind dict_get]. rewrite Hlim.
      cbn [mbind result_bind dict_update setitem].
      by apply (at_key_run "spec" _ m (PyDict spec)). }
    destruct (on_template_run E _ _ _ _ HT Hf HT') as [Hrun Hdoc].
    eexists _, T'. split; [exact Hrun |]. split; [exact Hdoc |].
    subst T'. split.
    + rewrite spec_of_insert_spec. simpl. by rewrite lookup_insert_eq.
    + intros k Hk. rewrite spec_of_insert_spec. unfold spec_of. simpl.
      rewrite Hspec. simpl. by rewrite lookup_insert_ne.
Qed.
End ResourceLimits.

(** A cpu limit asked for the sample build, whose template has no
    resources: the rendered limits are that one. *)
Lemma render_resource_limits_merge_witness :
  ∃ st' T',
    render_resource_limits sample_collaborators
      (request_with_limits (PyStr "2") PyNone PyNone) = (Ok tt, st') ∧
    doc_of sample_collaborators st' = Some T' ∧
    spec_of "resources" T'
    = Some (PyDict {[ "limits" := PyDict {[ "cpu" := PyStr "2" ]} ]}).
Proof.
  destruct (render_resource_limits_merge sample_collaborators
              (request_with_limits (PyStr "2") PyNone PyNone)
              sample_template sample_spec)
    as (_ & H); [vm_compute; reflexivity | vm_compute; reflexivity |].
  destruct (H {[ "cpu" := PyStr "2" ]} ∅ ∅)
    as (st' & T' & H1 & H2 & H3 & _);
    [vm_compute; reflexivity | vm_compute; reflexivity | vm_compute; reflexivity |].
  exists st', T'. split; [exact H1 | split; [exact H2 |]].
  rewrite H3. vm_compute. reflexivity.
Defined.

(** *** The completion deadline *)

Section Deadline.
Variable E : Collaborators.

(** X5: [_set_deadline] takes the worker deadline for a worker build and the
    orchestrator deadline for any other build; hours above zero become
    spec.completionDeadlineSeconds, 3600 seconds each, and with zero hours
    or fewer the builder and the document stay as they are. *)
Theorem _set_deadline_seconds st T spec :
  doc_of E st = Some T →
  lookup_in "spec" T = Some (PyDict spec) →
  let hours := deadline_hours E (user_params st) in
  ((hours ≤ 0)%Z → _set_deadline E st = (Ok tt, st)) ∧
  ((0 < hours)%Z →
   ∃ st' T',
     _set_deadline E st = (Ok tt, st') ∧ doc_of E st' = Some T' ∧
     spec_of "completionDeadlineSeconds" T' = Some (PyInt (hours * 3600)) ∧
     ∀ k, k ≠ "completionDeadlineSeconds" → spec_of k T' = spec_of k T).
Proof.
  intros HT Hspec hours. unfold _set_deadline. rewrite get_bind.
  fold (deadline_hours E (user_params st)). fold hours. unfold set_deadline.
  split; intros Hh.
  - apply Z.ltb_ge in Hh. by rewrite Hh.
  - apply Z.ltb_lt in Hh. rewrite Hh.
    destruct T as [| | | | | m]; try done. simpl in Hspec.
    set (T' := PyDict (<["spec" := PyDict (<["completionDeadlineSeconds" :=
                                               PyInt (hours * 3600)]> spec)]> m)).
    assert (Hf : at_key "spec" (setitem "completionDeadlineSeconds"
                                  (PyInt (hours * 3600))) (PyDict m) = Ok T')
      by by apply (at_key_run "spec" _ m (PyDict spec)).
    destruct (on_template_run E _ _ _ _ HT Hf) as [Hrun Hdoc]; [done |].
    eexists _, T'. split; [exact Hrun |]. split; [exact Hdoc |].
    subst T'. split.
    + rewrite spec_of_insert_spec. simpl. by rewrite lookup_insert_eq.
    + intros k Hk. rewrite spec_of_insert_spec. unfold spec_of. simpl.
      rewrite Hspec. simpl. by rewrite lookup_insert_ne.
Qed.
End Deadline.

(** A worker build with a deadline of two hours, and one without. *)
Lemma _set_deadline_seconds_witness :
  (∃ st' T',
     _set_deadline sample_collaborators (request_with_deadlines 2 5) = (Ok tt, st') ∧
     doc_of sample_collaborators st' = Some T' ∧
     spec_of "completionDeadlineSeconds" T' = Some (PyInt 7200)) ∧
  _set_deadline sample_collaborators (request_with_deadlines 0 5)
  = (Ok tt, request_with_deadlines 0 5).
Proof.
  split.
  - destruct (_set_deadline_seconds sample_collaborators (request_with_deadlines 2 5)
                sample_template sample_spec)
      as (_ & H); [vm_compute; reflexivity | vm_compute; reflexivity |].
    destruct H as (st' & T' & H1 & H2 & H3 & _); [vm_compute; reflexivity |].
    exists st', T'. split; [exact H1 | split; [exact H2 |]].
    rewrite H3. vm_compute. reflexivity.
  - destruct (_set_deadline_seconds sample_collaborators (request_with_deadlines 0 5)
                sample_template sample_spec)
      as (H & _); [vm_compute; reflexivity | vm_compute; reflexivity |].
    apply H. vm_compute. discriminate.
Defined.

(** *** Names *)

Lemma count_char_free c s : free_of c s = true ↔ count_char c s = 0%nat.
Proof.
  induction s as [| a s IH]; [done |]. simpl.
  destruct (Ascii.eqb a c); simpl; [split; [done | lia] | exact IH].
Qed.

Lemma count_char_append c s t :
  count_char c (s ++ t) = (count_char c s + count_char c t)%nat.
Proof.
  induction s as [| a s IH]; [done |]. rewrite append_cons. simpl. rewrite IH. lia.
Qed.

(** [rsplit1] cuts at the last separator: what follows has none. *)
Lemma rsplit1_Some c s h t :
  rsplit1 c s = Some (h, t) → s = h ++ String c t ∧ free_of c t = true.
Proof.
  revert h. induction s as [| a s IH]; intros h; [done |]. simpl.
  destruct (rsplit1 c s) as [[h' t'] |] eqn:Hr.
  - intros [= <- <-]. destruct (IH h' eq_refl) as [-> Hf]. by rewrite append_cons.
  - destruct (Ascii.eqb_spec a c) as [-> | Hne]; [| done].
    intros [= <- <-]. split; [done |].
    clear IH. induction s as [| b s IH]; [done |]. simpl in Hr |- *.
    destruct (rsplit1 c s) as [[? ?] |]; [done |].
    destruct (Ascii.eqb b c); [done |]. simpl. by apply IH.
Qed.

Lemma rsplit1_None c s : rsplit1 c s = None → count_char c s = 0%nat.
Proof.
  induction s as [| a s IH]; [done |]. simpl.
  destruct (rsplit1 c s) as [[h t] |]; [done |].
  destruct (Ascii.eqb a c); [done |]. intros _. by rewrite IH.
Qed.

Lemma rsplit1_count c s h t :
  rsplit1 c s = Some (h, t) → count_char c s = S (count_char c h).
Proof.
  intros [-> Hf]%rsplit1_Some. rewrite count_char_append. simpl.
  rewrite Ascii.eqb_refl. apply count_char_free in Hf. lia.
Qed.

(** With fewer than two separators [rsplit(c, 2)] gives fewer than three
    parts. *)
Lemma rsplit_short c s :
  (count_char c s < 2)%nat →
  rsplit c 2 s = [s] ∨ ∃ h t, rsplit c 2 s = [h; t].
Proof.
  intros Hc. simpl. destruct (rsplit1 c s) as [[h t] |] eqn:Hs; [| by left].
  right. apply rsplit1_count in Hs.
  destruct (rsplit1 c h) as [[h' t'] |] eqn:Hh.
  - apply rsplit1_count in Hh. lia.
  - by exists h, t.
Qed.

(** With two separators or more it gives three, the last two without a
    separator, and joined by the separator they are the string. *)
Lemma rsplit_long c s :
  (2 ≤ count_char c s)%nat →
  ∃ head salt timestamp,
    rsplit c 2 s = [head; salt; timestamp] ∧
    s = head ++ String c salt ++ String c timestamp ∧
    free_of c salt = true ∧ free_of c timestamp = true.
Proof.
  intros Hc. simpl. destruct (rsplit1 c s) as [[h t] |] eqn:Hs.
  - pose proof (rsplit1_count _ _ _ _ Hs) as Hn.
    apply rsplit1_Some in Hs as [-> Ht].
    destruct (rsplit1 c h) as [[h' t'] |] eqn:Hh.
    + apply rsplit1_Some in Hh as [-> Ht'].
      exists h', t', t. split; [done |]. split; [| done].
      by rewrite append_assoc.
    + apply rsplit1_None in Hh. lia.
  - apply rsplit1_None in Hs. lia.
Qed.

Section RenderName.
Variable E : Collaborators.

(** X6: [render_name] gives a build that is neither scratch nor isolated the
    name of the user parameters.  A scratch or isolated build whose image
    tag, the platform suffix taken off, has fewer than two dashes cannot be
    named: ValueError is raised, before the template is read. *)
Theorem render_name_cases st :
  let up := user_params st in
  let tag := strip_platform (BuildUserParams.platform up)
                            (BuildUserParams.image_tag up) in
  (truthy (scratch st) = false → truthy (isolated st) = false →
   ∀ T md, doc_of E st = Some T → lookup_in "metadata" T = Some (PyDict md) →
     ∃ st' T', render_name E st = (Ok tt, st') ∧ doc_of E st' = Some T' ∧
               get_path ["metadata"; "name"] T' = Ok (BuildUserParams.name up)) ∧
  (truthy (scratch st) = true ∨ truthy (isolated st) = true →
   (count_char dash tag < 2)%nat →
   render_name E st = (Raise (ValueError unpack_message), st)).
Proof.
  intros up tag. split.
  - intros Hs Hi T md HT Hmd. unfold render_name. rewrite !get_bind, Hs, Hi.
    cbn [orb].
    assert (Hg : get_path ["metadata"] T = Ok (PyDict md)).
    { destruct T; try done. simpl in *. by rewrite Hmd. }
    destruct (on_template_at_path E ["metadata"]
                (setitem "name" (BuildUserParams.name up)) st T _ _
                ltac:(done) HT Hg eq_refl) as (T' & Hrun & Hdoc & _ & Hg').
    exists (assign__template T' (loaded E st)), T'.
    split; [exact Hrun |]. split; [exact Hdoc |].
    change ["metadata"; "name"] with (["metadata"] ++ ["name"])%list.
    rewrite get_path_app, Hg'. simpl. by rewrite lookup_insert_eq.
  - intros Hv Hc. unfold render_name. rewrite !get_bind.
    assert (Hor : truthy (scratch st) || truthy (isolated st) = true)
      by (destruct Hv as [-> | ->]; [done | apply orb_true_r]).
    rewrite Hor. fold up. fold tag.
    destruct (rsplit_short dash tag Hc) as [-> | (h & t & ->)]; done.
Qed.
End RenderName.

(** A scratch build with a tag of one dash, and the sample build. *)
Lemma render_name_cases_witness :
  render_name sample_collaborators
    (request_tagged {[ "scratch" := PyBool true ]} "myimage-latest")
  = (Raise (ValueError unpack_message),
     request_tagged {[ "scratch" := PyBool true ]} "myimage-latest") ∧
  ∃ st' T',
    render_name sample_collaborators (request_with ∅) = (Ok tt, st') ∧
    doc_of sample_collaborators st' = Some T' ∧
    get_path ["metadata"; "name"] T' = Ok (PyStr "reponame-master").
Proof.
  split.
  - apply (proj2 (render_name_cases sample_collaborators
                    (request_tagged {[ "scratch" := PyBool true ]} "myimage-latest"))).
    + left. vm_compute. reflexivity.
    + vm_compute. lia.
  - pose proof (proj1 (render_name_cases sample_collaborators (request_with ∅)))
      as H.
    apply (H ltac:(vm_compute; reflexivity) ltac:(vm_compute; reflexivity)
             sample_template sample_metadata);
      vm_compute; reflexivity.
Defined.

Section SourceName.
Variable E : Collaborators.

(** X7: [SourceBuildRequest.render_name] names a source build after the last
    two dash-separated parts of its image tag, sources-<salt>-<timestamp>,
    with scratch- in front for a scratch build; a tag with fewer than two
    dashes raises ValueError before the template is read. *)
Theorem source_render_name st :
  let tag := BuildUserParams.image_tag (user_params st) in
  ((count_char dash tag < 2)%nat →
   SourceBuildRequest_render_name E st = (Raise (ValueError unpack_message), st)) ∧
  ((2 ≤ count_char dash tag)%nat →
   ∃ head salt timestamp,
     tag = head ++ "-" ++ salt ++ "-" ++ timestamp ∧
     free_of dash salt = true ∧ free_of dash timestamp = true ∧
     ∀ T md, doc_of E st = Some T → lookup_in "metadata" T = Some (PyDict md) →
       let name := (if truthy (scratch st) then "scratch-" else "")
                   ++ "sources-" ++ salt ++ "-" ++ timestamp in
       ∃ st' T', SourceBuildRequest_render_name E st = (Ok tt, st') ∧
                 doc_of E st' = Some T' ∧
                 get_path ["metadata"; "name"] T' = Ok (PyStr name)).
Proof.
  intros tag. split.
  - intros Hc. unfold SourceBuildRequest_render_name. rewrite get_bind. fold tag.
    destruct (rsplit_short dash tag Hc) as [-> | (h & t & ->)]; done.
  - intros Hc. destruct (rsplit_long dash tag Hc) as (head & salt & ts & Hr & Htag & Hs & Ht).
    exists head, salt, ts. split; [exact Htag |]. split; [done |]. split; [done |].
    intros T md HT Hmd name.
    unfold SourceBuildRequest_render_name. rewrite get_bind. fold tag. rewrite Hr.
    cbv zeta. rewrite get_bind.
    assert (Hg : get_path ["metadata"] T = Ok (PyDict md)).
    { destruct T; try done. simpl in *. by rewrite Hmd. }
    assert (Hname : (if truthy (scratch st)
                     then "scratch-" ++ "sources-" ++ salt ++ "-" ++ ts
                     else "sources-" ++ salt ++ "-" ++ ts) = name).
    { subst name. by destruct (truthy (scratch st)). }
    rewrite Hname.
    destruct (on_template_at_path E ["metadata"] (setitem "name" (PyStr name)) st T _ _
                ltac:(done) HT Hg eq_refl) as (T' & Hrun & Hdoc & _ & Hg').
    exists (assign__template T' (loaded E st)), T'.
    split; [exact Hrun |]. split; [exact Hdoc |].
    change ["metadata"; "name"] with (["metadata"] ++ ["name"])%list.
    rewrite get_path_app, Hg'. simpl. by rewrite lookup_insert_eq.
Qed.
End SourceName.

(** The tag of the sample build, as a source build and as a scratch
    source build, and a tag that is too short. *)
Lemma source_render_name_witness :
  (∃ st' T',
     SourceBuildRequest_render_name sample_collaborators (request_with ∅) = (Ok tt, st') ∧
     doc_of sample_collaborators st' = Some T' ∧
     get_path ["metadata"; "name"] T' = Ok (PyStr "sources-abc123-20200101000000")) ∧
  SourceBuildRequest_render_name sample_collaborators
    (request_tagged ∅ "myimage-latest")
  = (Raise (ValueError unpack_message), request_tagged ∅ "myimage-latest").
Proof.
  split.
  - destruct (proj2 (source_render_name sample_collaborators (request_with ∅)))
      as (head & salt & ts & Htag & Hs & Ht & H); [vm_compute; lia |].
    destruct (H sample_template sample_metadata)
      as (st' & T' & H1 & H2 & H3); [vm_compute; reflexivity | vm_compute; reflexivity |].
    exists st', T'. split; [exact H1 | split; [exact H2 |]].
    rewrite H3. f_equal. f_equal.
    assert (Hr : rsplit dash 2 "myimage-abc123-20200101000000"
                 = [head; salt; ts]).
    { change (BuildUserParams.image_tag (user_params (request_with ∅)))
        with "myimage-abc123-20200101000000" in Htag.
      rewrite Htag. apply rsplit_salt_timestamp; assumption. }
    vm_compute in Hr. injection Hr as <- <- <-. reflexivity.
  - apply (proj1 (source_render_name sample_collaborators
                    (request_tagged ∅ "myimage-latest"))).
    vm_compute. lia.
Defined.

(** *** The custom base image *)

Lemma prefix_inv p s : String.prefix p s = true → ∃ r, s = p ++ r.
Proof.
  revert s. induction p as [| a p IH]; intros s.
  - intros _. by exists s.
  - destruct s as [| b s]; [done |]. simpl.
    destruct (ascii_dec a b) as [<- | Hne]; [| done].
    intros [r ->]%IH. by exists r.
Qed.

Lemma prefix_append p r : String.prefix p (p ++ r) = true.
Proof.
  induction p as [| a p IH]; [by destruct r |].
  rewrite append_cons. simpl. by destruct (ascii_dec a a).
Qed.

Lemma append_nil_r (s : string) : s ++ "" = s.
Proof. induction s as [| a s IH]; [done | by rewrite append_cons, IH]. Qed.

Lemma dot_star_end_one_line r : dot_star_end r = true ↔ one_line r.
Proof.
  unfold one_line, line_end. induction r as [| c r IH].
  - split; [by left | done].
  - simpl. destruct (Ascii.eqb_spec c newline) as [-> | Hne].
    + split.
      * intros ->%String.eqb_eq. right. by exists "".
      * intros [Hf | (t & Ht & Hf)].
        { simpl in Hf. rewrite ?Ascii.eqb_refl in Hf. done. }
        destruct t as [| a t].
        { injection Ht as ->. done. }
        rewrite append_cons in Ht. injection Ht as <- _.
        simpl in Hf. rewrite ?Ascii.eqb_refl in Hf. done.
    + apply Ascii.eqb_neq in Hne. rewrite IH.
      split.
      * intros [Hf | (t & -> & Hf)]; [by left |].
        right. exists (String c t). split; [done |]. simpl. by rewrite Hne.
      * intros [Hf | (t & Ht & Hf)]; [by left |].
        destruct t as [| a t].
        { injection Ht as -> _. by rewrite Ascii.eqb_refl in Hne. }
        rewrite append_cons in Ht. injection Ht as <- ->.
        simpl in Hf. rewrite Hne in Hf. right. by exists t.
Qed.

(** The pattern of [is_custom_base_image] accepts the marker, the marker
    and a line end, and the marker, a colon and one line; nothing else. *)
Lemma custom_base_image_match_iff s :
  custom_base_image_match s = true ↔
  s = custom_marker ∨ s = custom_marker ++ line_end ∨
  ∃ tag, s = custom_marker ++ ":" ++ tag ∧ one_line tag.
Proof.
  unfold custom_base_image_match, startswith. fold custom_marker.
  assert (Hsub : ∀ r, String.substring (String.length custom_marker)
                        (String.length (custom_marker ++ r)
                         - String.length custom_marker) (custom_marker ++ r) = r).
  { intros r. rewrite length_append.
    replace (String.length custom_marker + String.length r
             - String.length custom_marker)%nat with (String.length r) by lia.
    apply substring_append_r. }
  assert (Hinj : ∀ r r', custom_marker ++ r = custom_marker ++ r' → r = r').
  { intros r r' H. by injection H. }
  split.
  - intros [Hp Hm]%andb_true_iff. apply prefix_inv in Hp as [r ->].
    rewrite Hsub in Hm. destruct r as [| c r].
    + left. apply append_nil_r.
    + apply orb_true_iff in Hm as [[Hc Hr]%andb_true_iff | [Hc Hr]%andb_true_iff].
      * apply Ascii.eqb_eq in Hc as ->. apply String.eqb_eq in Hr as ->.
        right; by left.
      * apply Ascii.eqb_eq in Hc as ->. apply dot_star_end_one_line in Hr.
        right; right. by exists r.
  - intros [-> | [-> | (tag & -> & Ht)]].
    + done.
    + done.
    + rewrite prefix_append, Hsub. apply dot_star_end_one_line in Ht.
      change (":" ++ tag) with (String ":" tag). cbn [andb]. rewrite Ht.
      apply orb_true_r.
Qed.

(** X8: [is_custom_base_image] is False without a base image, and for a base
    image that is a string it is True for the custom-base-image marker,
    alone, with a line end or with a colon and a one-line tag, and for
    nothing else; such an image is never the one [is_from_scratch_image]
    accepts, and neither method changes the builder. *)
Theorem is_custom_base_image_iff st :
  (truthy (base_image st) = false → is_custom_base_image st = (Ok false, st)) ∧
  (∀ s, base_image st = PyStr s →
     ∃ b, is_custom_base_image st = (Ok b, st) ∧
          (b = true ↔
           s = custom_marker ∨ s = custom_marker ++ line_end ∨
           ∃ tag, s = custom_marker ++ ":" ++ tag ∧ one_line tag) ∧
          is_from_scratch_image st = (Ok (s =? "scratch"), st) ∧
          (b = true → (s =? "scratch") = false)).
Proof.
  split.
  - intros Hb. unfold is_custom_base_image. by rewrite get_bind, Hb.
  - intros s Hs. exists (custom_base_image_match s). split; [| split; [| split]].
    + unfold is_custom_base_image. rewrite get_bind, Hs. simpl.
      by destruct (String.eqb_spec s "") as [-> | _].
    + apply custom_base_image_match_iff.
    + unfold is_from_scratch_image. by rewrite get_bind, Hs.
    + intros Hm. apply String.eqb_neq. by intros ->.
Qed.

(** The marker with a tag, an image of another repository, and no base
    image at all. *)
Lemma is_custom_base_image_iff_witness :
  is_custom_base_image (request_from "koji/image-build:rhel8")
  = (Ok true, request_from "koji/image-build:rhel8") ∧
  is_custom_base_image (request_from "koji/image-builder")
  = (Ok false, request_from "koji/image-builder") ∧
  is_custom_base_image (request_with ∅) = (Ok false, request_with ∅).
Proof.
  split; [| split].
  - destruct (proj2 (is_custom_base_image_iff (request_from "koji/image-build:rhel8"))
                "koji/image-build:rhel8" ltac:(vm_compute; reflexivity))
      as (b & Hrun & Hb & _).
    rewrite Hrun. f_equal. f_equal. apply Hb.
    right; right. exists "rhel8". split; [reflexivity | left; reflexivity].
  - destruct (proj2 (is_custom_base_image_iff (request_from "koji/image-builder"))
                "koji/image-builder" ltac:(vm_compute; reflexivity))
      as (b & Hrun & Hb & _).
    rewrite Hrun. f_equal. f_equal. destruct b; [| reflexivity].
    destruct (proj1 Hb eq_refl) as [H | [H | (tag & H & _)]]; discriminate H.
  - apply (proj1 (is_custom_base_image_iff (request_with ∅))).
    vm_compute. reflexivity.
Defined.

(** *** The reactor configuration *)

Lemma truthy_PyDict (d : dict) : truthy (PyDict d) = true ↔ d ≠ ∅.
Proof.
  simpl. rewrite <- map_to_list_empty_iff. by destruct (map_to_list d).
Qed.

Lemma truthy_PyDict_false (d : dict) : truthy (PyDict d) = false ↔ d = ∅.
Proof.
  simpl. rewrite <- map_to_list_empty_iff. by destruct (map_to_list d).
Qed.

Section ReactorConfigSource.
Variable E : Collaborators.

End ReactorConfigSource.


(** *** Flatpak builds *)

Section Flatpak.
Variable E : Collaborators.

Lemma keeps_params__set_flatpak u data :
  BuildUserParams.flatpak u = false →
  inv (λ st, user_params st = u) (_set_flatpak data).
Proof.
  intros Hf st r st' <-. unfold _set_flatpak. rewrite get_bind, Hf.
  by intros [= <- <-].
Qed.

(** The reactor configuration is a part of the user parameters or of
    nothing in the builder. *)
Lemma config_value_ext o st st' :
  user_params st' = user_params st → config_value o st' = config_value o st.
Proof. intros H. destruct o; [| done]. simpl. by rewrite H. Qed.

(** What [set_required_secrets] leaves of the reactor configuration: all
    of it, or all but the list it has extended in place. *)
Lemma set_required_secrets_config o st o' st' :
  set_required_secrets E o st = (Ok o', st') →
  config_value o' st' = config_value o st ∨
  ∃ x ext,
    config_value o st !! "required_secrets" = Some x ∧
    config_value o' st' = <["required_secrets" := ext]> (config_value o st).
Proof.
  unfold set_required_secrets. rewrite !get_bind.
  set (data := config_value o st).
  assert (Hkeeps : ∀ rs o1 s1 u s2,
    _set_required_secrets E rs s1 = (Ok u, s2) →
    config_value o1 s2 = config_value o1 s1).
  { intros rs o1 s1 u s2 Hm. apply config_value_ext.
    apply (keeps_params__set_required_secrets E _ rs s1 _ s2 eq_refl Hm). }
  case_bool_decide as Ho.
  - intros H. apply bind_Ok in H as (ext & s1 & Hext & H).
    unfold lift in Hext. injection Hext as Hext <-.
    apply bind_Ok in H as (o1 & s2 & Hch & H).
    apply bind_Ok in H as (u & s3 & Hm & H). injection H as <- <-.
    rewrite (Hkeeps _ _ _ _ _ Hm).
    destruct (data !! "required_secrets") as [rs |] eqn:Hrs;
      [| injection Hch as <- <-; by left].
    destruct rs as [| | | | l |]; try (injection Hch as <- <-; by left).
    right. exists (PyList l), ext. split; [done |].
    destruct o as [| d].
    + unfold config_changed in Hch. rewrite get_bind in Hch.
      apply bind_Ok in Hch as (? & ? & Hmod & Hch).
      injection Hmod as _ <-. by injection Hch as <- <-.
    + by injection Hch as <- <-.
  - intros H. apply bind_Ok in H as (u & s3 & Hm & H). injection H as <- <-.
    left. by apply (Hkeeps _ _ _ _ _ Hm).
Qed.

(** The reactor configuration after [set_required_secrets] has the
    entries it had under the other keys, and is empty when it was. *)
Lemma set_required_secrets_other o st o' st' :
  set_required_secrets E o st = (Ok o', st') →
  (∀ k, k ≠ "required_secrets" →
        config_value o' st' !! k = config_value o st !! k) ∧
  truthy (PyDict (config_value o' st')) = truthy (PyDict (config_value o st)).
Proof.
  intros H.
  destruct (set_required_secrets_config _ _ _ _ H) as [-> | (x & ext & Hx & ->)];
    [done |].
  split; [intros k Hk; by rewrite lookup_insert_ne |].
  assert (H1 : <["required_secrets" := ext]> (config_value o st) ≠ ∅)
    by apply insert_non_empty.
  assert (H2 : config_value o st ≠ ∅).
  { intros He. by rewrite He, lookup_empty in Hx. }
  apply truthy_PyDict in H1, H2. by rewrite H1, H2.
Qed.

(** Unless it is given the override of the user parameters in an
    orchestrator build, [set_required_secrets] leaves the user parameters
    as they are. *)
Lemma keeps_params_set_required_secrets u o :
  (o = the_override →
   BuildUserParams.build_type u ≠ Some (BUILD_TYPE_ORCHESTRATOR E)) →
  inv (λ st, user_params st = u) (set_required_secrets E o).
Proof.
  intros Hno st r st' Hup H. unfold set_required_secrets in H.
  rewrite !get_bind in H. rewrite Hup in H.
  destruct o as [| d].
  - specialize (Hno eq_refl). rewrite bool_decide_eq_false_2 in H by done.
    carry_attr H Hup. done.
  - cbn [config_changed] in H. carry_attr H Hup. done.
Qed.

Lemma keeps_params_set_data_from_reactor_config u o :
  BuildUserParams.flatpak u = false →
  (o = the_override →
   BuildUserParams.build_type u ≠ Some (BUILD_TYPE_ORCHESTRATOR E)) →
  inv (λ st, user_params st = u) (set_data_from_reactor_config E o).
Proof.
  intros Hf Hno.
  unfold set_data_from_reactor_config, set_source_registry,
    set_registry_organization.
  attr_walk_with ltac:(first
    [ by apply keeps_params__set_flatpak
    | by apply keeps_params_set_required_secrets
    | solve [auto with attrs nocore] ]).
Qed.

Lemma set_data_from_reactor_config_empty st :
  set_data_from_reactor_config E (own_dict ∅) st
  = (if BuildUserParams.flatpak (user_params st)
     then Raise (OsbsValidationException flatpak_message)
     else Ok (own_dict ∅), st).
Proof.
  unfold set_data_from_reactor_config, set_source_registry,
    set_registry_organization, set_required_secrets, _set_required_secrets.
  unfold mbind, M_bind, mret, M_ret, get, lift, raise.
  cbn [config_value]. rewrite !lookup_empty. cbn [default list_iadd app].
  case_bool_decide; cbn; rewrite map_to_list_empty; cbn;
    by destruct (BuildUserParams.flatpak (user_params st)).
Qed.

End Flatpak.


(** *** Triggers *)

Lemma any_ist_trigger_exists l :
  Forall (λ t, ist_trigger t ≠ None) l →
  ∃ b, any_ist_trigger l = Ok b ∧
       (b = true ↔ ∃ t, t ∈ l ∧ ist_trigger t = Some true).
Proof.
  induction 1 as [| t l Ht Hl (b & Hb & IH)].
  - exists false. split; [done |]. split; [done |].
    intros (t & Ht & _). by apply elem_of_nil in Ht.
  - unfold ist_trigger in Ht. cbn -[get_path].
    assert (Hrest : ∀ b0, ist_trigger t = Some b0 →
              (b0 || b = true ↔ ∃ t0, t0 ∈ t :: l ∧ ist_trigger t0 = Some true)).
    { intros b0 Hb0. rewrite orb_true_iff, IH. split.
      - intros [-> | (t0 & Hin & H0)].
        + exists t. split; [by left | done].
        + exists t0. split; [by right | done].
      - intros (t0 & [-> | Hin]%elem_of_cons & H0).
        + left. congruence.
        + right. by exists t0. }
    unfold ist_trigger in Hrest.
    destruct (getitem "type" t) as [ty |]; [| done]. cbn -[get_path].
    destruct (eq_str ty "ImageChange").
    + destruct (get_path ["imageChange"; "from"; "kind"] t) as [kind |]; [| done].
      cbn -[get_path]. destruct (eq_str kind "ImageStreamTag").
      * exists true. split; [done |]. apply (Hrest true eq_refl).
      * exists b. split; [done |]. apply (Hrest false eq_refl).
    + exists b. split; [done |]. apply (Hrest false eq_refl).
Qed.

Section IstTrigger.
Variable E : Collaborators.

(** X11: [has_ist_trigger] is False for a template without triggers and, for
    a list of triggers that have the entries it reads, True exactly when
    one of them is an ImageChange trigger from an ImageStreamTag; it
    leaves the document as it is. *)
Theorem has_ist_trigger_exists st T spec :
  doc_of E st = Some T →
  lookup_in "spec" T = Some (PyDict spec) →
  (spec !! "triggers" = None → has_ist_trigger E st = (Ok false, loaded E st)) ∧
  (∀ l, spec !! "triggers" = Some (PyList l) →
        Forall (λ t, ist_trigger t ≠ None) l →
        ∃ b, has_ist_trigger E st = (Ok b, loaded E st) ∧
             (b = true ↔ ∃ t, t ∈ l ∧ ist_trigger t = Some true)) ∧
  doc_of E (loaded E st) = Some T.
Proof.
  intros HT Hspec. destruct T as [| | | | | m]; try done. simpl in Hspec.
  pose proof (read_template_Some E
                (λ t, spec ← getitem "spec" t; dict_get "triggers" (PyList []) spec)
                st _ HT) as Hr.
  cbn [getitem] in Hr. rewrite Hspec in Hr. cbn [mbind result_bind dict_get] in Hr.
  split; [| split; [| by rewrite doc_of_loaded]].
  - intros Hn. rewrite Hn in Hr. unfold has_ist_trigger.
    by rewrite (bind_run _ _ _ _ _ Hr).
  - intros l Hl Hwf. rewrite Hl in Hr. unfold has_ist_trigger.
    rewrite (bind_run _ _ _ _ _ Hr).
    change (default (PyList []) (Some (PyList l))) with (PyList l).
    destruct (any_ist_trigger_exists l Hwf) as (b & Hb & Hiff).
    destruct l as [| t l].
    + exists false. split; [done |]. simpl in Hb. injection Hb as <-. exact Hiff.
    + exists b. split; [| done]. cbn [truthy negb]. unfold lift. by rewrite Hb.
Qed.
End IstTrigger.

(** The trigger of the sample template is one. *)
Lemma has_ist_trigger_exists_witness :
  has_ist_trigger sample_collaborators (request_with ∅)
  = (Ok true, loaded sample_collaborators (request_with ∅)).
Proof.
  destruct (has_ist_trigger_exists sample_collaborators (request_with ∅)
              sample_template sample_spec)
    as (_ & H & _); [vm_compute; reflexivity | vm_compute; reflexivity |].
  destruct (H [ PyDict {[ "type" := PyStr "ImageChange";
                          "imageChange" := PyDict {[ "from" :=
                             PyDict {[ "kind" := PyStr "ImageStreamTag";
                                       "name" := PyStr "{{STREAM}}" ]} ]} ]} ])
    as (b & Hrun & Hb).
  - vm_compute. reflexivity.
  - constructor; [| constructor]. vm_compute. discriminate.
  - rewrite Hrun. f_equal. f_equal. apply Hb. eexists. split.
    + apply elem_of_cons. left. reflexivity.
    + vm_compute. reflexivity.
Defined.

(** *** The repository configuration *)

Section RepoInfoCases.
Variable E : Collaborators.

(** X12: [adjust_for_repo_info], after [set_repo_info]: without repository
    information nothing happens; with autorebuilds switched off in the
    repository the triggers are removed and the rest of spec stays; with
    autorebuilds on, a release label in the Dockerfile is refused with
    RuntimeError unless add_timestamp_to_release is set, and the document
    is not touched. *)
Theorem adjust_for_repo_info_cases st T spec repo_info :
  doc_of E st = Some T →
  lookup_in "spec" T = Some (PyDict spec) →
  let adjust := set_repo_info repo_info;; adjust_for_repo_info E in
  let st0 := assign__repo_info repo_info st in
  (repo_info = None → adjust st = (Ok tt, st0)) ∧
  (∀ ri, repo_info = Some ri → is_autorebuild_enabled ri = false →
     ∃ st' T', adjust st = (Ok tt, st') ∧ doc_of E st' = Some T' ∧
               triggers_of T' = None ∧
               ∀ k, k ≠ "triggers" → spec_of k T' = spec_of k T) ∧
  (∀ ri, repo_info = Some ri → is_autorebuild_enabled ri = true →
     adjust st
     = (if truthy (add_timestamp_to_release ri) then Ok tt
        else if has_release_label ri
             then Raise (RuntimeError release_label_message)
             else Ok tt, st0)).
Proof.
  intros HT Hspec adjust st0.
  assert (Hrun : ∀ r, adjust_for_repo_info E st0 = r → adjust st = r) by done.
  assert (HT0 : doc_of E st0 = Some T) by (rewrite <- HT; by apply doc_of_ext).
  split; [| split].
  - intros ->. by apply Hrun.
  - intros ri -> Hoff. destruct T as [| | | | | m]; try done. simpl in Hspec.
    set (T' := PyDict (<["spec" := PyDict (delete "triggers" spec)]> m)).
    assert (Hf : at_key "spec" (dict_pop "triggers") (PyDict m) = Ok T')
      by by apply (at_key_run "spec" _ m (PyDict spec)).
    destruct (on_template_run E _ _ _ _ HT0 Hf) as [Hpop Hdoc]; [done |].
    eexists _, T'. split; [| split; [exact Hdoc |]].
    + apply Hrun. unfold adjust_for_repo_info. rewrite get_bind.
      change (_repo_info st0) with (Some ri). cbv beta iota. by rewrite Hoff.
    + subst T'. split.
      * unfold triggers_of. rewrite spec_of_insert_spec. simpl. apply lookup_delete_eq.
      * intros k Hk. rewrite spec_of_insert_spec. unfold spec_of. simpl.
        rewrite Hspec. simpl. by rewrite lookup_delete_ne.
  - intros ri -> Hon. apply Hrun. unfold adjust_for_repo_info. rewrite get_bind.
    change (_repo_info st0) with (Some ri). cbv beta iota. rewrite Hon. cbn [negb].
    destruct (truthy (add_timestamp_to_release ri)); [done |].
    by destruct (has_release_label ri).
Qed.
End RepoInfoCases.

(** The sample build for a repository without autorebuilds, and for one
    with autorebuilds and a release label. *)
Lemma adjust_for_repo_info_cases_witness :
  (∃ st' T',
     (set_repo_info (Some no_autorebuild);; adjust_for_repo_info sample_collaborators)
       (request_with ∅) = (Ok tt, st') ∧
     doc_of sample_collaborators st' = Some T' ∧ triggers_of T' = None) ∧
  (set_repo_info (Some autorebuild_with_release);;
   adjust_for_repo_info sample_collaborators) (request_with ∅)
  = (Raise (RuntimeError release_label_message),
     assign__repo_info (Some autorebuild_with_release) (request_with ∅)).
Proof.
  split.
  - destruct (adjust_for_repo_info_cases sample_collaborators (request_with ∅)
                sample_template sample_spec (Some no_autorebuild))
      as (_ & H & _); [vm_compute; reflexivity | vm_compute; reflexivity |].
    destruct (H no_autorebuild eq_refl eq_refl) as (st' & T' & H1 & H2 & H3 & _).
    by exists st', T'.
  - destruct (adjust_for_repo_info_cases sample_collaborators (request_with ∅)
                sample_template sample_spec (Some autorebuild_with_release))
      as (_ & _ & H); [vm_compute; reflexivity | vm_compute; reflexivity |].
    exact (H autorebuild_with_release eq_refl eq_refl).
Defined.

(** *** Token secrets *)

Section TokenSecrets.
Variable E : Collaborators.

Lemma _set_required_secrets_nil st :
  _set_required_secrets E (PyList []) st = (Ok tt, st).
Proof. reflexivity. Qed.

End TokenSecrets.


(** ** Rendering, from end to end *)

Lemma rsplit_three c s h a b :
  rsplit c 2 s = [h; a; b] →
  s = h ++ String c a ++ String c b ∧ free_of c a = true ∧ free_of c b = true.
Proof.
  intros Hr. destruct (le_lt_dec 2 (count_char c s)) as [Hc | Hc].
  - destruct (rsplit_long c s Hc) as (h' & a' & b' & Hr' & Hs & Ha & Hb).
    rewrite Hr in Hr'. by injection Hr' as <- <- <-.
  - destruct (rsplit_short c s Hc) as [Hr' | (h' & t' & Hr')];
      rewrite Hr in Hr'; discriminate Hr'.
Qed.

Lemma reads_label k x T :
  reads_at ["metadata"; "labels"; k] x T → label_of k T = Some x.
Proof.
  unfold reads_at, label_of. destruct T as [| | | | | m]; try done. simpl.
  destruct (m !! "metadata") as [[| | | | | md] |]; try done. simpl.
  destruct (md !! "labels") as [[| | | | | ls] |]; try done. simpl.
  destruct (ls !! k); [| done]. by intros [= ->].
Qed.

Section Backward.
Variable E : Collaborators.

Lemma template_Ok_template st T st1 :
  template E st = (Ok T, st1) → _template st1 = T.
Proof.
  unfold template. destruct (_template st) eqn:Ht; try (by intros [= <- <-]).
  destruct (open_read E _); [done |]. destruct (json_load E _); [| done].
  by intros [= <- <-].
Qed.

Lemma returns_build_json_tail :
  returns_build_json (t ← template E; modify (assign_build_json t);; get build_json).
Proof.
  intros st doc st' H. apply bind_Ok in H as (T & s1 & Ht & H).
  apply template_Ok_template in Ht. injection H as <- <-. done.
Qed.

Lemma returns_build_json_bind {A} (m : M A) (f : A → M pyval) :
  (∀ a, returns_build_json (f a)) → returns_build_json (m ≫= f).
Proof.
  intros Hf st doc st' H. apply bind_Ok in H as (a & st1 & _ & H). by eapply Hf.
Qed.

Lemma render_returns_build_json validate : returns_build_json (render E validate).
Proof.
  unfold render.
  repeat first [ apply returns_build_json_tail
               | apply returns_build_json_bind; intros ? ].
Qed.

(** What [render_name] has put in metadata.name when it returns. *)
Lemma render_name_Ok st u st' :
  render_name E st = (Ok u, st') →
  ∃ n, doc_holds E (reads_at ["metadata"; "name"] n) st' ∧
       if truthy (scratch st) || truthy (isolated st)
       then ∃ head salt timestamp,
              rsplit dash 2 (stripped_tag st) = [head; salt; timestamp] ∧
              n = variation_name st salt timestamp
       else n = BuildUserParams.name (user_params st).
Proof.
  unfold render_name. rewrite !get_bind. fold (stripped_tag st). intros H.
  apply bind_Ok in H as (n & s1 & Hn & H).
  exists n. split.
  - by apply (on_template_sets E ["metadata"] "name") in H.
  - destruct (truthy (scratch st) || truthy (isolated st)) eqn:Hv.
    + destruct (rsplit dash 2 (stripped_tag st)) as [| h [| s [| t [| ? ?]]]];
        try done.
      exists h, s, t. split; [done |]. unfold variation_name.
      destruct (truthy (scratch st)); [by injection Hn as <- _ |].
      simpl in Hv. rewrite Hv in Hn. by injection Hn as <- _.
    + by injection Hn as <- _.
Qed.

(** What [set_label] has put in the label when it returns. *)
Lemma set_label_Ok name value st u st' :
  set_label E name value st = (Ok u, st') →
  doc_holds E (reads_at ["metadata"; "labels"; name] (label_value E value)) st'.
Proof.
  unfold set_label. intros H. apply bind_Ok in H as (a & s1 & _ & H).
  by apply (on_template_sets E ["metadata"; "labels"] name) in H.
Qed.

Lemma reactor_config_entry_None up :
  negb (truthy_str (BuildUserParams.reactor_config_map up))
  && negb (truthy (of_opt_dict (BuildUserParams.reactor_config_override up))) = true →
  reactor_config_entry E up = None.
Proof.
  intros [Hm Ho]%andb_true_iff. apply negb_true_iff in Hm, Ho.
  unfold reactor_config_entry. by rewrite Ho, Hm.
Qed.

(** The env list after [set_reactor_config], after [render_user_params]
    and after [delete_atomic_reactor_placeholder]. *)
Lemma set_reactor_config_Ok st u st' env :
  set_reactor_config E st = (Ok u, st') →
  doc_holds E (reads_at env_path (PyList env)) st →
  doc_holds E (reads_at env_path
                 (PyList (env ++ match reactor_config_entry E (user_params st) with
                                 | Some e => [e]
                                 | None => []
                                 end))) st'.
Proof.
  unfold set_reactor_config. rewrite get_bind. intros H Hd.
  destruct (negb _ && negb _) eqn:Hnone.
  - rewrite (reactor_config_entry_None _ Hnone), app_nil_r. by injection H as _ <-.
  - apply bind_Ok in H as (a & s1 & Hm & H).
    assert (Hd1 : doc_holds E (reads_at env_path (PyList env)) s1).
    { revert Hm. apply (pres_read_template E _ _ (stable_doc_holds E _) _ _ _ Hd). }
    destruct (reactor_config_entry E (user_params st)) as [e |].
    + destruct (on_template_updates E env_path (list_append e) (PyList env)
                  s1 u st' ltac:(done) H Hd1) as (x' & Hx' & Hd').
      by injection Hx' as <-.
    + rewrite app_nil_r. by injection H as _ <-.
Qed.

Lemma render_user_params_Ok st u st' env :
  render_user_params E st = (Ok u, st') →
  doc_holds E (reads_at env_path (PyList env)) st →
  doc_holds E (reads_at env_path
                 (PyList (env ++ [user_params_entry E (user_params st)]))) st'.
Proof.
  unfold render_user_params. rewrite get_bind. intros H Hd.
  destruct (on_template_updates E env_path _ (PyList env)
              st u st' ltac:(done) H Hd) as (x' & Hx' & Hd').
  by injection Hx' as <-.
Qed.

Lemma delete_atomic_reactor_placeholder_Ok st u st' env :
  delete_atomic_reactor_placeholder E st = (Ok u, st') →
  doc_holds E (reads_at env_path (PyList env)) st →
  ∃ env', delete_first_placeholder env = Ok env' ∧
          doc_holds E (reads_at env_path (PyList env')) st'.
Proof.
  unfold delete_atomic_reactor_placeholder. intros H Hd.
  erewrite on_template_ext in H;
    [| intros T0; symmetry; apply (at_path_snoc custom_strategy_path "env")].
  destruct (on_template_updates E env_path _ (PyList env)
              st u st' ltac:(done) H Hd) as (x' & Hx' & Hd').
  simpl in Hx'. destruct (delete_first_placeholder env) as [env' |]; [| done].
  injection Hx' as <-. by exists env'.
Qed.
Lemma reactor_config_entry_named up e :
  reactor_config_entry E up = Some e → is_placeholder e = Some false.
Proof.
  unfold reactor_config_entry.
  destruct (truthy (of_opt_dict _)); [by intros [= <-] |].
  destruct (truthy_str _); [by intros [= <-] | done].
Qed.

Lemma rendered_entries_named up :
  Forall (λ e, is_placeholder e = Some false) (rendered_entries E up).
Proof.
  unfold rendered_entries. apply Forall_app. split; [| by repeat constructor].
  destruct (reactor_config_entry E up) as [e |] eqn:He; [| constructor].
  constructor; [by eapply reactor_config_entry_named | constructor].
Qed.

Lemma template_Ok_doc st T st1 :
  template E st = (Ok T, st1) → doc_of E st1 = Some T.
Proof.
  intros H. assert (Hd : doc_of E st = Some T) by (unfold doc_of; by rewrite H).
  rewrite (template_Some E _ _ Hd) in H. injection H as <-.
  by rewrite doc_of_loaded.
Qed.
End Backward.

Section Rendered.
Variable E : Collaborators.

(** X14: [BuildRequestV2.render] puts the image tag in spec.output.to.name and
    the git URI and ref in spec.source.git, as the user parameters have
    them when [render] is called. *)
Theorem render_output_and_source validate st doc st' :
  render E validate st = (Ok doc, st') →
  let up := user_params st in
  get_path ["spec"; "output"; "to"; "name"] doc
  = Ok (PyStr (BuildUserParams.image_tag up)) ∧
  get_path ["spec"; "source"; "git"; "uri"] doc
  = Ok (of_opt_str (BuildUserParams.git_uri up)) ∧
  get_path ["spec"; "source"; "git"; "ref"] doc = Ok (BuildUserParams.git_ref up).
Proof.
  intros H up. pose proof (render_returns_doc E _ _ _ _ H) as Hdoc.
  unfold render in H. apply bind_Ok in H as (d & s1 & Hbase & H).
  assert (Hg : params_given st = params_given st) by done.
  revert Hg. generalize (params_given st) at 2. intros c Hg.
  assert (Hc : BuildUserParams.git_uri c = BuildUserParams.git_uri up ∧
               BuildUserParams.git_ref c = BuildUserParams.git_ref up).
  { by rewrite <- Hg. }
  split; [| split].
  - clear Hg Hc c. unfold BaseBuildRequest_render in Hbase. rewrite get_bind in Hbase.
    destruct (osbs_api st); [| done].
    assert (Hup : user_params st = up) by done. clearbody up.
    apply bind_Ok in Hbase as (a1 & sa & Hm & Hbase). carry_attr Hm Hup. clear Hm.
    apply bind_Ok in Hbase as (a2 & sb & Hm & Hbase). carry_attr Hm Hup. clear Hm.
    apply bind_Ok in Hbase as (a3 & sc & Hm & Hbase).
    unfold render_output_name in Hm. rewrite get_bind, Hup in Hm.
    apply on_template_sets in Hm. cbn [app] in Hm.
    carry_doc Hbase Hm. carry_doc H Hm.
    by apply (doc_holds_returned E _ _ _ Hm).
  - carry_attr Hbase Hg. rewrite get_bind in H.
    apply bind_Ok in H as (a1 & sa & Hm & H).
    apply on_template_sets in Hm. cbn [app] in Hm.
    carry_doc H Hm. apply (doc_holds_returned E _ _ _ Hm) in Hdoc.
    unfold reads_at in Hdoc. rewrite Hdoc. f_equal. f_equal.
    rewrite <- (proj1 Hc), <- Hg. done.
  - carry_attr Hbase Hg. rewrite get_bind in H.
    apply bind_Ok in H as (a1 & sa & _ & H).
    apply bind_Ok in H as (a2 & sb & Hm & H).
    apply on_template_sets in Hm. cbn [app] in Hm.
    carry_doc H Hm. apply (doc_holds_returned E _ _ _ Hm) in Hdoc.
    unfold reads_at in Hdoc. rewrite Hdoc. f_equal.
    rewrite <- (proj2 Hc), <- Hg. done.
Qed.

(** X15: [BuildRequestV2.render] returns the document it has put in
    [build_json], which is the template of the builder.  Its
    metadata.name, which [build_id] then gives, is the name of the user
    parameters for a build that is neither scratch nor isolated.  For a
    scratch or isolated build the image tag is [<head>-<salt>-<timestamp>],
    with no dash in salt and timestamp, followed by [-<platform>] when
    there is a platform and the tag ends so, and the name is the variation
    with [-<salt>-<timestamp>]. *)
Theorem render_name_and_build_id validate st doc st' :
  render E validate st = (Ok doc, st') →
  build_json st' = doc ∧ _template st' = doc ∧
  build_id st' = (get_path ["metadata"; "name"] doc, st') ∧
  (truthy (scratch st) = false → truthy (isolated st) = false →
   get_path ["metadata"; "name"] doc = Ok (BuildUserParams.name (user_params st))) ∧
  (truthy (scratch st) = true ∨ truthy (isolated st) = true →
   ∃ head salt timestamp,
     without_platform_suffix
       (BuildUserParams.platform (user_params st))
       (BuildUserParams.image_tag (user_params st))
       (head ++ "-" ++ salt ++ "-" ++ timestamp) ∧
     free_of dash salt = true ∧ free_of dash timestamp = true ∧
     get_path ["metadata"; "name"] doc
     = Ok (PyStr ((if truthy (scratch st) then "scratch-" else "isolated-")
                  ++ salt ++ "-" ++ timestamp))).
Proof.
  intros H. pose proof (render_returns_doc E _ _ _ _ H) as Hdoc.
  destruct (render_returns_build_json E validate _ _ _ H) as [Hbj Ht].
  split; [done |]. split; [done |]. split.
  { unfold build_id. by rewrite get_bind, Hbj. }
  assert (Hname : ∃ n, get_path ["metadata"; "name"] doc = Ok n ∧
            if truthy (scratch st) || truthy (isolated st)
            then ∃ head salt timestamp,
                   rsplit dash 2 (stripped_tag st) = [head; salt; timestamp] ∧
                   n = variation_name st salt timestamp
            else n = BuildUserParams.name (user_params st)).
  { unfold render in H. apply bind_Ok in H as (d & s1 & Hbase & H).
    unfold BaseBuildRequest_render in Hbase. rewrite get_bind in Hbase.
    destruct (osbs_api st); [| done].
    apply bind_Ok in Hbase as (a1 & sa & Hm & Hbase).
    assert (sa = st) as ->.
    { destruct validate; [| by injection Hm]. rewrite get_bind in Hm.
      unfold lift in Hm. by injection Hm. }
    clear Hm. apply bind_Ok in Hbase as (a2 & sb & Hm & Hbase).
    apply render_name_Ok in Hm as (n & Hm & Hn). exists n. split; [| exact Hn].
    carry_doc Hbase Hm. carry_doc H Hm.
    by apply (doc_holds_returned E _ _ _ Hm). }
  destruct Hname as (n & Hg & Hn). split.
  - intros Hs Hi. rewrite Hs, Hi in Hn. cbn [orb] in Hn. by subst n.
  - intros Hv.
    assert (Hor : truthy (scratch st) || truthy (isolated st) = true)
      by (destruct Hv as [-> | ->]; [done | apply orb_true_r]).
    rewrite Hor in Hn. destruct Hn as (head & salt & ts & Hr & ->).
    apply rsplit_three in Hr as (Htag & Hs & Hts).
    exists head, salt, ts. split; [| done].
    pose proof (strip_platform_without
                  (BuildUserParams.platform (user_params st))
                  (BuildUserParams.image_tag (user_params st))) as Hw.
    fold (stripped_tag st) in Hw. by rewrite Htag in Hw.
Qed.

(** X16: the labels of a rendered document: the three git labels, with the
    values that [set_label] makes of the repository name, the branch and
    the URI of the user parameters; koji-task-id when there is a Koji
    task, and original-koji-task-id with it unless the build was triggered
    after another task; and scratch for a scratch build. *)
Theorem render_labels validate st doc st' :
  render E validate st = (Ok doc, st') →
  let up := user_params st in
  label_of "git-repo-name" doc
  = Some (label_value E (Some (git_repo_humanish_part_from_uri E
                                 (BuildUserParams.git_uri up)))) ∧
  label_of "git-branch" doc = Some (label_value E (BuildUserParams.git_branch up)) ∧
  label_of "git-full-repo" doc = Some (label_value E (BuildUserParams.git_uri up)) ∧
  (∀ id, BuildUserParams.koji_task_id up = Some id →
     label_of "koji-task-id" doc = Some (label_value E (Some (str_of_int id))) ∧
     (triggered_after_koji_task st = PyNone →
      label_of "original-koji-task-id" doc
      = Some (label_value E (Some (str_of_int id))))) ∧
  (truthy (scratch st) = true →
   label_of "scratch" doc = Some (label_value E (Some "true"))).
Proof.
  intros H up. pose proof (render_returns_doc E _ _ _ _ H) as Hdoc.
  unfold render in H. apply bind_Ok in H as (d & s1 & Hbase & H).
  assert (Hg : params_given st = params_given st) by done.
  revert Hg. generalize (params_given st) at 2. intros c Hg.
  assert (Hc : BuildUserParams.git_uri c = BuildUserParams.git_uri up ∧
               BuildUserParams.git_branch c = BuildUserParams.git_branch up ∧
               BuildUserParams.koji_task_id c = BuildUserParams.koji_task_id up).
  { by rewrite <- Hg. }
  destruct Hc as (Huri & Hbranch & Hkoji).
  assert (Hafter : triggered_after_koji_task st = triggered_after_koji_task st) by done.
  revert Hafter. generalize (triggered_after_koji_task st) at 2. intros after Hafter.
  split; [| split; [| split; [| split]]].
  - carry_attr Hbase Hg. rewrite get_bind in H.
    do 4 (apply bind_Ok in H as (? & ? & _ & H)).
    apply bind_Ok in H as (a1 & sa & Hm & H). apply set_label_Ok in Hm.
    carry_doc H Hm. apply (doc_holds_returned E _ _ _ Hm), reads_label in Hdoc.
    rewrite Hdoc, <- Huri, <- Hg. done.
  - carry_attr Hbase Hg. rewrite get_bind in H.
    do 5 (apply bind_Ok in H as (? & ? & _ & H)).
    apply bind_Ok in H as (a1 & sa & Hm & H). apply set_label_Ok in Hm.
    carry_doc H Hm. apply (doc_holds_returned E _ _ _ Hm), reads_label in Hdoc.
    rewrite Hdoc, <- Hbranch, <- Hg. done.
  - carry_attr Hbase Hg. rewrite get_bind in H.
    do 6 (apply bind_Ok in H as (? & ? & _ & H)).
    apply bind_Ok in H as (a1 & sa & Hm & H). apply set_label_Ok in Hm.
    carry_doc H Hm. apply (doc_holds_returned E _ _ _ Hm), reads_label in Hdoc.
    rewrite Hdoc, <- Huri, <- Hg. done.
  - intros id Hid. pose proof Hafter as Hafter0.
    carry_attr Hbase Hg. carry_attr Hbase Hafter.
    assert (Hid1 : BuildUserParams.koji_task_id (user_params s1) = Some id).
    { rewrite <- Hid, <- Hkoji, <- Hg. done. }
    rewrite get_bind in H.
    do 7 (apply bind_Ok in H as (? & ? & Hm & H); carry_attr Hm Hafter; clear Hm).
    apply bind_Ok in H as (a1 & sb & Hm & H). rewrite Hid1 in Hm.
    apply bind_Ok in Hm as (a2 & sc & Hk & Hm).
    pose proof Hk as Hk0. carry_attr Hk0 Hafter. clear Hk0.
    apply set_label_Ok in Hk. rewrite get_bind, Hafter in Hm.
    split.
    + assert (Hk' : doc_holds E (reads_at ["metadata"; "labels"; "koji-task-id"]
                                   (label_value E (Some (str_of_int id)))) sb).
      { destruct after; try (by injection Hm as _ <-).
        revert Hm. apply (λ Hi : inv _ _, Hi _ _ _ Hk).
        apply (writes_set_label E "original-koji-task-id"). done. }
      carry_doc H Hk'.
      by apply (doc_holds_returned E _ _ _ Hk'), reads_label in Hdoc.
    + intros Hnone. rewrite Hnone in Hafter0. subst after. apply set_label_Ok in Hm.
      carry_doc H Hm.
      by apply (doc_holds_returned E _ _ _ Hm), reads_label in Hdoc.
  - intros Hs. clear Hg Hafter.
    unfold BaseBuildRequest_render in Hbase. rewrite get_bind in Hbase.
    destruct (osbs_api st); [| done].
    do 5 (apply bind_Ok in Hbase as (? & ? & Hm & Hbase); carry_attr Hm Hs; clear Hm).
    apply bind_Ok in Hbase as (a1 & sb & Hm & Hbase).
    unfold adjust_for_scratch in Hm. rewrite get_bind, Hs in Hm.
    apply bind_Ok in Hm as (a2 & sc & _ & Hm). apply set_label_Ok in Hm.
    carry_doc Hbase Hm. carry_doc H Hm.
    by apply (doc_holds_returned E _ _ _ Hm), reads_label in Hdoc.
Qed.

(** X17: the env list of the custom strategy in a rendered document is the
    one of the template without its first ATOMIC_REACTOR_PLUGINS entry,
    followed by the REACTOR_CONFIG entry, when there is a reactor
    configuration, and by the USER_PARAMS entry with the user parameters
    as JSON. *)
Theorem render_env validate st T env doc st' :
  doc_of E st = Some T →
  get_path env_path T = Ok (PyList env) →
  render E validate st = (Ok doc, st') →
  let added := rendered_entries E (user_params st) in
  (∀ l1 e l2,
     env = (l1 ++ e :: l2)%list →
     Forall (λ e, is_placeholder e = Some false) l1 →
     is_placeholder e = Some true →
     get_path env_path doc = Ok (PyList (l1 ++ l2 ++ added))) ∧
  (Forall (λ e, is_placeholder e = Some false) env →
   get_path env_path doc = Ok (PyList (env ++ added))).
Proof.
  intros HT Henv H added. pose proof (render_returns_doc E _ _ _ _ H) as Hdoc.
  assert (Hd : doc_holds E (reads_at env_path (PyList env)) st) by by exists T.
  clear HT Henv.
  assert (Hfinal : ∃ env', delete_first_placeholder (env ++ added) = Ok env' ∧
                           get_path env_path doc = Ok (PyList env')).
  { unfold render in H. apply bind_Ok in H as (d & s1 & Hbase & H).
    unfold BaseBuildRequest_render in Hbase. rewrite get_bind in Hbase.
    destruct (osbs_api st); [| done].
    remember (user_params st) as up eqn:Hup. symmetry in Hup.
    unfold env_path, custom_strategy_path in Hd. cbn [app] in Hd.
    do 6 (apply bind_Ok in Hbase as (? & ? & Hm & Hbase);
          carry_attr Hm Hup; carry_doc Hm Hd; clear Hm).
    apply bind_Ok in Hbase as (? & ? & Hm & Hbase).
    pose proof Hm as Hm0. apply (set_reactor_config_Ok E _ _ _ env) in Hm; [| exact Hd].
    rewrite Hup in Hm. carry_attr Hm0 Hup. clear Hm0 Hd.
    apply bind_Ok in Hbase as (? & ? & Hm0 & Hbase).
    apply (render_user_params_Ok E _ _ _ _ Hm0) in Hm. rewrite Hup in Hm. clear Hm0.
    rewrite <- app_assoc in Hm. fold (rendered_entries E up) in Hm. fold added in Hm.
    apply bind_Ok in Hbase as (? & ? & Hm0 & Hbase).
    apply (delete_atomic_reactor_placeholder_Ok E _ _ _ _ Hm0) in Hm
      as (env' & Henv' & Hm).
    exists env'. split; [done |].
    unfold env_path, custom_strategy_path in Hm. cbn [app] in Hm.
    carry_doc Hbase Hm. carry_doc H Hm.
    by apply (doc_holds_returned E _ _ _ Hm). }
  destruct Hfinal as (env' & Henv' & Hg).
  pose proof (rendered_entries_named E (user_params st)) as Hadded. fold added in Hadded.
  split.
  - intros l1 e l2 -> Hl1 He. rewrite <- app_assoc in Henv'.
    change ((e :: l2) ++ added)%list with (e :: (l2 ++ added))%list in Henv'.
    rewrite (delete_first_placeholder_first l1 e (l2 ++ added) Hl1 He) in Henv'.
    by injection Henv' as <-.
  - intros Hall.
    rewrite (delete_first_placeholder_none (env ++ added)) in Henv'
      by (apply Forall_app; by split).
    by injection Henv' as <-.
Qed.

(** X18: a deadline above zero hours, for the type of the build, is in the
    rendered document as spec.completionDeadlineSeconds. *)
Theorem render_deadline validate st doc st' :
  render E validate st = (Ok doc, st') →
  let hours := deadline_hours E (user_params st) in
  (0 < hours)%Z →
  get_path ["spec"; "completionDeadlineSeconds"] doc = Ok (PyInt (hours * 3600)).
Proof.
  intros H hours Hh. pose proof (render_returns_doc E _ _ _ _ H) as Hdoc.
  unfold render in H. apply bind_Ok in H as (d & s1 & Hbase & H).
  assert (Hg : params_given st = params_given st) by done.
  revert Hg. generalize (params_given st) at 2. intros c Hg.
  assert (Hc : deadline_hours E c = hours) by by rewrite <- Hg.
  carry_attr Hbase Hg. clear Hbase.
  remember (user_params s1) as up eqn:Hup. symmetry in Hup.
  assert (Hhours : deadline_hours E up = hours) by (by rewrite <- Hc, <- Hg, <- Hup).
  clear Hg Hc c.
  rewrite get_bind in H.
  do 11 (apply bind_Ok in H as (? & ? & Hm & H); carry_attr Hm Hup; clear Hm).
  rewrite get_bind in H.
  do 2 (apply bind_Ok in H as (? & ? & Hm & H); carry_attr Hm Hup; clear Hm).
  apply bind_Ok in H as (? & ? & Hm & H).
  unfold _set_deadline in Hm. rewrite get_bind, Hup in Hm.
  fold (deadline_hours E up) in Hm. rewrite Hhours in Hm. unfold set_deadline in Hm.
  apply Z.ltb_lt in Hh. rewrite Hh in Hm.
  apply (on_template_sets E ["spec"] "completionDeadlineSeconds") in Hm.
  cbn [app] in Hm. carry_doc H Hm.
  by apply (doc_holds_returned E _ _ _ Hm).
Qed.

(** X19: [BuildRequestV2.render] leaves the rest of the template alone: a value
    that can be read in the template at a path of keys that parts from
    every path in [render_writes] can be read there in the document of the
    builder afterwards, whether [render] returns or raises, and so in the
    document it returns. *)
Theorem render_leaves_rest validate st T q v r st' :
  doc_of E st = Some T →
  get_path q T = Ok v →
  untouched render_writes q = true →
  render E validate st = (r, st') →
  (∃ T', doc_of E st' = Some T' ∧ get_path q T' = Ok v) ∧
  (∀ doc, r = Ok doc → get_path q doc = Ok v).
Proof.
  intros HT Hq Hu H.
  assert (Hd : doc_holds E (reads_at q v) st) by by exists T.
  pose proof (writes_render E validate q v Hu st r st' Hd H) as (T' & HT' & Hq').
  split; [by exists T' |].
  intros doc ->. pose proof (render_returns_doc E _ _ _ _ H) as Hdoc. congruence.
Qed.

(** X20: [render] refuses a builder without an API, and with [validate] set
    it raises what the validation of the user parameters raises; either
    way before the template is read or anything of the builder changes.
    [SourceBuildRequest.render] does the same. *)
Theorem render_fails_early validate st :
  (osbs_api st = None →
   render E validate st = (Raise (OsbsValidationException api_message), st) ∧
   SourceBuildRequest_render E validate st
   = (Raise (OsbsValidationException api_message), st)) ∧
  (∀ api e,
     osbs_api st = Some api → user_params_validate E (user_params st) = Raise e →
     render E true st = (Raise e, st) ∧
     SourceBuildRequest_render E true st = (Raise e, st)).
Proof.
  split.
  - intros Hn. unfold render, SourceBuildRequest_render, BaseBuildRequest_render.
    unfold mbind at 1, M_bind at 1. by rewrite !get_bind, Hn.
  - intros api e Ha He.
    unfold render, SourceBuildRequest_render, BaseBuildRequest_render.
    unfold mbind at 1, M_bind at 1. rewrite !get_bind, Ha.
    unfold mbind at 1, M_bind at 1. rewrite get_bind. unfold lift at 1. rewrite He.
    split; [done |].
    unfold mbind at 1, M_bind at 1. rewrite get_bind. unfold lift at 1. by rewrite He.
Qed.
End Rendered.

(** The sample build, rendered: its tag, its repository and its ref. *)
Lemma render_output_and_source_witness :
  ∃ doc st',
    render sample_collaborators true (request_with ∅) = (Ok doc, st') ∧
    get_path ["spec"; "output"; "to"; "name"] doc
    = Ok (PyStr "myimage-abc123-20200101000000") ∧
    get_path ["spec"; "source"; "git"; "uri"] doc
    = Ok (PyStr "https://github.com/user/reponame.git") ∧
    get_path ["spec"; "source"; "git"; "ref"] doc = Ok (PyStr "master").
Proof.
  destruct (render sample_collaborators true (request_with ∅))
    as [[doc | e] st'] eqn:H.
  - exists doc, st'. split; [reflexivity |].
    pose proof (render_output_and_source sample_collaborators true
                  (request_with ∅) doc st' H) as (H1 & H2 & H3).
    rewrite H1, H2, H3. split; [| split]; vm_compute; reflexivity.
  - exfalso. vm_compute in H. discriminate H.
Defined.

(** The sample build and the sample scratch build, rendered: their
    names. *)
Lemma render_name_and_build_id_witness :
  (∃ doc st',
     render sample_collaborators true (request_with ∅) = (Ok doc, st') ∧
     build_id st' = (Ok (PyStr "reponame-master"), st')) ∧
  (∃ doc st',
     render sample_collaborators true
       (request_on_platform {[ "scratch" := PyBool true ]} "x86_64"
          "myimage-abc123-20200101000000-x86_64")
     = (Ok doc, st') ∧
     ∃ head salt timestamp,
       "myimage-abc123-20200101000000-x86_64"
       = (head ++ "-" ++ salt ++ "-" ++ timestamp) ++ "-x86_64" ∧
       build_id st' = (Ok (PyStr ("scratch-" ++ salt ++ "-" ++ timestamp)), st')).
Proof.
  split.
  - destruct (render sample_collaborators true (request_with ∅))
      as [[doc | e] st'] eqn:H.
    + exists doc, st'. split; [reflexivity |].
      pose proof (render_name_and_build_id sample_collaborators true
                    (request_with ∅) doc st' H) as (_ & _ & Hid & Hplain & _).
      rewrite Hid, Hplain; [vm_compute; reflexivity | vm_compute; reflexivity
                           | vm_compute; reflexivity].
    + exfalso. vm_compute in H. discriminate H.
  - destruct (render sample_collaborators true
                (request_on_platform {[ "scratch" := PyBool true ]} "x86_64"
                   "myimage-abc123-20200101000000-x86_64"))
      as [[doc | e] st'] eqn:H.
    + exists doc, st'. split; [reflexivity |].
      pose proof (render_name_and_build_id sample_collaborators true
                    (request_on_platform {[ "scratch" := PyBool true ]} "x86_64"
                       "myimage-abc123-20200101000000-x86_64") doc st' H)
        as (_ & _ & Hid & _ & Hvar).
      destruct Hvar as (head & salt & ts & Htag & _ & _ & Hname);
        [left; vm_compute; reflexivity |].
      exists head, salt, ts. split.
      * destruct Htag as [(p & Hp & _ & Htag) | [_ Hno]].
        -- injection Hp as <-. exact Htag.
        -- exfalso. destruct Hno as [Hno | [Hno | (p & Hp & Hno)]];
             [discriminate Hno | discriminate Hno |].
           injection Hp as <-.
           exact (Hno "myimage-abc123-20200101000000" eq_refl).
      * rewrite Hid, Hname. reflexivity.
    + exfalso. vm_compute in H. discriminate H.
Defined.

(** The labels of the sample build from the Koji task 123. *)
Lemma render_labels_witness :
  ∃ doc st',
    render sample_collaborators true (request_for_task 123 ∅) = (Ok doc, st') ∧
    label_of "git-repo-name" doc = Some (PyStr "reponame") ∧
    label_of "git-branch" doc = Some (PyStr "master") ∧
    label_of "git-full-repo" doc = Some (PyStr "httpsgithub.comuserreponame.git") ∧
    label_of "koji-task-id" doc = Some (PyStr "123") ∧
    label_of "original-koji-task-id" doc = Some (PyStr "123").
Proof.
  destruct (render sample_collaborators true (request_for_task 123 ∅))
    as [[doc | e] st'] eqn:H.
  - exists doc, st'. split; [reflexivity |].
    pose proof (render_labels sample_collaborators true
                  (request_for_task 123 ∅) doc st' H) as (H1 & H2 & H3 & H4 & _).
    destruct (H4 123%Z eq_refl) as [H5 H6].
    rewrite H1, H2, H3, H5, H6 by (vm_compute; reflexivity).
    repeat split; vm_compute; reflexivity.
  - exfalso. vm_compute in H. discriminate H.
Defined.

(** The env list of the sample build, rendered: the placeholder of the
    template is gone and the user parameters are there. *)
Lemma render_env_witness :
  ∃ doc st',
    render sample_collaborators true (request_with ∅) = (Ok doc, st') ∧
    get_path env_path doc
    = Ok (PyList [ PyDict {[ "name" := PyStr "USER_PARAMS";
                             "value" := PyStr "<json>" ]} ]).
Proof.
  destruct (render sample_collaborators true (request_with ∅))
    as [[doc | e] st'] eqn:H.
  - exists doc, st'. split; [reflexivity |].
    destruct (render_env sample_collaborators true (request_with ∅)
                sample_template sample_env doc st')
      as [H1 _]; [vm_compute; reflexivity | vm_compute; reflexivity | exact H |].
    rewrite (H1 [] (PyDict {[ "name" := PyStr "ATOMIC_REACTOR_PLUGINS";
                              "value" := PyStr "TBD" ]}) []);
      [vm_compute; reflexivity | reflexivity | constructor | vm_compute; reflexivity].
  - exfalso. vm_compute in H. discriminate H.
Defined.

(** A worker build with a deadline of two hours, rendered. *)
Lemma render_deadline_witness :
  ∃ doc st',
    render sample_collaborators true (request_with_deadlines 2 5) = (Ok doc, st') ∧
    get_path ["spec"; "completionDeadlineSeconds"] doc = Ok (PyInt 7200).
Proof.
  destruct (render sample_collaborators true (request_with_deadlines 2 5))
    as [[doc | e] st'] eqn:H.
  - exists doc, st'. split; [reflexivity |].
    rewrite (render_deadline sample_collaborators true
               (request_with_deadlines 2 5) doc st' H);
      [vm_compute; reflexivity | vm_compute; reflexivity].
  - exfalso. vm_compute in H. discriminate H.
Defined.

(** The kind of the output of the sample template is none of the places
    that [render] writes: it is in the rendered document. *)
Lemma render_leaves_rest_witness :
  ∃ doc st',
    render sample_collaborators true (request_with ∅) = (Ok doc, st') ∧
    get_path ["spec"; "output"; "to"; "kind"] doc = Ok (PyStr "DockerImage").
Proof.
  destruct (render sample_collaborators true (request_with ∅))
    as [[doc | e] st'] eqn:H.
  - exists doc, st'. split; [reflexivity |].
    destruct (render_leaves_rest sample_collaborators true (request_with ∅)
                sample_template ["spec"; "output"; "to"; "kind"] (PyStr "DockerImage")
                (Ok doc) st')
      as [_ H1]; [vm_compute; reflexivity | vm_compute; reflexivity
                 | vm_compute; reflexivity | exact H |].
    exact (H1 doc eq_refl).
  - exfalso. vm_compute in H. discriminate H.
Defined.

(** A builder on which [set_params] was not called has no API. *)
Lemma render_fails_early_witness :
  render sample_collaborators true new_request
  = (Raise (OsbsValidationException api_message), new_request) ∧
  SourceBuildRequest_render sample_collaborators true new_request
  = (Raise (OsbsValidationException api_message), new_request).
Proof.
  apply (proj1 (render_fails_early sample_collaborators true new_request)).
  reflexivity.
Defined.

(** ** Source builds and new builders *)

Section SourceRender.
Variable E : Collaborators.

Lemma writes_SourceBuildRequest_render_name :
  writes E [["metadata"; "name"]] (SourceBuildRequest_render_name E).
Proof. intros q v Hq. unfold SourceBuildRequest_render_name. doc_walk. Qed.

Lemma writes_BaseBuildRequest_set_data_from_reactor_config data :
  writes E [["spec"; "strategy"; "customStrategy"; "secrets"]]
    (BaseBuildRequest_set_data_from_reactor_config E data).
Proof.
  intros q v Hq.
  unfold BaseBuildRequest_set_data_from_reactor_config, set_source_registry,
    set_registry_organization, BaseBuildRequest_set_required_secrets.
  doc_walk.
Qed.

#[local] Hint Resolve writes_SourceBuildRequest_render_name
  writes_BaseBuildRequest_set_data_from_reactor_config : writes.

Lemma writes_SourceBuildRequest_render validate :
  writes E base_render_writes (SourceBuildRequest_render E validate).
Proof.
  intros q v Hq. unfold base_render_writes in Hq.
  unfold SourceBuildRequest_render. doc_walk.
Qed.

Lemma keeps_params_SourceBuildRequest_render_name u :
  inv (λ st, user_params st = u) (SourceBuildRequest_render_name E).
Proof. unfold SourceBuildRequest_render_name. attr_walk. Qed.

Lemma SourceBuildRequest_render_name_Ok st u st' :
  SourceBuildRequest_render_name E st = (Ok u, st') →
  ∃ head salt timestamp,
    rsplit dash 2 (BuildUserParams.image_tag (user_params st))
    = [head; salt; timestamp] ∧
    doc_holds E (reads_at ["metadata"; "name"] (sources_name st salt timestamp)) st'.
Proof.
  unfold SourceBuildRequest_render_name. rewrite get_bind. intros H.
  destruct (rsplit dash 2 _) as [| h [| s [| t [| ? ?]]]]; try done.
  exists h, s, t. split; [done |]. cbv zeta in H. rewrite get_bind in H.
  apply (on_template_sets E ["metadata"] "name") in H. unfold sources_name.
  by destruct (truthy (scratch st)).
Qed.

(** X21: a source build, rendered, is named after the last two dash-separated
    parts of its image tag, sources-<salt>-<timestamp>, with scratch- in
    front for a scratch build, and has its image tag in
    spec.output.to.name; and what can be read in the template at a path
    that parts from every path in [base_render_writes] is in the rendered
    document. *)
Theorem source_render_rendered validate st T doc st' :
  doc_of E st = Some T →
  SourceBuildRequest_render E validate st = (Ok doc, st') →
  let tag := BuildUserParams.image_tag (user_params st) in
  (∃ head salt timestamp,
     tag = head ++ "-" ++ salt ++ "-" ++ timestamp ∧
     free_of dash salt = true ∧ free_of dash timestamp = true ∧
     get_path ["metadata"; "name"] doc = Ok (sources_name st salt timestamp)) ∧
  get_path ["spec"; "output"; "to"; "name"] doc = Ok (PyStr tag) ∧
  (∀ q v, get_path q T = Ok v → untouched base_render_writes q = true →
          get_path q doc = Ok v).
Proof.
  intros HT H tag.
  assert (Hdoc : doc_of E st' = Some doc).
  { unfold SourceBuildRequest_render in H. rewrite get_bind in H.
    destruct (osbs_api st); [| done].
    do 11 (apply bind_Ok in H as (? & ? & _ & H)).
    by apply template_Ok_doc in H. }
  split; [| split].
  - unfold SourceBuildRequest_render in H. rewrite get_bind in H.
    destruct (osbs_api st); [| done].
    apply bind_Ok in H as (a1 & sa & Hm & H).
    assert (sa = st) as ->.
    { destruct validate; [| by injection Hm]. rewrite get_bind in Hm.
      unfold lift in Hm. by injection Hm. }
    clear Hm. apply bind_Ok in H as (a2 & sb & Hm & H).
    apply SourceBuildRequest_render_name_Ok in Hm as (head & salt & ts & Hr & Hm).
    apply rsplit_three in Hr as (Htag & Hs & Hts).
    exists head, salt, ts. split; [exact Htag |]. split; [done |]. split; [done |].
    carry_doc H Hm. by apply (doc_holds_returned E _ _ _ Hm).
  - unfold SourceBuildRequest_render in H. rewrite get_bind in H.
    destruct (osbs_api st); [| done].
    remember (user_params st) as up eqn:Hup. symmetry in Hup.
    apply bind_Ok in H as (a1 & sa & Hm & H). carry_attr Hm Hup. clear Hm.
    apply bind_Ok in H as (a2 & sb & Hm & H).
    pose proof (keeps_params_SourceBuildRequest_render_name up _ _ _ Hup Hm) as Hup'.
    clear Hm Hup. apply bind_Ok in H as (a3 & sc & Hm & H).
    unfold render_output_name in Hm. rewrite get_bind, Hup' in Hm.
    apply on_template_sets in Hm. cbn [app] in Hm.
    carry_doc H Hm. by apply (doc_holds_returned E _ _ _ Hm).
  - intros q v Hq Hu.
    assert (Hd : doc_holds E (reads_at q v) st) by by exists T.
    pose proof (writes_SourceBuildRequest_render validate q v Hu st _ st' Hd H) as Hd'.
    by apply (doc_holds_returned E _ _ _ Hd').
Qed.

(** X22: a [BuildRequestV2] as its constructor leaves it has no API, so that
    [render] refuses it, and no rendered document, so that [build_id]
    raises; the first access to its template opens the outer template
    that was given, or the default one when none or an empty name was
    given, in the build JSON store. *)
Theorem new_request_unset D store outer_template customize_conf validate :
  let v2 := BuildRequestV2_init D store outer_template customize_conf in
  let name :=
    match outer_template with
    | Some t => if t =? "" then DEFAULT_OUTER_TEMPLATE D else t
    | None => DEFAULT_OUTER_TEMPLATE D
    end in
  render E validate v2 = (Raise (OsbsValidationException api_message), v2) ∧
  build_id v2 = (Raise TypeError, v2) ∧
  opened (template E v2).2 = [os_path_join store name].
Proof.
  intros v2 name. split; [done |]. split; [done |].
  assert (Hname : _outer_template_path v2 = name).
  { subst v2 name. unfold BuildRequestV2_init, str_or. simpl.
    destruct outer_template as [t |]; [| done]. simpl. by destruct (t =? ""). }
  unfold template. change (_template v2) with PyNone. cbv iota.
  rewrite Hname. change (build_json_store v2) with store.
  destruct (open_read E _); [done |]. by destruct (json_load E _).
Qed.
End SourceRender.

(** The sample build as a source build, rendered. *)
Lemma source_render_rendered_witness :
  ∃ doc st',
    SourceBuildRequest_render sample_collaborators true (request_with ∅)
    = (Ok doc, st') ∧
    (∃ head salt timestamp,
       "myimage-abc123-20200101000000" = head ++ "-" ++ salt ++ "-" ++ timestamp ∧
       get_path ["metadata"; "name"] doc
       = Ok (PyStr ("sources-" ++ salt ++ "-" ++ timestamp))) ∧
    get_path ["spec"; "output"; "to"; "name"] doc
    = Ok (PyStr "myimage-abc123-20200101000000") ∧
    get_path ["spec"; "source"; "git"; "uri"] doc = Ok (PyStr "{{GIT_URI}}").
Proof.
  destruct (SourceBuildRequest_render sample_collaborators true (request_with ∅))
    as [[doc | e] st'] eqn:H.
  - exists doc, st'. split; [reflexivity |].
    destruct (source_render_rendered sample_collaborators true (request_with ∅)
                sample_template doc st')
      as (H1 & H2 & H3); [vm_compute; reflexivity | exact H |].
    destruct H1 as (head & salt & ts & Htag & _ & _ & Hname).
    split; [| split].
    + exists head, salt, ts. split; [exact Htag | exact Hname].
    + rewrite H2. reflexivity.
    + apply H3; vm_compute; reflexivity.
  - exfalso. vm_compute in H. discriminate H.
Defined.

Section Rendered2.
Variable E : Collaborators.

(** X23: an isolated build is rendered only with a release that has the
    format of isolated releases, and its document has the labels isolated
    and isolated-release; without such a release [render] raises. *)
Theorem render_isolated validate st doc st' :
  render E validate st = (Ok doc, st') →
  truthy (isolated st) = true →
  let release := BuildUserParams.release (user_params st) in
  truthy_str release = true ∧
  ISOLATED_RELEASE_FORMAT_match E (default "" release) = true ∧
  label_of "isolated" doc = Some (label_value E (Some "true")) ∧
  label_of "isolated-release" doc = Some (label_value E release).
Proof.
  intros H Hi release. pose proof (render_returns_doc E _ _ _ _ H) as Hdoc.
  unfold render in H. apply bind_Ok in H as (d & s1 & Hbase & H).
  assert (Hg : params_given st = params_given st) by done.
  revert Hg. generalize (params_given st) at 2. intros c Hg.
  assert (Hc : BuildUserParams.release c = release) by by rewrite <- Hg.
  carry_attr Hbase Hg. carry_attr Hbase Hi. clear Hbase.
  remember (user_params s1) as up eqn:Hup. symmetry in Hup.
  assert (Hrel : BuildUserParams.release up = release)
    by (by rewrite <- Hc, <- Hg, <- Hup).
  clear Hg Hc c. rewrite get_bind in H.
  do 11 (apply bind_Ok in H as (? & ? & Hm & H);
         carry_attr Hm Hup; carry_attr Hm Hi; clear Hm).
  rewrite get_bind, Hup, Hrel in H.
  apply bind_Ok in H as (? & ? & Hm & H).
  unfold adjust_for_isolated in Hm. rewrite get_bind, Hi in Hm. cbn [negb] in Hm.
  apply bind_Ok in Hm as (? & ? & _ & Hm).
  destruct (truthy_str release); [| done]. cbn [negb] in Hm.
  destruct (ISOLATED_RELEASE_FORMAT_match E (default "" release)); [| done].
  cbn [negb] in Hm. split; [done |]. split; [done |].
  apply bind_Ok in Hm as (? & ? & Hk1 & Hk2).
  apply set_label_Ok in Hk1.
  pose proof (writes_set_label E "isolated-release" release
                ["metadata"; "labels"; "isolated"] _ eq_refl _ _ _ Hk1 Hk2) as Hk1'.
  apply set_label_Ok in Hk2. clear Hk1.
  split.
  - carry_doc H Hk1'. by apply (doc_holds_returned E _ _ _ Hk1'), reads_label in Hdoc.
  - carry_doc H Hk2. by apply (doc_holds_returned E _ _ _ Hk2), reads_label in Hdoc.
Qed.

(** X24: with repository information in the builder: when autorebuilds are
    switched off in the repository the rendered document has no triggers;
    and when they are on, a build whose Dockerfile sets the release label
    is rendered only with add_timestamp_to_release. *)
Theorem render_repo_info validate st doc st' repo_info :
  render E validate st = (Ok doc, st') →
  _repo_info st = Some repo_info →
  (is_autorebuild_enabled repo_info = false → triggers_of doc = None) ∧
  (is_autorebuild_enabled repo_info = true →
   truthy (add_timestamp_to_release repo_info) = true ∨
   has_release_label repo_info = false).
Proof.
  intros H Hri. pose proof (render_returns_doc E _ _ _ _ H) as Hdoc.
  unfold render in H. apply bind_Ok in H as (d & s1 & Hbase & H).
  carry_attr Hbase Hri. clear Hbase. rewrite get_bind in H.
  do 10 (apply bind_Ok in H as (? & ? & Hm & H); carry_attr Hm Hri; clear Hm).
  apply bind_Ok in H as (? & sa & Hm & H).
  unfold adjust_for_repo_info in Hm. rewrite get_bind, Hri in Hm.
  destruct (is_autorebuild_enabled repo_info); cbn [negb] in Hm.
  - split; [done |]. intros _.
    destruct (truthy (add_timestamp_to_release repo_info)); [by left |].
    destruct (has_release_label repo_info); [done | by right].
  - split; [| done]. intros _.
    apply pop_triggers_Ok in Hm as (T & HT & Hn).
    assert (S : st_step E sa st')
      by (revert H; apply (λ Hs : steps E _, Hs _ _ _); steps_walk).
    destruct (st_step_no_triggers E _ _ _ HT Hn S) as (T' & HT' & Hn').
    congruence.
Qed.

Lemma get_reactor_config_data_ext s s' :
  user_params s = user_params s' → osbs_api s = osbs_api s' →
  (get_reactor_config_data s).1 = (get_reactor_config_data s').1.
Proof.
  intros Hu Ha. unfold get_reactor_config_data. rewrite !get_bind, Hu.
  destruct (truthy (of_opt_dict _)); [done |].
  destruct (truthy_str _); [| done]. rewrite !get_bind, Ha.
  destruct (osbs_api s') as [api |]; [| done].
  unfold mbind, M_bind, lift. by destruct (get_config_map api _).
Qed.

(** The object that [render] hands on has the value that
    [get_reactor_config_data] returned. *)
Lemma config_value_returned s data :
  (get_reactor_config_data s).1 = Ok data →
  config_value (returned_config (user_params s) data) s = data.
Proof.
  unfold get_reactor_config_data, returned_config. rewrite get_bind.
  destruct (truthy (of_opt_dict _)); [| done]. simpl. congruence.
Qed.

(** X25: [render] takes the source registry and the organization of the
    builder from the reactor configuration, the one that
    [get_reactor_config_data] gives for the builder: an entry that is
    there replaces the attribute, and without the entry the attribute
    stays. *)
Theorem render_registries validate st doc st' data :
  render E validate st = (Ok doc, st') →
  (get_reactor_config_data st).1 = Ok data →
  source_registry st' = default (source_registry st) (data !! "source_registry") ∧
  organization st'
  = default (organization st) (data !! "registries_organization").
Proof.
  intros H Hdata.
  unfold render in H. apply bind_Ok in H as (d & s1 & Hbase & H).
  assert (Hbase' : source_registry s1
                   = default (source_registry st) (data !! "source_registry") ∧
                   organization s1
                   = default (organization st) (data !! "registries_organization")).
  { clear H. unfold BaseBuildRequest_render in Hbase. rewrite get_bind in Hbase.
    destruct (osbs_api st) as [api |] eqn:Hapi; [| done].
    remember (user_params st) as up eqn:Hup. symmetry in Hup.
    remember (source_registry st) as sr eqn:Hsr. symmetry in Hsr.
    remember (organization st) as org eqn:Horg. symmetry in Horg.
    assert (Hd : (get_reactor_config_data st).1 = Ok data) by done.
    clear Hdata.
    assert (Hext : ∀ s, user_params s = up → osbs_api s = Some api →
                        (get_reactor_config_data s).1 = Ok data).
    { intros s Hu Ha. rewrite <- Hd. apply get_reactor_config_data_ext; congruence. }
    clear Hd.
    do 9 (apply bind_Ok in Hbase as (? & ? & Hm & Hbase);
          carry_attr Hm Hup; carry_attr Hm Hapi; carry_attr Hm Hsr;
          carry_attr Hm Horg; clear Hm).
    apply bind_Ok in Hbase as (data' & sa & Hm & Hbase).
    pose proof (Hext _ Hup Hapi) as Hd. carry_attr Hm Hsr. carry_attr Hm Horg.
    carry_attr Hm Hup. carry_attr Hm Hapi.
    rewrite Hm in Hd. injection Hd as ->.
    pose proof (config_value_returned _ _ (Hext _ Hup Hapi)) as Hval.
    clear Hm Hext Hup Hapi. rewrite get_bind in Hbase.
    apply bind_Ok in Hbase as (? & sb & Hm & Hbase).
    unfold set_data_from_reactor_config in Hm. rewrite get_bind, Hval in Hm.
    apply bind_Ok in Hm as (? & sc & Hm1 & Hm).
    assert (Hsr1 : source_registry sc = default sr (data !! "source_registry") ∧
                   organization sc = org).
    { unfold set_source_registry in Hm1.
      destruct (data !! "source_registry"); injection Hm1 as _ <-;
        (split; [first [reflexivity | exact Hsr] | exact Horg]). }
    clear Hm1 Hsr Horg. destruct Hsr1 as [Hsr Horg].
    apply bind_Ok in Hm as (? & sd & Hm1 & Hm).
    assert (Hsr2 : source_registry sd = default sr (data !! "source_registry") ∧
                   organization sd = default org (data !! "registries_organization")).
    { unfold set_registry_organization in Hm1.
      destruct (data !! "registries_organization"); injection Hm1 as _ <-;
        (split; [exact Hsr | first [reflexivity | exact Horg]]). }
    clear Hm1 Hsr Horg. destruct Hsr2 as [Hsr Horg].
    carry_attr Hm Hsr. carry_attr Hm Horg. clear Hm.
    carry_attr Hbase Hsr. carry_attr Hbase Horg. done. }
  destruct Hbase' as [Hsr Horg]. clear Hbase.
  carry_attr H Hsr. carry_attr H Horg. done.
Qed.
End Rendered2.

(** The sample isolated build of release 1.0, rendered. *)
Lemma render_isolated_witness :
  ∃ doc st',
    render sample_collaborators true (isolated_request (Some "1.0")) = (Ok doc, st') ∧
    label_of "isolated" doc = Some (PyStr "true") ∧
    label_of "isolated-release" doc = Some (PyStr "1.0").
Proof.
  destruct (render sample_collaborators true (isolated_request (Some "1.0")))
    as [[doc | e] st'] eqn:H.
  - exists doc, st'. split; [reflexivity |].
    destruct (render_isolated sample_collaborators true
                (isolated_request (Some "1.0")) doc st' H)
      as (_ & _ & H1 & H2); [vm_compute; reflexivity |].
    rewrite H1, H2. split; vm_compute; reflexivity.
  - exfalso. vm_compute in H. discriminate H.
Defined.

(** The sample build for a repository without autorebuilds, rendered. *)
Lemma render_repo_info_witness :
  ∃ doc st',
    render sample_collaborators true (request_for_repo no_autorebuild) = (Ok doc, st') ∧
    triggers_of doc = None.
Proof.
  destruct (render sample_collaborators true (request_for_repo no_autorebuild))
    as [[doc | e] st'] eqn:H.
  - exists doc, st'. split; [reflexivity |].
    destruct (render_repo_info sample_collaborators true
                (request_for_repo no_autorebuild) doc st' no_autorebuild H)
      as [H1 _]; [reflexivity |].
    apply H1. reflexivity.
  - exfalso. vm_compute in H. discriminate H.
Defined.

(** The sample build with a reactor configuration that names a source
    registry and an organization, rendered. *)
Lemma render_registries_witness :
  ∃ doc st',
    render sample_collaborators true
      (request_with_reactor_config (Some registry_config) None) = (Ok doc, st') ∧
    source_registry st' = PyDict {[ "url" := PyStr "https://registry.example.com" ]} ∧
    organization st' = PyStr "org".
Proof.
  destruct (render sample_collaborators true
              (request_with_reactor_config (Some registry_config) None))
    as [[doc | e] st'] eqn:H.
  - exists doc, st'. split; [reflexivity |].
    destruct (render_registries sample_collaborators true
                (request_with_reactor_config (Some registry_config) None)
                doc st' registry_config H)
      as [H1 H2]; [vm_compute; reflexivity |].
    rewrite H1, H2. split; vm_compute; reflexivity.
  - exfalso. vm_compute in H. discriminate H.
Defined.

(** ** The trigger that gets the image stream tag *)

Lemma reads_triggers v T :
  reads_at ["spec"; "triggers"] v T → triggers_of T = Some v.
Proof.
  unfold reads_at, triggers_of, spec_of. destruct T as [| | | | | m]; try done. simpl.
  destruct (m !! "spec") as [[| | | | | spec] |]; try done. simpl.
  destruct (spec !! "triggers"); [| done]. by intros [= ->].
Qed.

Section Gone.
Variable E : Collaborators.
Variable v : pyval.

Lemma on_template_Raise f st e st' :
  on_template E f st = (Raise e, st') → st' = loaded E st.
Proof.
  destruct (doc_of E st) as [T |] eqn:HT.
  - rewrite (on_template_Some _ _ _ _ HT). destruct (f T); [done |].
    by intros [= _ <-].
  - destruct (on_template_None E f _ HT) as [e' ->]. by intros [= _ <-].
Qed.

Lemma writes_on_template p f :
  touches p f → nonnull f → writes E [p] (on_template E f).
Proof.
  intros Ht Hn q w Hu. apply pres_doc_on_template; [| done].
  apply Ht. apply (untouched_In [p] q p Hu). by left.
Qed.

(** A method that does not write the triggers keeps them, gone or there. *)
Lemma inv_gone_writes {A} (m : M A) fp :
  untouched fp ["spec"; "triggers"] = true → steps E m → writes E fp m →
  inv (doc_holds E (gone_or v)) m.
Proof.
  intros Hu Hs Hw st r st' (T & HT & [Hn | Hv]) H.
  - destruct (st_step_no_triggers E _ _ _ HT Hn (Hs _ _ _ H)) as (T' & HT' & Hn').
    exists T'. split; [done | by left].
  - destruct (Hw _ v Hu st r st' (ex_intro _ T (conj HT Hv)) H) as (T' & HT' & Hv').
    exists T'. split; [done | by right].
Qed.

Lemma inv_gone_pop :
  inv (doc_holds E (gone_or v)) (on_template E (at_key "spec" (dict_pop "triggers"))).
Proof.
  intros st [u | e] st' Hd H.
  - apply pop_triggers_Ok in H as (T & HT & Hn). exists T. split; [done | by left].
  - apply on_template_Raise in H as ->. by apply stable_doc_holds.
Qed.

Lemma inv_gone_del :
  inv (doc_holds E (gone_or v)) (on_template E (at_key "spec" (delitem "triggers"))).
Proof.
  intros st [u | e] st' Hd H.
  - apply del_triggers_Ok in H as (T & HT & Hn). exists T. split; [done | by left].
  - apply on_template_Raise in H as ->. by apply stable_doc_holds.
Qed.
End Gone.

Create HintDb gone.

(** Walks through a method that removes the triggers or leaves them. *)
Ltac gone_walk :=
  repeat first
    [ apply inv_gone_pop | apply inv_gone_del
    | solve [eauto with gone nocore]
    | eapply inv_gone_writes;
        [ | solve [steps_walk] | solve [eauto with writes nocore] ]; [reflexivity]
    | eapply inv_gone_writes;
        [ | solve [steps_walk]
          | eapply writes_on_template;
              [touches_solve
              | first [apply nonnull_at_key | apply nonnull_at_path]] ];
        [reflexivity]
    | apply pres_ret | apply pres_raise | apply pres_get | apply pres_lift
    | apply pres_template; apply stable_doc_holds
    | apply pres_read_template; apply stable_doc_holds
    | apply pres_when
    | apply pres_modify; intros ?; apply doc_holds_attr; reflexivity
    | match goal with
      | |- inv _ (_ ≫= _) => apply pres_bind; [| intros ?]
      | |- inv _ (if ?c then _ else _) => destruct c
      | |- inv _ (match ?x with _ => _ end) => destruct x
      | |- inv _ (let _ := _ in _) => cbv zeta
      end ].

Section FirstTrigger.
Variable E : Collaborators.

Lemma has_ist_trigger_Ok st b st' l :
  has_ist_trigger E st = (Ok b, st') →
  doc_holds E (reads_at ["spec"; "triggers"] (PyList l)) st →
  (l = [] ∧ b = false) ∨ any_ist_trigger l = Ok b.
Proof.
  intros H (T & HT & Hv). unfold has_ist_trigger in H.
  apply bind_Ok in H as (triggers & s1 & Hr & H).
  rewrite (read_template_Some E _ _ _ HT) in Hr.
  assert (Ht : triggers = PyList l).
  { unfold reads_at in Hv. destruct T as [| | | | | m]; try done. simpl in Hv, Hr.
    destruct (m !! "spec") as [[| | | | | spec] |]; try done. simpl in Hv, Hr.
    destruct (spec !! "triggers"); [| done]. simpl in Hv, Hr. congruence. }
  subst triggers. destruct l as [| t l].
  - left. by injection H as <- _.
  - right. change (lift (any_ist_trigger (t :: l)) s1 = (Ok b, st')) in H.
    unfold lift in H. injection H as H _. exact H.
Qed.

Lemma inv_gone_adjust_for_scratch v :
  inv (doc_holds E (gone_or v)) (adjust_for_scratch E).
Proof. unfold adjust_for_scratch. gone_walk. Qed.

Lemma inv_gone_adjust_for_repo_info v :
  inv (doc_holds E (gone_or v)) (adjust_for_repo_info E).
Proof. unfold adjust_for_repo_info. gone_walk. Qed.

Lemma inv_gone_adjust_for_isolated v release :
  inv (doc_holds E (gone_or v)) (adjust_for_isolated E release).
Proof. unfold adjust_for_isolated. gone_walk. Qed.
End FirstTrigger.

#[export] Hint Resolve inv_gone_adjust_for_scratch inv_gone_adjust_for_repo_info
  inv_gone_adjust_for_isolated : gone.

Section RenderedTriggers.
Variable E : Collaborators.

Lemma inv_gone_BaseBuildRequest_render v validate :
  inv (doc_holds E (gone_or v)) (BaseBuildRequest_render E validate).
Proof. unfold BaseBuildRequest_render. gone_walk. Qed.

(** X26: when the template has triggers, the rendered document has none or has
    the same ones, but for this: when one of them, whichever, is from an
    image stream tag, the first of them has got the image stream tag of
    the parameters as the name it is from. *)
Theorem render_first_trigger validate st T x l doc st' :
  doc_of E st = Some T →
  get_path ["spec"; "triggers"] T = Ok (PyList (x :: l)) →
  render E validate st = (Ok doc, st') →
  triggers_of doc = None ∨
  ∃ ist, any_ist_trigger (x :: l) = Ok ist ∧
    ((ist = false ∧ triggers_of doc = Some (PyList (x :: l))) ∨
     (ist = true ∧
      ∃ x', at_path ["imageChange"; "from"]
              (setitem "name"
                 (BuildUserParams.trigger_imagestreamtag (user_params st))) x
            = Ok x' ∧
            triggers_of doc = Some (PyList (x' :: l)))).
Proof.
  intros HT Hv H. pose proof (render_returns_doc E _ _ _ _ H) as Hdoc.
  unfold render in H. apply bind_Ok in H as (d & s1 & Hbase & H).
  assert (Hg : params_given st = params_given st) by done.
  revert Hg. generalize (params_given st) at 2. intros c Hg.
  assert (Hc : BuildUserParams.trigger_imagestreamtag c
               = BuildUserParams.trigger_imagestreamtag (user_params st))
    by by rewrite <- Hg.
  carry_attr Hbase Hg.
  assert (Hd : doc_holds E (gone_or (PyList (x :: l))) st)
    by (exists T; split; [done | by right]).
  pose proof (inv_gone_BaseBuildRequest_render _ validate _ _ _ Hd Hbase)
    as (T1 & HT1 & [Hn | Hv1]).
  { left.
    assert (S : st_step E s1 st')
      by (revert H; apply (λ Hs : steps E _, Hs _ _ _); steps_walk).
    destruct (st_step_no_triggers E _ _ _ HT1 Hn S) as (T' & HT' & Hn').
    congruence. }
  clear Hd Hbase.
  assert (Hd : doc_holds E (reads_at ["spec"; "triggers"] (PyList (x :: l))) s1)
    by by exists T1.
  assert (Htag : BuildUserParams.trigger_imagestreamtag (user_params s1)
                 = BuildUserParams.trigger_imagestreamtag (user_params st))
    by (by rewrite <- Hc, <- Hg).
  clear Hg Hc c. rewrite get_bind in H.
  do 2 (apply bind_Ok in H as (? & ? & Hm & H); carry_doc Hm Hd; clear Hm).
  apply bind_Ok in H as (ist & s & Hm & H).
  destruct (has_ist_trigger_Ok E _ _ _ _ Hm Hd) as [[? _] | Ha]; [done |].
  carry_doc Hm Hd. clear Hm.
  apply bind_Ok in H as (? & s2 & Hm & H).
  assert (Hv' : ∃ v, doc_holds E (gone_or v) s2 ∧
            ((ist = false ∧ v = PyList (x :: l)) ∨
             (ist = true ∧
              ∃ x', at_path ["imageChange"; "from"]
                      (setitem "name"
                         (BuildUserParams.trigger_imagestreamtag (user_params st))) x
                    = Ok x' ∧ v = PyList (x' :: l)))).
  { destruct ist; cbn [when] in Hm.
    - assert (Hp : ["spec"; "triggers"] ≠ []) by done.
      destruct (on_template_updates E _ _ _ _ _ _ Hp Hm Hd)
        as (v & Hf & (T2 & HT2 & Hv2)).
      exists v. split; [exists T2; split; [done | by right] |].
      right. split; [done |]. cbn [at_first] in Hf. rewrite Htag in Hf.
      destruct (at_path _ _ x) as [x' |]; [| done]. exists x'.
      split; [done |]. by injection Hf as <-.
    - injection Hm as _ <-. destruct Hd as (T2 & HT2 & Hv2).
      exists (PyList (x :: l)). split; [exists T2; split; [done | by right] |].
      left. done. }
  clear Hm Hd. destruct Hv' as (v & Hd & Hcases).
  lazymatch type of H with
  | ?m s2 = _ => assert (Hi : inv (doc_holds E (gone_or v)) m) by gone_walk
  end.
  pose proof (Hi _ _ _ Hd H) as Hd'.
  apply (doc_holds_returned E _ _ _ Hd') in Hdoc.
  destruct Hdoc as [Hn | Hr]; [by left |]. apply reads_triggers in Hr.
  right. exists ist. split; [done |].
  destruct Hcases as [[-> ->] | (-> & x' & Hx & ->)]; [by left | right].
  split; [done |]. by exists x'.
Qed.
End RenderedTriggers.

(** The sample auto build on a template whose second trigger is the one
    from an image stream tag: the first trigger gets the name. *)
Lemma render_first_trigger_witness :
  ∃ doc st',
    render sample_collaborators true auto_request_with_triggers = (Ok doc, st') ∧
    triggers_of doc = Some (PyList (first_named :: tl second_is_ist)).
Proof.
  destruct (render sample_collaborators true auto_request_with_triggers)
    as [[doc | e] st'] eqn:H.
  - exists doc, st'. split; [reflexivity |].
    destruct (render_first_trigger sample_collaborators true
                auto_request_with_triggers
                (with_triggers second_is_ist sample_template)
                (hd PyNone second_is_ist) (tl second_is_ist) doc st'
                ltac:(vm_compute; reflexivity) ltac:(vm_compute; reflexivity) H)
      as [Hn | (ist & Ha & [[-> Ht] | (_ & x' & Hx & Ht)])].
    + exfalso. vm_compute in H. injection H as <- _. vm_compute in Hn.
      discriminate Hn.
    + exfalso. vm_compute in Ha. discriminate Ha.
    + rewrite Ht. vm_compute in Hx. injection Hx as <-. vm_compute. reflexivity.
  - exfalso. vm_compute in H. discriminate H.
Defined.

(** * Claims about a rendered document *)

(** ** Triggers under the build variations *)

Section VariationTriggers.
Variable E : Collaborators.

#[local] Hint Resolve keeps_render_node_selectors keeps_adjust_for_repo_info
  keeps_set_label keeps_adjust_for_isolated keeps__set_deadline
  keeps_is_custom_base_image keeps_triggers_to_remove : keeps.

(** With a base image that is neither custom nor scratch the test of
    [render] says to keep the triggers. *)
Lemma triggers_to_remove_false st b st' :
  triggers_to_remove E st = (Ok b, st') →
  ¬ custom_or_scratch (base_image st) →
  b = false.
Proof.
  unfold triggers_to_remove. intros H Hno.
  apply bind_Ok in H as (triggers & s1 & Hr & H).
  assert (Hb : base_image s1 = base_image st).
  { revert Hr. apply (λ Hk : keeps base_image _, Hk _ _ _).
    apply keeps_read_template. }
  destruct (truthy triggers); [| by injection H as <- _].
  apply bind_Ok in H as (custom & s2 & Hc & H).
  unfold is_custom_base_image in Hc. rewrite get_bind, Hb in Hc.
  unfold is_from_scratch_image in H.
  destruct (truthy (base_image st)) eqn:Ht.
  - destruct (base_image st) as [| | | s | |] eqn:Hbase; simpl in Hc; try done.
    injection Hc as <- <-.
    destruct (custom_base_image_match s) eqn:Hm.
    + destruct Hno. exists s. split; [done | by left].
    + rewrite get_bind, Hb in H. injection H as <- _. simpl.
      apply String.eqb_neq. intros ->. apply Hno. exists "scratch".
      split; [done | by right].
  - injection Hc as <- <-.
    change (custom_base_image_match "") with false in H. cbv iota in H.
    rewrite get_bind, Hb in H. injection H as <- _.
    destruct (base_image st) as [| | | s | |]; try done. simpl in *.
    apply negb_false_iff, String.eqb_eq in Ht. by subst s.
Qed.
(** C2, as amended: a document rendered for a scratch build or for an
    isolated build has no spec.triggers entry.  Nothing else is removed
    for a variation, is_auto or not: for a build that is neither scratch
    nor isolated, whose base image is neither custom nor scratch and whose
    repository, if there is information on it, has autorebuilds enabled,
    the rendered document has the triggers of the template, the first of
    them with the image stream tag as the name it is from when one of them
    is from an image stream tag. *)
Theorem render_variation_triggers validate st doc st' :
  render E validate st = (Ok doc, st') →
  (truthy (scratch st) = true ∨ truthy (isolated st) = true →
   triggers_of doc = None) ∧
  (truthy (scratch st) = false → truthy (isolated st) = false →
   ¬ custom_or_scratch (base_image st') →
   (∀ repo_info, _repo_info st = Some repo_info →
                 is_autorebuild_enabled repo_info = true) →
   ∀ T x l,
     doc_of E st = Some T →
     get_path ["spec"; "triggers"] T = Ok (PyList (x :: l)) →
     ∃ x', triggers_of doc = Some (PyList (x' :: l)) ∧
           ((any_ist_trigger (x :: l) = Ok false ∧ x' = x) ∨
            (any_ist_trigger (x :: l) = Ok true ∧
             named_from (user_params st) x = Ok x'))).
Proof.
  intros H. split.
  { intros [Hs | Hi].
    - by eapply render_scratch_no_triggers.
    - by eapply render_isolated_no_triggers. }
  intros Hs Hi Hno Hrepo T x l HT Hv.
  pose proof (render_returns_doc E _ _ _ _ H) as Hdoc.
  assert (Hd : doc_holds E (reads_at ["spec"; "triggers"] (PyList (x :: l))) st)
    by by exists T.
  assert (Hri : _repo_info st = _repo_info st) by done.
  revert Hri. generalize (_repo_info st) at 2. intros ri Hri.
  assert (Hg : params_given st = params_given st) by done.
  revert Hg. generalize (params_given st) at 2. intros c Hg.
  assert (Hc : BuildUserParams.trigger_imagestreamtag c
               = BuildUserParams.trigger_imagestreamtag (user_params st))
    by by rewrite <- Hg.
  assert (Hen : ∀ repo_info, ri = Some repo_info →
                             is_autorebuild_enabled repo_info = true).
  { intros repo_info ->. by apply Hrepo. }
  clear Hrepo HT Hv T.
  unfold render in H. apply bind_Ok in H as (d & s1 & Hbase & H).
  (* [BaseBuildRequest.render], where only a scratch build loses triggers *)
  pose proof Hbase as Hbase0. carry_attr Hbase0 Hg. clear Hbase0.
  unfold BaseBuildRequest_render in Hbase. rewrite get_bind in Hbase.
  destruct (osbs_api st); [| done].
  do 5 (apply bind_Ok in Hbase as (? & ? & Hm & Hbase);
        carry_doc Hm Hd; carry_attr Hm Hs; carry_attr Hm Hi; carry_attr Hm Hri;
        clear Hm).
  apply bind_Ok in Hbase as (? & ? & Hm & Hbase).
  unfold adjust_for_scratch in Hm. rewrite get_bind, Hs in Hm.
  injection Hm as _ <-.
  carry_doc Hbase Hd. carry_attr Hbase Hi. carry_attr Hbase Hri.
  clear Hbase Hs.
  assert (Htag : BuildUserParams.trigger_imagestreamtag (user_params s1)
                 = BuildUserParams.trigger_imagestreamtag (user_params st))
    by (by rewrite <- Hc, <- Hg).
  clear Hg Hc c. rewrite get_bind in H.
  do 2 (apply bind_Ok in H as (? & ? & Hm & H);
        carry_doc Hm Hd; carry_attr Hm Hi; carry_attr Hm Hri; clear Hm).
  (* the image stream tag *)
  apply bind_Ok in H as (ist & s & Hm & H).
  destruct (has_ist_trigger_Ok E _ _ _ _ Hm Hd) as [[? _] | Ha]; [done |].
  carry_doc Hm Hd. carry_attr Hm Hi. carry_attr Hm Hri. clear Hm.
  apply bind_Ok in H as (? & s2 & Hm & H).
  assert (Hx' : ∃ x', doc_holds E (reads_at ["spec"; "triggers"] (PyList (x' :: l))) s2 ∧
            ((any_ist_trigger (x :: l) = Ok false ∧ x' = x) ∨
             (any_ist_trigger (x :: l) = Ok true ∧
              named_from (user_params st) x = Ok x'))).
  { destruct ist; cbn [when] in Hm.
    - assert (Hp : ["spec"; "triggers"] ≠ []) by done.
      destruct (on_template_updates E _ _ _ _ _ _ Hp Hm Hd) as (v & Hf & Hd').
      cbn [at_first] in Hf. rewrite Htag in Hf. fold (named_from (user_params st) x) in Hf.
      destruct (named_from (user_params st) x) as [x' |] eqn:Hx'; [| done].
      injection Hf as <-. exists x'. split; [done |]. right. by split.
    - injection Hm as _ <-. exists x. split; [done |]. left. by split. }
  assert (Hi2 : truthy (isolated s2) = false).
  { carry_attr Hm Hi. done. }
  assert (Hri2 : _repo_info s2 = ri).
  { carry_attr Hm Hri. done. }
  clear Hm Hd Hi Hri Ha Htag. destruct Hx' as (x' & Hd & Hcases).
  exists x'. split; [| done]. clear Hcases.
  (* the labels *)
  do 4 (apply bind_Ok in H as (? & ? & Hm & H);
        carry_doc Hm Hd; carry_attr Hm Hi2; carry_attr Hm Hri2; clear Hm).
  (* the test on the base image *)
  match type of H with _ ?s = _ => rename s into stk end.
  assert (Hkeep : base_image st' = base_image stk).
  { revert H. apply (λ Hk : keeps base_image _, Hk _ _ _). keeps_walk. }
  rewrite Hkeep in Hno. clear Hkeep.
  apply bind_Ok in H as (remove & sa & Hm & H).
  apply (triggers_to_remove_false _ _ _ Hm) in Hno as ->.
  carry_doc Hm Hd. carry_attr Hm Hi2. carry_attr Hm Hri2. clear Hm.
  apply bind_Ok in H as (? & sb & Hm & H). injection Hm as _ <-.
  (* the repository, and the isolated variation *)
  apply bind_Ok in H as (? & sc & Hm & H).
  assert (Hd3 : doc_holds E (reads_at ["spec"; "triggers"] (PyList (x' :: l))) sc ∧
                truthy (isolated sc) = false).
  { unfold adjust_for_repo_info in Hm. rewrite get_bind, Hri2 in Hm.
    destruct ri as [repo_info |]; [| by injection Hm as _ <-].
    rewrite (Hen repo_info eq_refl) in Hm. cbn [negb] in Hm.
    destruct (truthy (add_timestamp_to_release repo_info));
      [by injection Hm as _ <- |].
    destruct (has_release_label repo_info); [done | by injection Hm as _ <-]. }
  clear Hm Hd Hi2 Hri2. destruct Hd3 as [Hd Hi].
  rewrite get_bind in H. apply bind_Ok in H as (? & sd & Hm & H).
  unfold adjust_for_isolated in Hm. rewrite get_bind, Hi in Hm.
  injection Hm as _ <-.
  carry_doc H Hd. by apply (doc_holds_returned E _ _ _ Hd), reads_triggers in Hdoc.
Qed.
End VariationTriggers.

(** A scratch build of the sample template loses its trigger; an auto
    build on a template with two triggers keeps both, the first with the
    image stream tag as its name. *)
Lemma render_variation_triggers_witness :
  (∃ doc st',
     render sample_collaborators true (request_with {[ "scratch" := PyBool true ]})
     = (Ok doc, st') ∧
     triggers_of doc = None) ∧
  (∃ doc st',
     render sample_collaborators true auto_request_with_triggers = (Ok doc, st') ∧
     triggers_of doc = Some (PyList (first_named :: tl second_is_ist))).
Proof.
  split.
  - destruct (render sample_collaborators true
                (request_with {[ "scratch" := PyBool true ]}))
      as [[doc | e] st'] eqn:H.
    + exists doc, st'. split; [reflexivity |].
      apply (proj1 (render_variation_triggers sample_collaborators true
                      (request_with {[ "scratch" := PyBool true ]}) doc st' H)).
      left. vm_compute. reflexivity.
    + exfalso. vm_compute in H. discriminate H.
  - destruct (render sample_collaborators true auto_request_with_triggers)
      as [[doc | e] st'] eqn:H.
    + exists doc, st'. split; [reflexivity |].
      assert (Hst : st' = (render sample_collaborators true
                             auto_request_with_triggers).2) by by rewrite H.
      destruct (proj2 (render_variation_triggers sample_collaborators true
                         auto_request_with_triggers doc st' H)
                  ltac:(vm_compute; reflexivity) ltac:(vm_compute; reflexivity))
        with (T := with_triggers second_is_ist sample_template)
             (x := hd PyNone second_is_ist) (l := tl second_is_ist)
        as (x' & Ht & [[Ha _] | [_ Hx]]).
      * intros (s & Hb & _). rewrite Hst in Hb. vm_compute in Hb. discriminate Hb.
      * intros ri Hri. vm_compute in Hri. discriminate Hri.
      * vm_compute. reflexivity.
      * vm_compute. reflexivity.
      * exfalso. vm_compute in Ha. discriminate Ha.
      * rewrite Ht. vm_compute in Hx. injection Hx as <-. vm_compute. reflexivity.
    + exfalso. vm_compute in H. discriminate H.
Defined.

(** C2 as stated fails for the auto variation: an auto build of the sample
    template renders with its trigger still in the document. *)
Lemma render_auto_keeps_triggers :
  eq_True (is_auto (request_with {[ "is_auto" := PyBool true ]})) = true ∧
  ∃ doc,
    (render sample_collaborators true (request_with {[ "is_auto" := PyBool true ]})).1
      = Ok doc ∧
    triggers_of doc = Some sample_triggers_rendered.
Proof.
  split; [vm_compute; reflexivity |].
  eexists. split; vm_compute; reflexivity.
Qed.

(** ** The release of an isolated build *)

Section IsolatedRelease.
Variable E : Collaborators.

Lemma label_value_Some r :
  r ≠ "" → label_value E (Some r) = PyStr (sanitize_strings_for_openshift E r).
Proof.
  intros Hr. unfold label_value. simpl truthy_str.
  apply String.eqb_neq in Hr. by rewrite Hr.
Qed.

Lemma truthy_str_Some release :
  truthy_str release = true → ∃ r, release = Some r ∧ r ≠ "".
Proof.
  destruct release as [r |]; [| done]. simpl. intros Hr%negb_true_iff.
  exists r. split; [done |]. by apply String.eqb_neq.
Qed.

(** C7, as amended: for an isolated build, [adjust_for_isolated] raises
    the validation error when the release is empty, raises it with the
    expected pattern in the message when the release does not match the
    isolated-release format, and for a release that matches sets the
    labels isolated and isolated-release to what [set_label] makes of
    [true] and of the release.  [render] returns a document for an
    isolated build only with such a release, and the document has these
    labels and no triggers; with an empty or ill-formed release it raises,
    the validation error or what an earlier step raises. *)
Theorem isolated_build_release st :
  truthy (isolated st) = true →
  (∀ T spec md release,
     doc_of E st = Some T →
     lookup_in "spec" T = Some (PyDict spec) →
     lookup_in "metadata" T = Some (PyDict md) →
     labels_absent_or_dict md →
     (truthy_str release = false →
      ∃ st', adjust_for_isolated E release st
             = (Raise (OsbsValidationException release_required_message), st')) ∧
     (truthy_str release = true →
      ISOLATED_RELEASE_FORMAT_match E (default "" release) = false →
      ∃ st', adjust_for_isolated E release st
             = (Raise (OsbsValidationException (release_format_message E)), st')) ∧
     (∀ r, release = Some r → r ≠ "" →
        ISOLATED_RELEASE_FORMAT_match E r = true →
        ∃ st' T',
          adjust_for_isolated E release st = (Ok tt, st') ∧
          doc_of E st' = Some T' ∧
          label_of "isolated" T'
          = Some (PyStr (sanitize_strings_for_openshift E "true")) ∧
          label_of "isolated-release" T'
          = Some (PyStr (sanitize_strings_for_openshift E r)) ∧
          triggers_of T' = None)) ∧
  (∀ validate,
     let release := BuildUserParams.release (user_params st) in
     (∀ doc st',
        render E validate st = (Ok doc, st') →
        ∃ r, release = Some r ∧ r ≠ "" ∧
             ISOLATED_RELEASE_FORMAT_match E r = true ∧
             label_of "isolated" doc
             = Some (PyStr (sanitize_strings_for_openshift E "true")) ∧
             label_of "isolated-release" doc
             = Some (PyStr (sanitize_strings_for_openshift E r)) ∧
             triggers_of doc = None) ∧
     (truthy_str release = false ∨
      ISOLATED_RELEASE_FORMAT_match E (default "" release) = false →
      ∃ e st', render E validate st = (Raise e, st'))).
Proof.
  intros Hiso. split.
  { intros T spec md release HT Hspec Hmd Hl.
    destruct (adjust_for_isolated_cases E st T spec md release Hiso HT Hspec Hmd Hl)
      as (H1 & H2 & H3).
    split; [done |]. split; [done |]. intros r -> Hr Hm.
    destruct H3 as (st' & T' & Hrun & Hdoc & Hl1 & Hl2 & Htr).
    { simpl. by apply negb_true_iff, String.eqb_neq. }
    { done. }
    exists st', T'. rewrite (label_value_Some r Hr) in Hl2. by split. }
  intros validate release.
  assert (Hok : ∀ doc st',
    render E validate st = (Ok doc, st') →
    ∃ r, release = Some r ∧ r ≠ "" ∧
         ISOLATED_RELEASE_FORMAT_match E r = true ∧
         label_of "isolated" doc
         = Some (PyStr (sanitize_strings_for_openshift E "true")) ∧
         label_of "isolated-release" doc
         = Some (PyStr (sanitize_strings_for_openshift E r)) ∧
         triggers_of doc = None).
  { intros doc st' H.
    pose proof (render_isolated_no_triggers E _ _ _ _ Hiso H) as Htr.
    pose proof (render_returns_doc E _ _ _ _ H) as Hdoc.
    pose proof Hiso as Hi.
    unfold render in H. apply bind_Ok in H as (d & s1 & Hbase & H).
    assert (Hg : params_given st = params_given st) by done.
    revert Hg. generalize (params_given st) at 2. intros c Hg.
    assert (Hc : BuildUserParams.release c = release) by by rewrite <- Hg.
    carry_attr Hbase Hg. carry_attr Hbase Hi. clear Hbase.
    remember (user_params s1) as up eqn:Hup. symmetry in Hup.
    assert (Hrel : BuildUserParams.release up = release)
      by (by rewrite <- Hc, <- Hg, <- Hup).
    clear Hg Hc c. rewrite get_bind in H.
    do 11 (apply bind_Ok in H as (? & ? & Hm & H);
           carry_attr Hm Hup; carry_attr Hm Hi; clear Hm).
    rewrite get_bind, Hup, Hrel in H.
    apply bind_Ok in H as (? & ? & Hm & H).
    unfold adjust_for_isolated in Hm. rewrite get_bind, Hi in Hm. cbn [negb] in Hm.
    apply bind_Ok in Hm as (? & ? & _ & Hm).
    destruct (truthy_str release) eqn:Ht; [| done]. cbn [negb] in Hm.
    destruct (truthy_str_Some release Ht) as (r & Hr & Hne).
    rewrite Hr in Hm. change (default "" (Some r)) with r in Hm.
    destruct (ISOLATED_RELEASE_FORMAT_match E r) eqn:Hmatch; [| done].
    cbn [negb] in Hm. exists r. split; [done |]. split; [done |]. split; [done |].
    apply bind_Ok in Hm as (? & ? & Hk1 & Hk2).
    apply set_label_Ok in Hk1.
    pose proof (writes_set_label E "isolated-release" (Some r)
                  ["metadata"; "labels"; "isolated"] _ eq_refl _ _ _ Hk1 Hk2) as Hk1'.
    apply set_label_Ok in Hk2. clear Hk1.
    rewrite (label_value_Some r Hne) in Hk2.
    split; [| split; [| done]].
    - carry_doc H Hk1'.
      by apply (doc_holds_returned E _ _ _ Hk1'), reads_label in Hdoc.
    - carry_doc H Hk2.
      by apply (doc_holds_returned E _ _ _ Hk2), reads_label in Hdoc. }
  split; [exact Hok |].
  intros Hbad. destruct (render E validate st) as [[doc | e] st'] eqn:H;
    [| by exists e, st'].
  destruct (Hok doc st' eq_refl) as (r & Hr & Hne & Hm & _).
  rewrite Hr in Hbad. simpl in Hbad. apply String.eqb_neq in Hne.
  rewrite Hne, Hm in Hbad. by destruct Hbad.
Qed.
End IsolatedRelease.

(** An isolated build is refused without a release and with one that is
    no release number; the sample isolated build of release 1.0 is
    rendered with its two labels and without triggers, and the one without
    a release is not rendered. *)
Lemma isolated_build_release_witness :
  (∃ st', adjust_for_isolated sample_collaborators None (isolated_request None)
          = (Raise (OsbsValidationException release_required_message), st')) ∧
  (∃ st', adjust_for_isolated sample_collaborators (Some "latest")
            (isolated_request None)
          = (Raise (OsbsValidationException
                      (release_format_message sample_collaborators)), st')) ∧
  (∃ doc st',
     render sample_collaborators true (isolated_request (Some "1.0")) = (Ok doc, st') ∧
     label_of "isolated" doc = Some (PyStr "true") ∧
     label_of "isolated-release" doc = Some (PyStr "1.0") ∧
     triggers_of doc = None) ∧
  (∃ e st', render sample_collaborators true (isolated_request None) = (Raise e, st')).
Proof.
  destruct (isolated_build_release sample_collaborators (isolated_request None)
              ltac:(vm_compute; reflexivity)) as [Hadj Hrender].
  destruct (Hadj sample_template sample_spec sample_metadata None
              ltac:(vm_compute; reflexivity) ltac:(vm_compute; reflexivity)
              ltac:(vm_compute; reflexivity) ltac:(by left)) as (H1 & _ & _).
  destruct (Hadj sample_template sample_spec sample_metadata (Some "latest")
              ltac:(vm_compute; reflexivity) ltac:(vm_compute; reflexivity)
              ltac:(vm_compute; reflexivity) ltac:(by left)) as (_ & H2 & _).
  split; [apply H1; vm_compute; reflexivity |].
  split; [apply H2; vm_compute; reflexivity |].
  split.
  - destruct (render sample_collaborators true (isolated_request (Some "1.0")))
      as [[doc | e] st'] eqn:H.
    + exists doc, st'. split; [reflexivity |].
      destruct (isolated_build_release sample_collaborators
                  (isolated_request (Some "1.0")) ltac:(vm_compute; reflexivity))
        as [_ Hr].
      destruct (proj1 (Hr true) doc st' H) as (r & Hrel & _ & _ & Hl1 & Hl2 & Htr).
      vm_compute in Hrel. injection Hrel as <-.
      rewrite Hl1, Hl2. split; [vm_compute; reflexivity |].
      split; [vm_compute; reflexivity | exact Htr].
    + exfalso. vm_compute in H. discriminate H.
  - apply (proj2 (Hrender true)). left. vm_compute. reflexivity.
Defined.

(** C7 as stated fails where it says that rendering raises the
    validation error, and that the label is the release: an isolated build
    without a release whose image tag has no two dashes is refused with
    ValueError, by [render_name], and the release [1.0.a b], which has the
    format, gives the label [1.0.ab]. *)
Lemma render_isolated_not_as_stated :
  (render sample_collaborators true (isolated_request_tagged None "myimage")).1
  = Raise (ValueError "not enough values to unpack") ∧
  sample_release_match "1.0.a b" = true ∧
  ∃ doc,
    (render sample_collaborators true (isolated_request (Some "1.0.a b"))).1 = Ok doc ∧
    label_of "isolated-release" doc = Some (PyStr "1.0.ab").
Proof.
  split; [vm_compute; reflexivity |]. split; [vm_compute; reflexivity |].
  eexists. split; vm_compute; reflexivity.
Qed.
